(** * yggdrasilctl: the admin-socket client of yggdrasil-go

    A shallow embedding of [cmd/yggdrasilctl/main.go]: the request builder,
    the handling of the decoded response, the dispatcher and the formatters
    of [run] and [handleAll], with the properties the specification states
    about them.

    Conventions.
    - A Go [string] is a sequence of bytes: [string] of the Standard Library,
      one [ascii] per byte.
    - A Go [interface{}] holding a JSON-like value is a [Value]; a
      [map[string]interface{}] is a [gmap string Value].
    - Go's [int] and [uint] are 64 bits wide. *)

From Stdlib Require Import ZArith QArith Qround Qabs String Ascii List Lia.
From stdpp Require Import gmap strings list fin_maps sorting.

Set Warnings "-register-all".

Local Open Scope string_scope.
Local Open Scope Z_scope.

(** ** Values held by an [interface{}] *)

(** The dynamic types that occur in the program: what [encoding/json] puts
    into an [interface{}] ([nil], [bool], [float64], [string],
    [[]interface{}], [map[string]interface{}]), and the [int] that
    [strconv.Atoi] returns and the request builder stores.  A [float64] is
    represented by the rational number it denotes; the zero with a minus
    sign, which [%v] prints as [-0], is not told apart from zero. *)
Inductive Value : Type :=
| Null
| Bool (b : bool)
| Number (q : Q)
| Int (z : Z)
| Text (s : string)
| Sequence (l : list Value)
| Record (m : gmap string Value).

(** [type admin_info map[string]interface{}] *)
Abbreviation admin_info := (gmap string Value).

(** ** The library functions on strings that [run] calls *)

Module strings.

(** [strings.HasPrefix(s, prefix)] *)
Fixpoint HasPrefix (s prefix : string) : bool :=
  match prefix, s with
  | EmptyString, _ => true
  | String p prefix', String a s' => Ascii.eqb a p && HasPrefix s' prefix'
  | String _ _, EmptyString => false
  end.

(** [strings.Split(s, sep)] for a separator of one byte: the pieces of [s]
    between the occurrences of [sep]; there is always at least one piece. *)
Fixpoint Split (s : string) (sep : ascii) : list string :=
  match s with
  | EmptyString => [EmptyString]
  | String a s' =>
      if Ascii.eqb a sep then EmptyString :: Split s' sep
      else match Split s' sep with
           | t :: ts => String a t :: ts
           | [] => [String a EmptyString]
           end
  end.

(** [strings.Join(elems, sep)] *)
Definition Join (elems : list string) (sep : string) : string :=
  String.concat sep elems.

(** [strings.ToLower], as far as the program can tell: the program only
    compares the result with words in ASCII letters.  The letters of ASCII
    are lowered, and so are the two letters outside ASCII that Unicode
    lowers to a letter of ASCII: U+0130 (bytes 196 176) to [i] and U+212A
    (bytes 226 132 170) to [k].  Every other byte is kept, where Go would
    lower a letter outside ASCII to another letter outside ASCII. *)
Definition lower_byte (a : ascii) : ascii :=
  let n := N_of_ascii a in
  if ((65 <=? n) && (n <=? 90))%N then ascii_of_N (n + 32) else a.

Fixpoint ToLower (s : string) : string :=
  match s with
  | EmptyString => EmptyString
  | String a s1 =>
      let kept := String (lower_byte a) (ToLower s1) in
      match s1 with
      | EmptyString => kept
      | String b s2 =>
          if Ascii.eqb a "196" && Ascii.eqb b "176"
          then String "i" (ToLower s2)
          else
            match s2 with
            | EmptyString => kept
            | String c s3 =>
                if Ascii.eqb a "226" && Ascii.eqb b "132" && Ascii.eqb c "170"
                then String "k" (ToLower s3)
                else kept
            end
      end
  end.

End strings.

Module strconv.

Definition digit_val (a : ascii) : option Z :=
  let n := Z.of_N (N_of_ascii a) in
  if (48 <=? n) && (n <=? 57) then Some (n - 48) else None.

Fixpoint digits_val (acc : Z) (s : string) : option Z :=
  match s with
  | EmptyString => Some acc
  | String a s' =>
      match digit_val a with
      | Some d => digits_val (acc * 10 + d) s'
      | None => None
      end
  end.

(** [strconv.Atoi]: an optional sign, then one or more decimal digits, and a
    value that fits an [int]; [None] is the error result. *)
Definition Atoi (s : string) : option Z :=
  match s with
  | EmptyString => None
  | String a rest =>
      let neg := Ascii.eqb a "-" in
      let ds := if neg || Ascii.eqb a "+" then rest else s in
      match ds with
      | EmptyString => None
      | _ =>
          match digits_val 0 ds with
          | Some n =>
              let v := if neg then - n else n in
              if (- 2 ^ 63 <=? v) && (v <? 2 ^ 63) then Some v else None
          | None => None
          end
      end
  end.

Definition digit_char (d : Z) : ascii := ascii_of_N (Z.to_N (48 + d)).

Fixpoint utoa_fuel (fuel : nat) (n : Z) (acc : string) : string :=
  match fuel with
  | O => acc
  | S fuel' =>
      let acc' := String (digit_char (n mod 10)) acc in
      if n <? 10 then acc' else utoa_fuel fuel' (n / 10) acc'
  end.

(** The decimal digits of [n >= 0]. *)
Definition utoa (n : Z) : string :=
  utoa_fuel (S (Z.to_nat (Z.log2 n))) n EmptyString.

(** [strconv.Itoa], which is also what the verb [%d] prints. *)
Definition Itoa (z : Z) : string :=
  if z <? 0 then String "-" (utoa (- z)) else utoa z.

End strconv.


(** [utf8.RuneCountInString]: the padding of [%-Ns] counts runes, where a
    byte that starts no well-formed sequence counts as one rune. *)
Module utf8.

(** For a first byte [c >= 128]: the length of the sequence it starts and the
    range its second byte must lie in (the tables [first] and
    [acceptRanges]); [None] for a byte that starts no sequence. *)
Definition lead (c : N) : option (nat * N * N) :=
  (if c <? 194 then None
   else if c <=? 223 then Some (2%nat, 128, 191)
   else if c =? 224 then Some (3%nat, 160, 191)
   else if c <=? 236 then Some (3%nat, 128, 191)
   else if c =? 237 then Some (3%nat, 128, 159)
   else if c <=? 239 then Some (3%nat, 128, 191)
   else if c =? 240 then Some (4%nat, 144, 191)
   else if c <=? 243 then Some (4%nat, 128, 191)
   else if c =? 244 then Some (4%nat, 128, 143)
   else None)%N.

Definition between (lo hi : N) (a : ascii) : bool :=
  let n := N_of_ascii a in ((lo <=? n) && (n <=? hi))%N.

(** The number of bytes the first rune of a non-empty [s] takes. *)
Definition rune_len (s : string) : nat :=
  match s with
  | EmptyString => 0
  | String c rest =>
      if (N_of_ascii c <? 128)%N then 1
      else match lead (N_of_ascii c), rest with
           | Some (2%nat, lo, hi), String c1 _ =>
               if between lo hi c1 then 2 else 1
           | Some (3%nat, lo, hi), String c1 (String c2 _) =>
               if between lo hi c1 && between 128 191 c2 then 3 else 1
           | Some (4%nat, lo, hi), String c1 (String c2 (String c3 _)) =>
               if between lo hi c1 && between 128 191 c2 && between 128 191 c3
               then 4 else 1
           | _, _ => 1
           end
  end%nat.

Fixpoint drop_bytes (n : nat) (s : string) : string :=
  match n, s with
  | S n', String _ s' => drop_bytes n' s'
  | _, _ => s
  end.

Fixpoint count_runes (fuel : nat) (s : string) : nat :=
  match fuel, s with
  | S fuel', String _ _ => S (count_runes fuel' (drop_bytes (rune_len s) s))
  | _, _ => 0
  end%nat.

Definition RuneCountInString (s : string) : nat :=
  count_runes (String.length s) s.

End utf8.

(** [sort.Strings]: ascending, byte by byte. *)
Module sort.

Fixpoint insert_sorted (x : string) (l : list string) : list string :=
  match l with
  | [] => [x]
  | y :: l' => if String.leb x y then x :: l else y :: insert_sorted x l'
  end.

Definition Strings (l : list string) : list string :=
  foldr insert_sorted [] l.

End sort.

(** ** What the Go runtime and [encoding/json] provide

    Four things the program relies on are not determined by its text: how
    [fmt] prints a [float64], in which order a [range] statement visits a
    map, the date and time that the logger writes, and the JSON library.
    The development is parametric in them. *)

Class GoRuntime := {
  (** the verb [%v] on a [float64] *)
  fmt_float64 : Q -> string;
  (** the order in which the [n]-th [range] over a map that the program
      executes visits the map's entries; Go leaves it unspecified *)
  range_order : nat -> admin_info -> list (string * Value);
  (** what the logger, made with the flags [log.Flags()], writes before the
      message of its [n]-th entry: the date, the time and a space *)
  log_header : nat -> string
}.

(** Whatever the order, a [range] visits every entry of the map once. *)
Definition visits_every_entry (rt : GoRuntime) : Prop :=
  forall n m, range_order n m ≡ₚ map_to_list m.

Class EncodingJSON := {
  (** the bytes that [encoder.Encode(&send)] writes *)
  json_Encode : admin_info -> string;
  (** [decoder.Decode(&recv)] on an empty [recv] and a connection that
      delivers the given bytes: the map after the call, and the error if
      there is one *)
  json_Decode : string -> admin_info * option string;
  (** [json.MarshalIndent(v, "", "  ")] *)
  json_MarshalIndent : Value -> option string
}.

(** The connection after [connect]: whether writing to it fails, and what
    the daemon sends. *)
Record Conn := {
  write_error : option string;
  incoming : string
}.

(** ** Effects: standard output, the log buffer, panics *)

Inductive GoType := TBool | TFloat64 | TInt | TString | TSlice | TMap.

(** The dynamic type of an [interface{}]; [None] for a nil interface. *)
Definition dynamic_type (v : Value) : option GoType :=
  match v with
  | Null => None
  | Bool _ => Some TBool
  | Number _ => Some TFloat64
  | Int _ => Some TInt
  | Text _ => Some TString
  | Sequence _ => Some TSlice
  | Record _ => Some TMap
  end.

Inductive PanicValue :=
| TypeAssertionError (dynamic : option GoType) (asserted : GoType)
| ErrorValue (msg : string).

Definition type_name (t : GoType) : string :=
  match t with
  | TBool => "bool"
  | TFloat64 => "float64"
  | TInt => "int"
  | TString => "string"
  | TSlice => "[]interface {}"
  | TMap => "map[string]interface {}"
  end.

(** What [%v] prints for a recovered panic value. *)
Definition panic_text (p : PanicValue) : string :=
  match p with
  | TypeAssertionError d t =>
      "interface conversion: interface {} is "
      +:+ from_option type_name "nil" d +:+ ", not " +:+ type_name t
  | ErrorValue msg => msg
  end.

(** Standard output is the list of the texts written, one per call of a
    printing function, in order; the log buffer likewise, one text per
    entry; [ranges] counts the
    [range] statements over maps executed so far; [written] are the
    documents written to the connection. *)
Record World := mkWorld {
  stdout : list string;
  logbuf : list string;
  ranges : nat;
  written : list string
}.

(** How a piece of the program ends: it completes with a value, it panics,
    or it reaches a computation this development does not model. *)
Inductive Result (A : Type) :=
| Done (a : A)
| Panicked (p : PanicValue)
| OutsideModel (why : string).
Arguments Done {A} a.
Arguments Panicked {A} p.
Arguments OutsideModel {A} why.

Definition Go (A : Type) : Type := World -> Result A * World.

Definition ret {A} (a : A) : Go A := fun w => (Done a, w).

Definition bind {A B} (m : Go A) (k : A -> Go B) : Go B :=
  fun w =>
    match m w with
    | (Done a, w') => k a w'
    | (Panicked p, w') => (Panicked p, w')
    | (OutsideModel why, w') => (OutsideModel why, w')
    end.

Declare Scope go_scope.
Delimit Scope go_scope with go.
Notation "x <- m ;; k" := (bind m (fun x => k))
  (at level 100, m at next level, right associativity) : go_scope.
Notation "m ;; k" := (bind m (fun _ => k))
  (at level 100, right associativity) : go_scope.
Local Open Scope go_scope.

Definition panic {A} (p : PanicValue) : Go A := fun w => (Panicked p, w).

Definition outside_model {A} (why : string) : Go A :=
  fun w => (OutsideModel why, w).

Definition nl : string := String "010" EmptyString.

(** [for _, x := range l { body }] over a slice, or over the entries of a
    map once their order is fixed. *)
Fixpoint for_each {A} (l : list A) (body : A -> Go unit) : Go unit :=
  match l with
  | [] => ret tt
  | x :: l' => body x ;; for_each l' body
  end.

(** A loop that carries the variables its body assigns. *)
Fixpoint for_fold {A S} (l : list A) (body : A -> S -> Go S) (s : S) : Go S :=
  match l with
  | [] => ret s
  | x :: l' => s' <- body x s ;; for_fold l' body s'
  end.

Definition print_text (s : string) : Go unit :=
  fun w => (Done tt, mkWorld (stdout w ++ [s]) (logbuf w) (ranges w) (written w)).

(** The logger writes into [logbuffer]; an entry is the date and time, then
    the message, and it ends with a newline, which the logger adds when the
    message has none. *)
Fixpoint ends_with_newline (s : string) : bool :=
  match s with
  | EmptyString => false
  | String a EmptyString => Ascii.eqb a "010"
  | String _ s' => ends_with_newline s'
  end.

Definition logger_Output {rt : GoRuntime} (s : string) : Go unit :=
  fun w =>
    let entry :=
      log_header (length (logbuf w))
      +:+ (if ends_with_newline s then s else s +:+ nl) in
    (Done tt, mkWorld (stdout w) (logbuf w ++ [entry]) (ranges w) (written w)).

(** [for k, v := range m] over a map: the runtime picks the order. *)
Definition range_map {rt : GoRuntime} (m : admin_info) : Go (list (string * Value)) :=
  fun w =>
    (Done (range_order (ranges w) m),
     mkWorld (stdout w) (logbuf w) (S (ranges w)) (written w)).

(** ** Map index and type assertions *)

(** [m[k]]: the zero value, a nil interface, when [k] is not in [m]. *)
Definition index (m : admin_info) (k : string) : Value :=
  default Null (m !! k).

(** The two-valued assertions [x, ok := v.(T)]. *)
Definition as_float64 (v : Value) : option Q :=
  match v with Number q => Some q | _ => None end.
Definition as_bool (v : Value) : option bool :=
  match v with Bool b => Some b | _ => None end.
Definition as_string (v : Value) : option string :=
  match v with Text s => Some s | _ => None end.
Definition as_slice (v : Value) : option (list Value) :=
  match v with Sequence l => Some l | _ => None end.
Definition as_map (v : Value) : option admin_info :=
  match v with Record m => Some m | _ => None end.

(** The one-valued assertions [v.(T)], which panic on another type. *)
Definition assert_map (v : Value) : Go admin_info :=
  match v with
  | Record m => ret m
  | _ => panic (TypeAssertionError (dynamic_type v) TMap)
  end.
Definition assert_float64 (v : Value) : Go Q :=
  match v with
  | Number q => ret q
  | _ => panic (TypeAssertionError (dynamic_type v) TFloat64)
  end.
Definition assert_string (v : Value) : Go string :=
  match v with
  | Text s => ret s
  | _ => panic (TypeAssertionError (dynamic_type v) TString)
  end.
Definition assert_slice (v : Value) : Go (list Value) :=
  match v with
  | Sequence l => ret l
  | _ => panic (TypeAssertionError (dynamic_type v) TSlice)
  end.

(** [v.(map[string]interface{})[k]] *)
Definition field (v : Value) (k : string) : Go Value :=
  m <- assert_map v ;; ret (index m k).

(** [v == "text"] on an [interface{}]: true for a string with that
    content, false for any other value. *)
Definition is_text (v : Value) (s : string) : bool :=
  match v with Text t => String.eqb t s | _ => false end.

(** ** Arithmetic on [float64]

    A [float64] is the rational it denotes; the result of an operation is
    the [float64] nearest to the exact result. *)

(** The [float64] nearest to a rational, the even one of two that are
    equally near ([2 ^ (-1074)] is the smallest step). *)
Module float64.

Definition pow2 (e : Z) : Q :=
  if 0 <=? e then inject_Z (2 ^ e) else 1 # Z.to_pos (2 ^ (- e)).

(** [floor (log2 (n / d))] for positive [n] and [d]. *)
Definition log2_floor (n d : Z) : Z :=
  let e := Z.log2 n - Z.log2 d in
  if Qle_bool (pow2 e) (n # Z.to_pos d) then e else e - 1.

Definition nearest (q : Q) : Q :=
  let n := Z.abs (Qnum q) in
  let d := Z.pos (Qden q) in
  if n =? 0 then 0
  else
    let p := Z.max (log2_floor n d - 52) (- 1074) in
    let num := if 0 <=? p then n else n * 2 ^ (- p) in
    let den := if 0 <=? p then d * 2 ^ p else d in
    let m := num / den in
    let r := num mod den in
    let up := (den <? 2 * r) || ((2 * r =? den) && Z.odd m) in
    let m' := if up then m + 1 else m in
    Qred (inject_Z (Z.sgn (Qnum q) * m') * pow2 p).

(** Whether a rational is too large for a [float64]: at least half a step
    beyond the largest one. *)
Definition overflows (q : Q) : bool :=
  Qle_bool (inject_Z (2 ^ 1024 - 2 ^ 970)) (Qabs q).

(** [x / y] on [float64] for a divisor of 1 or more, where the quotient is
    in the range of [float64]: the quotient, rounded. *)
Definition div (x y : Q) : Q := nearest (x / y).

(** [math.Ldexp(m, e)] for an integer [m]: the number [m * 2 ^ e]. *)
Definition Ldexp (m e : Z) : Q := inject_Z m * pow2 e.

End float64.

(** The conversion [uint(f)] discards the fraction; Go defines it when the
    result fits 64 bits and leaves it to the implementation otherwise. *)
Definition Qtrunc (q : Q) : Z := Z.quot (Qnum q) (Z.pos (Qden q)).

Definition uint (q : Q) : Go Z :=
  let t := Qtrunc q in
  if (0 <=? t) && (t <? 2 ^ 64) then ret t
  else outside_model "uint of a float64 outside the range of uint".

Module fmt.
Section with_runtime.
Context {rt : GoRuntime}.

(** [fmt.Sprint(v)] for one operand, the verb [%v]. *)
Fixpoint Sprint (v : Value) : string :=
  match v with
  | Null => "<nil>"
  | Bool true => "true"
  | Bool false => "false"
  | Number q => fmt_float64 q
  | Int z => strconv.Itoa z
  | Text s => s
  | Sequence l => "[" +:+ String.concat " " (map Sprint l) +:+ "]"
  | Record m =>
      let shown := Sprint <$> m in
      "map["
      +:+ String.concat " "
            (map (fun k => k +:+ ":" +:+ default EmptyString (shown !! k))
                 (sort.Strings (map fst (map_to_list shown))))
      +:+ "]"
  end.

(** [fmt.Println(a, b, ...)]: the operands with a space between any two,
    then a newline; [parts] are the operands as [%v] prints them. *)
Definition Println (parts : list string) : Go unit :=
  print_text (String.concat " " parts +:+ nl).

Fixpoint spaces (n : nat) : string :=
  match n with
  | O => EmptyString
  | S n' => String " " (spaces n')
  end.

(** [fmt.Printf("%-"+fmt.Sprint(w)+"s  ", s)]: [s], spaces up to [w] runes,
    and two spaces more. *)
Definition Printf_left (w : nat) (s : string) : Go unit :=
  print_text (s +:+ spaces (w - utf8.RuneCountInString s) +:+ "  ").

(** The verb [%02d] on a [uint]. *)
Definition d02 (n : Z) : string :=
  let ds := strconv.Itoa n in
  if (String.length ds <? 2)%nat then String "0" ds else ds.

End with_runtime.
End fmt.

(** ** The program *)

Section program.
Context {rt : GoRuntime} {js : EncodingJSON}.

(** What [run] reads from [cmdLineEnv]. *)
Record CmdLineEnv := {
  args : list string;
  injson : bool;
  verbose : bool
}.

(** *** The request (main.go, lines 66 to 97) *)

(** The [switch] of lines 86 to 93, for a value that is no integer. *)
Definition coerce_word (value : string) : Value :=
  let lower := strings.ToLower value in
  if String.eqb lower "true" then Bool true
  else if String.eqb lower "false" then Bool false
  else Text value.

(** One turn of [for c, a := range cmdLineEnv.args]. *)
Definition request_step (c : nat) (a : string) (send : admin_info)
  : Go admin_info :=
  if (c =? 0)%nat then
    if strings.HasPrefix a "-" then
      logger_Output ("Ignoring flag " +:+ a
                     +:+ " as it should be specified before other parameters"
                     +:+ nl) ;;
      ret send
    else
      logger_Output ("Sending request: " +:+ a +:+ nl) ;;
      ret (<["request" := Text a]> send)
  else
    match strings.Split a "=" with
    | [] => ret send
    | [t0] => ret (<[t0 := Bool true]> send)
    | t0 :: ((_ :: _ :: _) as rest) =>
        ret (<[t0 := Text (strings.Join rest "=")]> send)
    | [t0; t1] =>
        match strconv.Atoi t1 with
        | Some i =>
            logger_Output ("Sending parameter " +:+ t0 +:+ ": "
                           +:+ strconv.Itoa i +:+ nl) ;;
            ret (<[t0 := Int i]> send)
        | None =>
            let send' := <[t0 := coerce_word t1]> send in
            logger_Output ("Sending parameter " +:+ t0 +:+ ": "
                           +:+ fmt.Sprint (index send' t0) +:+ nl) ;;
            ret send'
        end
    end.

Fixpoint request_loop (c : nat) (l : list string) (send : admin_info)
  : Go admin_info :=
  match l with
  | [] => ret send
  | a :: l' =>
      send' <- request_step c a send ;; request_loop (S c) l' send'
  end.

(** [send] after the loop, starting from [make(admin_info)]. *)
Definition build_request (env : CmdLineEnv) : Go admin_info :=
  request_loop 0 (args env) ∅.

(** *** The formatters (lines 209 to 457) *)

Definition handleDot (res : admin_info) : Go unit :=
  fmt.Println [fmt.Sprint (index res "dot")].

Definition handleGetAndSetTunTap (res : admin_info) : Go unit :=
  kvs <- range_map res ;;
  for_each kvs (fun '(k, v) =>
    fmt.Println ["Interface name:"; k] ;;
    mtu <- field v "mtu" ;;
    match as_float64 mtu with
    | Some mtu => fmt.Println ["Interface MTU:"; fmt_float64 mtu]
    | None => ret tt
    end ;;
    tap_mode <- field v "tap_mode" ;;
    match as_bool tap_mode with
    | Some tap_mode => fmt.Println ["TAP mode:"; fmt.Sprint (Bool tap_mode)]
    | None => ret tt
    end).

(** [if x, ok := v.(map[string]interface{})[key].(string); ok
    { fmt.Println(label, x) }] *)
Definition print_string_field (v : Value) (key label : string) : Go unit :=
  x <- field v key ;;
  match as_string x with
  | Some x => fmt.Println [label; x]
  | None => ret tt
  end.

(** The same with the further condition [x != "unknown"]. *)
Definition print_known_field (v : Value) (key label : string) : Go unit :=
  x <- field v key ;;
  match as_string x with
  | Some x =>
      if negb (String.eqb x "unknown") then fmt.Println [label; x] else ret tt
  | None => ret tt
  end.

(** The body of the loop of [handleGetSelf] for the entry [k], [v]. *)
Definition handleGetSelf_entry (verbose : bool) (k : string) (v : Value)
  : Go unit :=
  print_known_field v "build_name" "Build name:" ;;
  print_known_field v "build_version" "Build version:" ;;
  fmt.Println ["IPv6 address:"; k] ;;
  print_string_field v "subnet" "IPv6 subnet:" ;;
  print_string_field v "key" "Public key:" ;;
  print_string_field v "coords" "Coords:" ;;
  if verbose then
    print_string_field v "node_id" "Node ID:" ;;
    print_string_field v "box_pub_key" "Public encryption key:" ;;
    print_string_field v "box_sig_key" "Public signing key:"
  else ret tt.

Definition handleGetSelf (res : admin_info) (verbose : bool) : Go unit :=
  self <- assert_map (index res "self") ;;
  kvs <- range_map self ;;
  for_each kvs (fun '(k, v) => handleGetSelf_entry verbose k v).

(** [if _, ok := res[key]; ok { for _, v := range res[key].([]interface{})
    { fmt.Println(label, fmt.Sprint(v)) } }] *)
Definition print_each (res : admin_info) (key label : string) : Go unit :=
  match res !! key with
  | Some _ =>
      l <- assert_slice (index res key) ;;
      for_each l (fun v => fmt.Println [label; fmt.Sprint v])
  | None => ret tt
  end.

Definition handleAddsAndRemoves (res : admin_info) : Go unit :=
  print_each res "added" "Added:" ;;
  print_each res "not_added" "Not added:" ;;
  print_each res "removed" "Removed:" ;;
  print_each res "not_removed" "Not removed:".

(** The shape shared by [handleGetAllowedEncryptionPublicKeys],
    [handleGetMulticastInterfaces] and [handleGetSourceSubnets]. *)
Definition print_listing (res : admin_info) (key none some : string)
  : Go unit :=
  match res !! key with
  | None => fmt.Println [none]
  | Some Null => fmt.Println [none]
  | Some _ =>
      fmt.Println [some] ;;
      l <- assert_slice (index res key) ;;
      for_each l (fun v => fmt.Println ["-"; fmt.Sprint v])
  end.

Definition handleGetAllowedEncryptionPublicKeys (res : admin_info) : Go unit :=
  print_listing res "allowed_box_pubs" "All connections are allowed"
    "Connections are allowed only from the following public box keys:".

Definition handleGetMulticastInterfaces (res : admin_info) : Go unit :=
  print_listing res "multicast_interfaces" "No multicast interfaces found"
    "Multicast peer discovery is active on:".

Definition handleGetSourceSubnets (res : admin_info) : Go unit :=
  print_listing res "source_subnets" "No source subnets found"
    "Source subnets:".

Definition handleGetRoutes (res : admin_info) : Go unit :=
  match as_map (index res "routes") with
  | None => fmt.Println ["No routes found"]
  | Some routes =>
      if (size routes =? 0)%nat then fmt.Println ["No routes found"]
      else
        fmt.Println ["Routes:"] ;;
        kvs <- range_map routes ;;
        for_each kvs (fun '(k, v) =>
          match as_string v with
          | Some pv => fmt.Println ["-"; k; " via "; pv]
          | None => ret tt
          end)
  end.

Definition handleGetTunnelRouting (res : admin_info) : Go unit :=
  match as_bool (index res "enabled") with
  | None => fmt.Println ["Tunnel routing is disabled"]
  | Some false => fmt.Println ["Tunnel routing is disabled"]
  | Some true => fmt.Println ["Tunnel routing is enabled"]
  end.

(** [fmt.Printf(format, uint(f))] for a format with one verb [%d]. *)
Definition print_uint (before : string) (f : Q) (after : string) : Go unit :=
  n <- uint f ;; print_text (before +:+ strconv.Itoa n +:+ after).

(** [handleGetSwitchQueues] up to the statistics of the queues: for a
    response that lists queues the function computes percentages and sums
    in [float64], which this development does not model. *)
Definition handleGetSwitchQueues (res : admin_info) : Go unit :=
  v <- assert_map (index res "switchqueues") ;;
  match as_float64 (index v "queues_count") with
  | Some f => print_uint "Active queue count: " f (" queues" +:+ nl)
  | None => ret tt
  end ;;
  match as_float64 (index v "queues_size") with
  | Some f => print_uint "Active queue size: " f (" bytes" +:+ nl)
  | None => ret tt
  end ;;
  match as_float64 (index v "highest_queues_count") with
  | Some f => print_uint "Highest queue count: " f (" queues" +:+ nl)
  | None => ret tt
  end ;;
  match as_float64 (index v "highest_queues_size") with
  | Some f => print_uint "Highest queue size: " f (" bytes" +:+ nl)
  | None => ret tt
  end ;;
  match as_float64 (index v "maximum_queues_size") with
  | Some f => print_uint "Maximum queue size: " f (" bytes" +:+ nl)
  | None => ret tt
  end ;;
  match as_slice (index v "queues") with
  | Some (_ :: _) =>
      fmt.Println ["Active queues:"] ;;
      outside_model "float64 statistics of the switch queues"
  | Some [] => ret tt
  | None => ret tt
  end.

(** *** The table renderer (lines 213 to 274) *)

(** The variables that [handleVariousInfo] declares before its loops. *)
Record table_state := {
  maxWidths : gmap string nat;
  keyOrder : list string;
  keysOrdered : bool
}.

(** [maxWidths[k]], zero for a key not in the map. *)
Definition width (st : table_state) (k : string) : nat :=
  default 0%nat (maxWidths st !! k).

Definition hidden_unless_verbose (k : string) : bool :=
  String.eqb k "box_pub_key" || String.eqb k "box_sig_key"
  || String.eqb k "nodeinfo" || String.eqb k "was_mtu_fixed".

(** Lines 220 to 231: the columns, taken from the first record visited. *)
Definition order_keys (verbose : bool) (slv : Value) (st : table_state)
  : Go table_state :=
  if negb (keysOrdered st) then
    fields <- assert_map slv ;;
    kvs <- range_map fields ;;
    let shown :=
      List.filter (fun k => verbose || negb (hidden_unless_verbose k))
                  (map fst kvs) in
    ret {| maxWidths := maxWidths st;
           keyOrder := sort.Strings (keyOrder st ++ shown);
           keysOrdered := true |}
  else ret st.

(** Lines 233 to 241: one turn of the loop over the fields of a record. *)
Definition measure (slk k : string) (v : Value) (st : table_state)
  : table_state :=
  let w1 :=
    if (width st "key" <? String.length slk)%nat
    then <["key" := String.length slk]> (maxWidths st) else maxWidths st in
  let len_v := String.length (fmt.Sprint v) in
  let w2 :=
    if (default 0 (w1 !! k) <? len_v)%nat then
      if (len_v <? String.length k)%nat then <[k := String.length k]> w1
      else <[k := len_v]> w1
    else w1 in
  {| maxWidths := w2; keyOrder := keyOrder st; keysOrdered := keysOrdered st |}.

(** Lines 219 to 243: the first loop over the records of a category. *)
Definition measure_record (verbose : bool) (slk : string) (slv : Value)
  (st : table_state) : Go table_state :=
  st1 <- order_keys verbose slv st ;;
  fields <- assert_map slv ;;
  kvs <- range_map fields ;;
  ret (foldl (fun st '(k, v) => measure slk k v st) st1 kvs).

(** Lines 256 to 269: the text of the cell of column [k]. *)
Definition format_cell (k : string) (preformatted : Value) : Go string :=
  if String.eqb k "bytes_sent" || String.eqb k "bytes_recvd" then
    f <- assert_float64 preformatted ;;
    n <- uint f ;;
    ret (strconv.Itoa n)
  else if String.eqb k "uptime" || String.eqb k "last_seen" then
    f <- assert_float64 preformatted ;;
    s <- uint f ;;
    let seconds := s mod 60 in
    f' <- assert_float64 preformatted ;;
    m <- uint (float64.div f' 60) ;;
    let minutes := m mod 60 in
    f'' <- assert_float64 preformatted ;;
    hours <- uint (float64.div (float64.div f'' 60) 60) ;;
    ret (fmt.d02 hours +:+ ":" +:+ fmt.d02 minutes +:+ ":"
         +:+ fmt.d02 seconds)
  else ret (fmt.Sprint preformatted).

(** Lines 253 to 272: one row. *)
Definition print_row (st : table_state) (slk : string) (slv : Value)
  : Go unit :=
  fmt.Printf_left (width st "key") slk ;;
  for_each (keyOrder st) (fun k =>
    preformatted <- field slv k ;;
    formatted <- format_cell k preformatted ;;
    fmt.Printf_left (width st k) formatted) ;;
  fmt.Println [].

(** Lines 245 to 251: the header line. *)
Definition print_header (st : table_state) : Go unit :=
  if (0 <? length (keyOrder st))%nat then
    fmt.Printf_left (width st "key") EmptyString ;;
    for_each (keyOrder st) (fun v => fmt.Printf_left (width st v) v) ;;
    fmt.Println []
  else ret tt.

(** The body of [for _, tlv := range res]: one category. *)
Definition handle_category (verbose : bool) (tlv : Value) (st : table_state)
  : Go table_state :=
  records <- assert_map tlv ;;
  kvs <- range_map records ;;
  st' <- for_fold kvs (fun '(slk, slv) => measure_record verbose slk slv) st ;;
  print_header st' ;;
  records' <- assert_map tlv ;;
  kvs' <- range_map records' ;;
  for_each kvs' (fun '(slk, slv) => print_row st' slk slv) ;;
  ret st'.

Definition handleVariousInfo (res : admin_info) (verbose : bool) : Go unit :=
  let st0 := {| maxWidths := ∅; keyOrder := []; keysOrdered := false |} in
  kvs <- range_map res ;;
  for_fold kvs (fun '(_, tlv) => handle_category verbose tlv) st0 ;;
  ret tt.

(** *** The dispatcher (lines 173 to 207) *)

Definition one_of (s : string) (l : list string) : bool :=
  existsb (String.eqb s) l.

Definition handleAll (recv : admin_info) (verbose : bool) : Go unit :=
  req <- assert_map (index recv "request") ;;
  res <- assert_map (index recv "response") ;;
  name <- assert_string (index req "request") ;;
  let name := strings.ToLower name in
  if String.eqb name "dot" then handleDot res
  else if one_of name ["list"; "getpeers"; "getswitchpeers"; "getdht";
                       "getsessions"; "dhtping"]
  then handleVariousInfo res verbose
  else if one_of name ["gettuntap"; "settuntap"]
  then handleGetAndSetTunTap res
  else if String.eqb name "getself" then handleGetSelf res verbose
  else if String.eqb name "getswitchqueues" then handleGetSwitchQueues res
  else if one_of name ["addpeer"; "removepeer";
                       "addallowedencryptionpublickey";
                       "removeallowedencryptionpublickey";
                       "addsourcesubnet"; "addroute";
                       "removesourcesubnet"; "removeroute"]
  then handleAddsAndRemoves res
  else if String.eqb name "getallowedencryptionpublickeys"
  then handleGetAllowedEncryptionPublicKeys res
  else if String.eqb name "getmulticastinterfaces"
  then handleGetMulticastInterfaces res
  else if String.eqb name "getsourcesubnets" then handleGetSourceSubnets res
  else if String.eqb name "getroutes" then handleGetRoutes res
  else if one_of name ["settunnelrouting"; "gettunnelrouting"]
  then handleGetTunnelRouting res
  else
    match json_MarshalIndent (index recv "response") with
    | Some json => fmt.Println [json]
    | None => ret tt
    end.

(** *** [run], from the encoder on (lines 61 to 141) *)

(** Lines 106 to 132, the branch [err == nil] of the decoding: [Some code]
    when [run] returns [code] from inside the branch, [None] when control
    goes on to line 137. *)
Definition decoded (env : CmdLineEnv) (recv : admin_info) : Go (option Z) :=
  logger_Output "Response received" ;;
  if is_text (index recv "status") "error" then
    match recv !! "error" with
    | Some err =>
        fmt.Println ["Admin socket returned an error:"; fmt.Sprint err]
    | None =>
        fmt.Println
          ["Admin socket returned an error but didn't specify any error text"]
    end ;;
    ret (Some 1)
  else
    match recv !! "request" with
    | None =>
        fmt.Println ["Missing request in response (malformed response?)"] ;;
        ret (Some 1)
    | Some _ =>
        match recv !! "response" with
        | None =>
            fmt.Println ["Missing response body (malformed response?)"] ;;
            ret (Some 1)
        | Some _ =>
            res <- assert_map (index recv "response") ;;
            if injson env then
              match json_MarshalIndent (Record res) with
              | Some json => fmt.Println [json]
              | None => ret tt
              end ;;
              ret (Some 0)
            else
              handleAll recv (verbose env) ;;
              ret None
        end
    end.

(** Lines 137 to 141. *)
Definition exit_status (recv : admin_info) : Z :=
  match recv !! "status" with
  | Some v => if negb (is_text v "success") then 1 else 0
  | None => 0
  end.

(** Lines 99 to 101: [encoder.Encode(&send)] writes the document to the
    connection, and [run] panics with the error if the writing fails. *)
Definition encoder_Encode (conn : Conn) (send : admin_info) : Go unit :=
  match write_error conn with
  | Some err => panic (ErrorValue err)
  | None =>
      fun w =>
        (Done tt,
         mkWorld (stdout w) (logbuf w) (ranges w)
                 (written w ++ [json_Encode send]))
  end.

(** Lines 63 to 101: the request is built and written. *)
Definition send_request (env : CmdLineEnv) (conn : Conn) : Go unit :=
  send <- build_request env ;;
  encoder_Encode conn send.

(** Lines 105 to 141: the decoding of the response, and what follows. *)
Definition receive (env : CmdLineEnv) (conn : Conn) : Go Z :=
  let '(recv, err) := json_Decode (incoming conn) in
  returned <-
    match err with
    | None => decoded env recv
    | Some err =>
        logger_Output ("Error receiving response: " +:+ err +:+ nl) ;;
        ret None
    end ;;
  match returned with
  | Some code => ret code
  | None => ret (exit_status recv)
  end.

(** The body of [run] from line 58 on, where the connection is there. *)
Definition run_body (env : CmdLineEnv) (conn : Conn) : Go Z :=
  logger_Output "Connected" ;;
  send_request env conn ;;
  logger_Output "Request sent" ;;
  receive env conn.

(** [run] with its deferred function (lines 31 to 38): a panic is
    recovered, logged, and the log buffer is printed.  The deferred
    function's own result is dropped, and [run], whose result has no name,
    then returns the zero value. *)
Definition run (env : CmdLineEnv) (conn : Conn) : Go Z :=
  fun w =>
    match run_body env conn w with
    | (Panicked r, w') =>
        (logger_Output ("Fatal error: " +:+ panic_text r +:+ nl) ;;
         log <- (fun w => (Done (String.concat EmptyString (logbuf w)), w)) ;;
         print_text log ;;
         ret 0) w'
    | other => other
    end.

(** [os.Exit(run())]: what the process has printed, and its exit code;
    [None] when the run leaves the model. *)
Definition main (env : CmdLineEnv) (conn : Conn) (logged : list string)
  : option (list string * Z) :=
  match run env conn (mkWorld [] logged 0 []) with
  | (Done code, w) => Some (stdout w, code)
  | _ => None
  end.

End program.

(** Whether the byte [c] occurs in [s]. *)
Fixpoint contains_byte (c : ascii) (s : string) : bool :=
  match s with
  | EmptyString => false
  | String a s' => Ascii.eqb a c || contains_byte c s'
  end.

(** The world when [run] starts: nothing printed, nothing logged. *)
Definition start : World := mkWorld [] [] 0 [].

(** ** A runtime for the examples

    The examples below are run with a runtime whose [range] visits a map by
    ascending key, and whose [%v] prints the integers below a million the
    way Go does (no example prints another [float64]). *)

Definition by_ascending_key (m : admin_info) : list (string * Value) :=
  map (fun k => (k, index m k)) (sort.Strings (map fst (map_to_list m))).

Definition small_integer (q : Q) : string :=
  if (Z.pos (Qden q) =? 1) && (Z.abs (Qnum q) <? 1000000)
  then strconv.Itoa (Qnum q) else "?".

Definition example_runtime : GoRuntime := {|
  fmt_float64 := small_integer;
  range_order := fun _ m => by_ascending_key m;
  log_header := fun _ => "2019/01/13 12:00:00 "
|}.

(** ** The specification's coercion rule

    Section 4.2 of the specification, for a token [key=value] with one [=]:
    an integer if [value] parses as one, else a boolean if [value] is
    [true] or [false] in any mix of upper and lower case, else the text. *)

(** Equality of two byte strings up to the case of ASCII letters. *)
Fixpoint equal_fold (s t : string) : bool :=
  match s, t with
  | EmptyString, EmptyString => true
  | String a s', String b t' =>
      Ascii.eqb (strings.lower_byte a) (strings.lower_byte b)
      && equal_fold s' t'
  | _, _ => false
  end.

Definition coerced (value : string) : Value :=
  match strconv.Atoi value with
  | Some i => Int i
  | None =>
      if equal_fold value "true" then Bool true
      else if equal_fold value "false" then Bool false
      else Text value
  end.

(** A word of lower-case ASCII without [i] and [k]. *)
Definition plain_byte (b : ascii) : bool :=
  let n := N_of_ascii b in
  ((n <? 128) && negb ((65 <=? n) && (n <=? 90))
   && negb (n =? 105) && negb (n =? 107))%N.

Fixpoint plain_word (t : string) : bool :=
  match t with
  | EmptyString => true
  | String b t' => plain_byte b && plain_word t'
  end.

(** ** A JSON library for the examples

    The examples are run with the encoder and the decoder below, which
    follow [encoding/json]: the encoder writes an object with its keys in
    ascending order, escapes the quote, the backslash, control bytes and
    the bytes [<], [>] and [&], replaces a byte that is no part of valid
    UTF-8 by U+FFFD, and ends the document with a newline; the decoder
    reads one value from the stream, wants it to be an object or [null],
    and makes a [float64] of every number.  The decoder puts no bound on
    the nesting of arrays and objects, as the library did before it got
    one of ten thousand levels. *)

Module json.

Definition dquote : ascii := "034".
Definition backslash : ascii := "092".

Definition hex_digit (n : N) : ascii :=
  (if n <? 10 then ascii_of_N (48 + n) else ascii_of_N (87 + n))%N.

(** The bytes that the encoder writes as they are ([htmlSafeSet]). *)
Definition html_safe (b : ascii) : bool :=
  let n := N_of_ascii b in
  ((32 <=? n) && (n <? 128) && negb (n =? 34) && negb (n =? 92)
   && negb (n =? 60) && negb (n =? 62) && negb (n =? 38))%N.

(** What the encoder writes for a byte below 128. *)
Definition escape_byte (b : ascii) : string :=
  let n := N_of_ascii b in
  if html_safe b then String b EmptyString
  else if (n =? 34)%N || (n =? 92)%N then String backslash (String b EmptyString)
  else if (n =? 10)%N then String backslash "n"
  else if (n =? 13)%N then String backslash "r"
  else if (n =? 9)%N then String backslash "t"
  else String backslash
         (String "u" (String "0" (String "0"
            (String (hex_digit (n / 16)) (String (hex_digit (n mod 16))
               EmptyString))))).

Fixpoint take_bytes (n : nat) (s : string) : string :=
  match n, s with
  | S n', String a s' => String a (take_bytes n' s')
  | _, _ => EmptyString
  end.

(** U+2028 and U+2029 (bytes 226 128 168 and 226 128 169), which the
    encoder escapes: the last digit of the escape. *)
Definition line_separator (s : string) : option ascii :=
  match s with
  | String a (String b (String c _)) =>
      if Ascii.eqb a "226" && Ascii.eqb b "128" then
        if Ascii.eqb c "168" then Some "8"%char
        else if Ascii.eqb c "169" then Some "9"%char
        else None
      else None
  | _ => None
  end.

Fixpoint quote_bytes (fuel : nat) (s : string) : string :=
  match fuel, s with
  | S fuel', String b s' =>
      if (N_of_ascii b <? 128)%N then escape_byte b +:+ quote_bytes fuel' s'
      else
        let n := utf8.rune_len s in
        if (n =? 1)%nat
        then String backslash "ufffd" +:+ quote_bytes fuel' s'
        else
          match line_separator s with
          | Some d =>
              String backslash "u202" +:+ String d EmptyString
              +:+ quote_bytes fuel' (utf8.drop_bytes n s)
          | None =>
              take_bytes n s +:+ quote_bytes fuel' (utf8.drop_bytes n s)
          end
  | _, _ => EmptyString
  end.

(** A string as the encoder writes it. *)
Definition quote (s : string) : string :=
  String dquote (quote_bytes (String.length s) s +:+ String dquote EmptyString).

(** A [float64] as the encoder writes it: the digits of an integer; the
    examples encode no other [float64], and the model writes [0] for
    one. *)
Definition float_text (q : Q) : string :=
  if Z.pos (Qden q) =? 1 then strconv.Itoa (Qnum q) else "0".

(** [json.Marshal(v)] *)
Fixpoint Marshal (v : Value) : string :=
  match v with
  | Null => "null"
  | Bool true => "true"
  | Bool false => "false"
  | Number q => float_text q
  | Int z => strconv.Itoa z
  | Text s => quote s
  | Sequence l => "[" +:+ String.concat "," (map Marshal l) +:+ "]"
  | Record m =>
      let members := Marshal <$> m in
      "{"
      +:+ String.concat ","
            (map (fun k => quote k +:+ ":"
                           +:+ default EmptyString (members !! k))
                 (sort.Strings (map fst (map_to_list members))))
      +:+ "}"
  end.

(** [encoder.Encode(&send)]: the document and a newline. *)
Definition Encode (send : admin_info) : string :=
  Marshal (Record send) +:+ nl.

Fixpoint indent (depth : nat) : string :=
  match depth with
  | O => EmptyString
  | S d => "  " +:+ indent d
  end.

(** [json.MarshalIndent(v, "", "  ")], written with [depth] levels around
    it. *)
Fixpoint MarshalIndent_at (depth : nat) (v : Value) : string :=
  match v with
  | Sequence [] => "[]"
  | Sequence l =>
      "[" +:+ nl +:+ indent (S depth)
      +:+ String.concat ("," +:+ nl +:+ indent (S depth))
            (map (MarshalIndent_at (S depth)) l)
      +:+ nl +:+ indent depth +:+ "]"
  | Record m =>
      let members := MarshalIndent_at (S depth) <$> m in
      match sort.Strings (map fst (map_to_list members)) with
      | [] => "{}"
      | keys =>
          "{" +:+ nl +:+ indent (S depth)
          +:+ String.concat ("," +:+ nl +:+ indent (S depth))
                (map (fun k => quote k +:+ ": "
                               +:+ default EmptyString (members !! k)) keys)
          +:+ nl +:+ indent depth +:+ "}"
      end
  | _ => Marshal v
  end.

Definition MarshalIndent (v : Value) : option string :=
  Some (MarshalIndent_at 0 v).

(** *** The decoder *)

(** The result of reading a piece of the stream: the value read, the rest
    of the stream, and the error that the decoder has saved on the way (a
    number too large for a [float64] is read as [nil], and reported at the
    end); or the error that stops the reading.  The texts of the errors are
    shortened. *)
Inductive parsed (A : Type) :=
| Parsed (a : A) (rest : string) (saved : option string)
| Failed (why : string).
Arguments Parsed {A} a rest saved.
Arguments Failed {A} why.

Definition first_error (e1 e2 : option string) : option string :=
  match e1 with
  | Some _ => e1
  | None => e2
  end.

Definition is_space (a : ascii) : bool :=
  let n := N_of_ascii a in
  ((n =? 32) || (n =? 9) || (n =? 10) || (n =? 13))%N.

Fixpoint skip_spaces (s : string) : string :=
  match s with
  | String a s' => if is_space a then skip_spaces s' else s
  | EmptyString => s
  end.

Definition hex_val (a : ascii) : option N :=
  let n := N_of_ascii a in
  (if (48 <=? n) && (n <=? 57) then Some (n - 48)
   else if (97 <=? n) && (n <=? 102) then Some (n - 87)
   else if (65 <=? n) && (n <=? 70) then Some (n - 55)
   else None)%N.

(** Four hexadecimal digits at the head of [s]. *)
Definition hex4 (s : string) : option (N * string) :=
  match s with
  | String a (String b (String c (String d rest))) =>
      match hex_val a, hex_val b, hex_val c, hex_val d with
      | Some a, Some b, Some c, Some d =>
          Some (((a * 16 + b) * 16 + c) * 16 + d, rest)%N
      | _, _, _, _ => None
      end
  | _ => None
  end.

Definition byte (n : N) : ascii := ascii_of_N n.

Definition replacement : string :=
  String (byte 239) (String (byte 191) (String (byte 189) EmptyString)).

(** [utf8.EncodeRune] *)
Definition EncodeRune (r : N) : string :=
  (if r <? 128 then String (byte r) EmptyString
   else if r <? 2048 then
     String (byte (192 + r / 64)) (String (byte (128 + r mod 64)) EmptyString)
   else if ((55296 <=? r) && (r <=? 57343)) || (1114111 <? r) then replacement
   else if r <? 65536 then
     String (byte (224 + r / 4096))
       (String (byte (128 + (r / 64) mod 64))
          (String (byte (128 + r mod 64)) EmptyString))
   else
     String (byte (240 + r / 262144))
       (String (byte (128 + (r / 4096) mod 64))
          (String (byte (128 + (r / 64) mod 64))
             (String (byte (128 + r mod 64)) EmptyString))))%N.

(** The byte that a one-letter escape stands for. *)
Definition simple_escape (e : ascii) : option ascii :=
  let n := N_of_ascii e in
  (if (n =? 34) || (n =? 92) || (n =? 47) then Some e
   else if n =? 98 then Some (byte 8)
   else if n =? 102 then Some (byte 12)
   else if n =? 110 then Some (byte 10)
   else if n =? 114 then Some (byte 13)
   else if n =? 116 then Some (byte 9)
   else None)%N.

(** The second half of a surrogate pair [\uXXXX\uXXXX], when [s] begins with
    an escape that completes the first half [r1]: the rune, and the rest. *)
Definition low_surrogate (r1 : N) (s : string) : option (N * string) :=
  match s with
  | String b (String u s') =>
      if Ascii.eqb b backslash && Ascii.eqb u "u" then
        match hex4 s' with
        | Some (r2, rest) =>
            (if (r1 <? 56320) && (56320 <=? r2) && (r2 <=? 57343)
             then Some ((r1 - 55296) * 1024 + (r2 - 56320) + 65536, rest)
             else None)%N
        | None => None
        end
      else None
  | _ => None
  end.

Definition add_text {A B} (f : A -> B) (p : parsed A) : parsed B :=
  match p with
  | Parsed a rest saved => Parsed (f a) rest saved
  | Failed why => Failed why
  end.

(** The text of a string literal, from after its opening quote. *)
Fixpoint unquote (fuel : nat) (s : string) : parsed string :=
  match fuel, s with
  | S fuel', String c s' =>
      let n := N_of_ascii c in
      if (n =? 34)%N then Parsed EmptyString s' None
      else if (n =? 92)%N then
        match s' with
        | EmptyString => Failed "unexpected EOF"
        | String e s'' =>
            match simple_escape e with
            | Some b => add_text (String b) (unquote fuel' s'')
            | None =>
                if Ascii.eqb e "u" then
                  match hex4 s'' with
                  | Some (r, s3) =>
                      if ((55296 <=? r) && (r <=? 57343))%N then
                        match low_surrogate r s3 with
                        | Some (rune, s5) =>
                            add_text (String.append (EncodeRune rune))
                                     (unquote fuel' s5)
                        | None =>
                            add_text (String.append replacement)
                                     (unquote fuel' s3)
                        end
                      else
                        add_text (String.append (EncodeRune r))
                                 (unquote fuel' s3)
                  | None =>
                      Failed "invalid character in \u hexadecimal character escape"
                  end
                else Failed "invalid character in string escape code"
            end
        end
      else if (n <? 32)%N then Failed "invalid character in string literal"
      else if (n <? 128)%N then add_text (String c) (unquote fuel' s')
      else
        let k := utf8.rune_len s in
        if (k =? 1)%nat
        then add_text (String.append replacement) (unquote fuel' s')
        else add_text (String.append (take_bytes k s))
                      (unquote fuel' (utf8.drop_bytes k s))
  | _, _ => Failed "unexpected EOF"
  end.

(** The decimal digits at the head of [s]: their number, the value they
    have after [acc], and the rest of [s]. *)
Fixpoint digits (acc : Z) (s : string) : nat * Z * string :=
  match s with
  | String a s' =>
      match strconv.digit_val a with
      | Some d => let '(n, v, rest) := digits (acc * 10 + d) s' in (S n, v, rest)
      | None => (O, acc, s)
      end
  | EmptyString => (O, acc, s)
  end.

(** A number literal after its integer part of [n_int] digits: the
    fraction and the exponent if there are any, and then the [float64]
    nearest to the mantissa times the power of ten. *)
Definition number_after_int (neg : bool) (n_int : nat) (int : Z) (s2 : string)
  : parsed Value :=
  if (n_int =? 0)%nat then Failed "invalid character in numeric literal"
  else
    let '(n_frac, mantissa, s3, bad_frac) :=
      match s2 with
      | String c s' =>
          if Ascii.eqb c "." then
            let '(n, v, rest) := digits int s' in (n, v, rest, (n =? 0)%nat)
          else (O, int, s2, false)
      | EmptyString => (O, int, s2, false)
      end in
    let '(exponent, s4, bad_exp) :=
      match s3 with
      | String e s' =>
          if Ascii.eqb e "e" || Ascii.eqb e "E" then
            let '(minus, s'') :=
              match s' with
              | String c t =>
                  if Ascii.eqb c "-" then (true, t)
                  else if Ascii.eqb c "+" then (false, t)
                  else (false, s')
              | EmptyString => (false, s')
              end in
            let '(n, v, rest) := digits 0 s'' in
            (if minus then - v else v, rest, (n =? 0)%nat)
          else (0, s3, false)
      | EmptyString => (0, s3, false)
      end in
    if bad_frac || bad_exp then Failed "invalid character in numeric literal"
    else
      let m := if neg then - mantissa else mantissa in
      let e10 := exponent - Z.of_nat n_frac in
      let q := if 0 <=? e10 then inject_Z (m * 10 ^ e10)
               else m # Z.to_pos (10 ^ (- e10)) in
      if float64.overflows q
      then Parsed Null s4
             (Some "json: cannot unmarshal number into Go value of type float64")
      else Parsed (Number (float64.nearest q)) s4 None.

(** A number literal: a sign, and an integer part that is [0] or begins
    with another digit. *)
Definition number (s : string) : parsed Value :=
  let '(neg, s1) :=
    match s with
    | String c s' => if Ascii.eqb c "-" then (true, s') else (false, s)
    | EmptyString => (false, s)
    end in
  let '(n_int, int, s2) :=
    match s1 with
    | String c s' => if Ascii.eqb c "0" then (1%nat, 0, s') else digits 0 s1
    | EmptyString => digits 0 s1
    end in
  number_after_int neg n_int int s2.

(** A literal [true], [false] or [null]. *)
Definition literal (word : string) (v : Value) (s : string) : parsed Value :=
  if strings.HasPrefix s word
  then Parsed v (utf8.drop_bytes (String.length word) s) None
  else Failed "invalid character in literal".

(** One value, then the items of an array after its first, and the members
    of an object after its first. *)
Fixpoint value (fuel : nat) (s : string) : parsed Value :=
  match fuel with
  | O => Failed "unexpected EOF"
  | S fuel' =>
      match skip_spaces s with
      | EmptyString => Failed "unexpected EOF"
      | String c s' =>
          let n := N_of_ascii c in
          if (n =? 123)%N then
            match skip_spaces s' with
            | String "}" rest => Parsed (Record ∅) rest None
            | _ => members fuel' ∅ None s'
            end
          else if (n =? 91)%N then
            match skip_spaces s' with
            | String "]" rest => Parsed (Sequence []) rest None
            | _ => items fuel' [] None s'
            end
          else if (n =? 34)%N then
            add_text Text (unquote (String.length s') s')
          else if (n =? 116)%N then literal "true" (Bool true) (String c s')
          else if (n =? 102)%N then literal "false" (Bool false) (String c s')
          else if (n =? 110)%N then literal "null" Null (String c s')
          else if (n =? 45)%N || ((48 <=? n) && (n <=? 57))%N
          then number (String c s')
          else Failed "invalid character looking for beginning of value"
      end
  end
with items (fuel : nat) (acc : list Value) (saved : option string)
  (s : string) : parsed Value :=
  match fuel with
  | O => Failed "unexpected EOF"
  | S fuel' =>
      match value fuel' s with
      | Failed why => Failed why
      | Parsed v rest saved' =>
          let saved := first_error saved saved' in
          match skip_spaces rest with
          | String "," rest' => items fuel' (acc ++ [v]) saved rest'
          | String "]" rest' => Parsed (Sequence (acc ++ [v])) rest' saved
          | EmptyString => Failed "unexpected EOF"
          | _ => Failed "invalid character after array element"
          end
      end
  end
with members (fuel : nat) (acc : gmap string Value) (saved : option string)
  (s : string) : parsed Value :=
  match fuel with
  | O => Failed "unexpected EOF"
  | S fuel' =>
      match skip_spaces s with
      | EmptyString => Failed "unexpected EOF"
      | String q s1 =>
          if negb (Ascii.eqb q dquote)
          then Failed "invalid character looking for beginning of object key string"
          else
            match unquote (String.length s1) s1 with
            | Failed why => Failed why
            | Parsed key s2 _ =>
                match skip_spaces s2 with
                | EmptyString => Failed "unexpected EOF"
                | String ":" s3 =>
                    match value fuel' s3 with
                    | Failed why => Failed why
                    | Parsed v rest saved' =>
                        let saved := first_error saved saved' in
                        match skip_spaces rest with
                        | String "," rest' =>
                            members fuel' (<[key := v]> acc) saved rest'
                        | String "}" rest' =>
                            Parsed (Record (<[key := v]> acc)) rest' saved
                        | EmptyString => Failed "unexpected EOF"
                        | _ =>
                            Failed "invalid character after object key:value pair"
                        end
                    end
                | _ => Failed "invalid character after object key"
                end
            end
      end
  end.

(** What the type of the value read is called in the error. *)
Definition kind (v : Value) : string :=
  match v with
  | Bool _ => "bool"
  | Number _ | Int _ => "number"
  | Text _ => "string"
  | Sequence _ => "array"
  | _ => "object"
  end.

(** [decoder.Decode(&recv)] into an empty map.  The decoder takes one
    value off the stream and leaves what follows for the next call: at the
    top level a literal, a number or a string ends at the first byte that
    is no part of it, whatever that byte is. *)
Definition Decode (stream : string) : admin_info * option string :=
  let mismatch v :=
    Some ("json: cannot unmarshal " +:+ kind v
          +:+ " into Go value of type main.admin_info") in
  match skip_spaces stream with
  | EmptyString => (∅, Some "EOF")
  | s =>
      match value (S (String.length s)) s with
      | Failed why => (∅, Some why)
      | Parsed (Record m) _ saved => (m, saved)
      | Parsed Null _ _ => (∅, None)
      | Parsed v _ _ => (∅, mismatch v)
      end
  end.

End json.

(** The JSON library of the examples. *)
Definition example_json : EncodingJSON := {|
  json_Encode := json.Encode;
  json_Decode := json.Decode;
  json_MarshalIndent := json.MarshalIndent
|}.

(** ** The specification's request

    Section 3 of the specification: the request has a name, the first
    token, and parameters, one per later token; section 4.4: the document
    has the parameters beside the name, at the top level. *)

(** A token cut at its first [=]: what stands before it, and what stands
    after it if there is one. *)
Fixpoint cut (a : string) : string * option string :=
  match a with
  | EmptyString => (EmptyString, None)
  | String b a' =>
      if Ascii.eqb b "=" then (EmptyString, Some a')
      else let '(k, v) := cut a' in (String b k, v)
  end.

(** The parameter that a token stands for (section 4.2). *)
Definition param (a : string) : string * Value :=
  match cut a with
  | (k, None) => (k, Bool true)
  | (k, Some v) => (k, if contains_byte "=" v then Text v else coerced v)
  end.

Definition add_param (m : admin_info) (a : string) : admin_info :=
  <[(param a).1 := (param a).2]> m.

(** The parameters of a request, a later token replacing an earlier one
    with the same key. *)
Definition params (tokens : list string) : admin_info :=
  foldl add_param ∅ tokens.

(** [float64(z)] *)
Definition float64_of_int (z : Z) : Q := float64.nearest (inject_Z z).

(** A value of the request as it reads after a journey through JSON: the
    decoder makes a [float64] of every number. *)
Fixpoint as_decoded (v : Value) : Value :=
  match v with
  | Int z => Number (float64_of_int z)
  | Sequence l => Sequence (map as_decoded l)
  | Record m => Record (as_decoded <$> m)
  | _ => v
  end.

(** The frame of a step that only logs: the value, and a world that
    differs from the one before in the log buffer at most. *)
Definition only_logs {A} (m : Go A) (a : A) : Prop :=
  forall w, exists w',
    m w = (Done a, w') /\ stdout w' = stdout w /\ ranges w' = ranges w
    /\ written w' = written w.

(** ** Notions used in the statements about the formatters *)

(** The world after some more texts have been printed. *)
Definition printed (w : World) (texts : list string) : World :=
  mkWorld (stdout w ++ texts) (logbuf w) (ranges w) (written w).

(** The fields that [handleGetSelf] reads with a two-valued assertion, each
    with the label of its line. *)
Definition self_fields : list (string * string) :=
  [("build_name", "Build name:"); ("build_version", "Build version:");
   ("subnet", "IPv6 subnet:"); ("key", "Public key:"); ("coords", "Coords:");
   ("node_id", "Node ID:"); ("box_pub_key", "Public encryption key:");
   ("box_sig_key", "Public signing key:")].

(** The line that [fmt.Println(label, x)] prints. *)
Definition labelled (label x : string) : string :=
  String.concat " " [label; x] +:+ nl.

Definition line_if (label : string) (x : option string) : list string :=
  match x with
  | Some x => [labelled label x]
  | None => []
  end.

Definition known (x : option string) : option string :=
  match x with
  | Some x => if negb (String.eqb x "unknown") then Some x else None
  | None => None
  end.

(** What [handleGetSelf] prints for an entry whose value is a record. *)
Definition self_lines (verbose : bool) (k : string) (fields : admin_info)
  : list string :=
  let get key := as_string (index fields key) in
  (line_if "Build name:" (known (get "build_name"))
   ++ line_if "Build version:" (known (get "build_version"))
   ++ [labelled "IPv6 address:" k]
   ++ line_if "IPv6 subnet:" (get "subnet")
   ++ line_if "Public key:" (get "key")
   ++ line_if "Coords:" (get "coords")
   ++ (if verbose then
         line_if "Node ID:" (get "node_id")
         ++ line_if "Public encryption key:" (get "box_pub_key")
         ++ line_if "Public signing key:" (get "box_sig_key")
       else []))%list.

(** Two texts that differ at a place where both have a byte. *)
Fixpoint diverge (s t : string) : bool :=
  match s, t with
  | String a s', String b t' => if Ascii.eqb a b then diverge s' t' else true
  | _, _ => false
  end.

(** A piece of program that prints the given texts and does nothing
    else. *)
Definition prints (m : Go unit) (texts : list string) : Prop :=
  forall w, m w = (Done tt, printed w texts).

(** The texts of the header line for the state [st] (lines 245 to 251):
    none when there is no column. *)
Definition header_texts (st : table_state) : list string :=
  let cell w s := s +:+ fmt.spaces (w - utf8.RuneCountInString s) +:+ "  " in
  match keyOrder st with
  | [] => []
  | _ :: _ =>
      (cell (width st "key") EmptyString
       :: map (fun v => cell (width st v) v) (keyOrder st)) ++ [nl]
  end%list.

(** What a category may do to the variables of [handleVariousInfo]: the
    widths do not shrink, and the columns, once they have been chosen,
    stay. *)
Definition carried_over (st st' : table_state) : Prop :=
  (forall k, (width st k <= width st' k)%nat)
  /\ (keysOrdered st = true ->
      keyOrder st' = keyOrder st /\ keysOrdered st' = true).

(** ** What the JSON library of the examples carries *)

(** [utf8.ValidString] *)
Fixpoint valid_bytes (fuel : nat) (s : string) : bool :=
  match fuel, s with
  | S fuel', String b s' =>
      if (N_of_ascii b <? 128)%N then valid_bytes fuel' s'
      else
        let n := utf8.rune_len s in
        if (n =? 1)%nat then false
        else valid_bytes fuel' (utf8.drop_bytes n s)
  | _, _ => true
  end.

Definition ValidString (s : string) : bool :=
  valid_bytes (String.length s) s.

(** The values that the request builder stores, with texts in valid
    UTF-8. *)
Definition sendable (v : Value) : Prop :=
  match v with
  | Bool _ => True
  | Int z => - 2 ^ 63 <= z < 2 ^ 63
  | Text s => ValidString s = true
  | _ => False
  end.

Definition carried_by_example_json (m : admin_info) : Prop :=
  map_Forall (fun k v => ValidString k = true /\ sendable v) m.

Definition is_digit (c : ascii) : bool :=
  let n := N_of_ascii c in ((48 <=? n) && (n <=? 57))%N.

(** *** The integers of the specification

    What the specification calls a value that parses as an integer, in its
    own terms and not in those of [strconv.Atoi]: an optional sign and one
    or more decimal digits, read by the place of each digit, that denote a
    number in the range of a 64-bit [int]. *)
Fixpoint all_digits (s : string) : bool :=
  match s with
  | EmptyString => true
  | String a s' => is_digit a && all_digits s'
  end.

(** The number that the digits [s] denote: every digit counts by its
    place. *)
Fixpoint decimal_value (s : string) : Z :=
  match s with
  | EmptyString => 0
  | String a s' =>
      (Z.of_N (N_of_ascii a) - 48) * 10 ^ Z.of_nat (String.length s')
      + decimal_value s'
  end.

Definition decimal_integer (v : string) : option Z :=
  let '(negative, ds) :=
    match v with
    | String a ds =>
        if Ascii.eqb a "-" then (true, ds)
        else if Ascii.eqb a "+" then (false, ds)
        else (false, v)
    | EmptyString => (false, v)
    end in
  if negb (String.eqb ds EmptyString) && all_digits ds then
    let z := if negative then - decimal_value ds else decimal_value ds in
    if (- 2 ^ 63 <=? z) && (z <? 2 ^ 63) then Some z else None
  else None.

(** The value that the specification stores for the text after the one
    [=] of a token. *)
Definition specified_value (v : string) : Value :=
  match decimal_integer v with
  | Some z => Int z
  | None =>
      if equal_fold v "true" then Bool true
      else if equal_fold v "false" then Bool false
      else Text v
  end.

(** [k] digits more in a result of [json.digits]. *)
Definition bump (k : nat) (r : nat * Z * string) : nat * Z * string :=
  let '(c, v, rest) := r in ((k + c)%nat, v, rest).

(** The bytes after which a number of the request ends: a comma or a
    closing brace. *)
Definition ends_number (rest : string) : bool :=
  match rest with
  | String t _ => Ascii.eqb t "," || Ascii.eqb t "}"
  | EmptyString => false
  end.

(** ** The inputs of the examples *)

(** JSON text is written with apostrophes where the quotes are. *)
Fixpoint dq (s : string) : string :=
  match s with
  | EmptyString => EmptyString
  | String a s' =>
      String (if Ascii.eqb a "'" then json.dquote else a) (dq s')
  end.

(** A daemon that accepts the request and answers with [reply]. *)
Definition answers (reply : string) : Conn :=
  {| write_error := None; incoming := dq reply |}.

(** The command line [yggdrasilctl tokens...], with [-v] for [verbose]. *)
Definition command (verbose : bool) (tokens : list string) : CmdLineEnv :=
  {| args := tokens; injson := false; verbose := verbose |}.

(** The whole program with the runtime and the JSON library of the
    examples: what it prints, and its exit code.  The log is empty when
    the connection is there: what [setEndpoint] and [connect] have logged
    before is left out of the examples. *)
Definition yggdrasilctl (env : CmdLineEnv) (conn : Conn)
  : option (list string * Z) :=
  main (rt := example_runtime) (js := example_json) env conn [].

(** The log buffer as it is printed after a panic, for the messages
    [lines]. *)
Definition log_text (lines : list string) : string :=
  String.concat EmptyString
    (map (fun line => log_header (GoRuntime := example_runtime) 0
                      +:+ line +:+ nl) lines).

(** Scenario A of the specification: the response to [getSelf]. *)
Definition scenario_A_node : admin_info :=
  {["build_name" := Text "ygg"; "key" := Text "ABCD";
    "coords" := Text "[1 2]"]}.

Definition scenario_A : admin_info :=
  {["self" := Record {["200:1::1" := Record scenario_A_node]}]}.

(** An uptime of [2 ^ 60 + 768] seconds, a [float64] with steps of 256. *)
Definition long_uptime : Q := inject_Z (2 ^ 60 + 768).

(** The variables of the table renderer after a category whose records
    have the one field [port]. *)
Definition after_peers : table_state :=
  {| maxWidths := {["key" := 1%nat; "port" := 4%nat]};
     keyOrder := ["port"];
     keysOrdered := true |}.

(** ** Notions used in the statements about the dispatcher *)

(** The names in the cases of the [switch] of [handleAll], in lower
    case. *)
Definition known_commands : list string :=
  ["dot"; "list"; "getpeers"; "getswitchpeers"; "getdht"; "getsessions";
   "dhtping"; "gettuntap"; "settuntap"; "getself"; "getswitchqueues";
   "addpeer"; "removepeer"; "addallowedencryptionpublickey";
   "removeallowedencryptionpublickey"; "addsourcesubnet"; "addroute";
   "removesourcesubnet"; "removeroute"; "getallowedencryptionpublickeys";
   "getmulticastinterfaces"; "getsourcesubnets"; "getroutes";
   "settunnelrouting"; "gettunnelrouting"].

(** The formatter that each name of the [switch] stands for. *)
Definition registry {rt : GoRuntime}
  : list (string * (admin_info -> bool -> Go unit)) :=
  [("dot", fun res _ => handleDot res);
   ("list", handleVariousInfo); ("getpeers", handleVariousInfo);
   ("getswitchpeers", handleVariousInfo); ("getdht", handleVariousInfo);
   ("getsessions", handleVariousInfo); ("dhtping", handleVariousInfo);
   ("gettuntap", fun res _ => handleGetAndSetTunTap res);
   ("settuntap", fun res _ => handleGetAndSetTunTap res);
   ("getself", handleGetSelf);
   ("getswitchqueues", fun res _ => handleGetSwitchQueues res);
   ("addpeer", fun res _ => handleAddsAndRemoves res);
   ("removepeer", fun res _ => handleAddsAndRemoves res);
   ("addallowedencryptionpublickey", fun res _ => handleAddsAndRemoves res);
   ("removeallowedencryptionpublickey",
    fun res _ => handleAddsAndRemoves res);
   ("addsourcesubnet", fun res _ => handleAddsAndRemoves res);
   ("addroute", fun res _ => handleAddsAndRemoves res);
   ("removesourcesubnet", fun res _ => handleAddsAndRemoves res);
   ("removeroute", fun res _ => handleAddsAndRemoves res);
   ("getallowedencryptionpublickeys",
    fun res _ => handleGetAllowedEncryptionPublicKeys res);
   ("getmulticastinterfaces", fun res _ => handleGetMulticastInterfaces res);
   ("getsourcesubnets", fun res _ => handleGetSourceSubnets res);
   ("getroutes", fun res _ => handleGetRoutes res);
   ("settunnelrouting", fun res _ => handleGetTunnelRouting res);
   ("gettunnelrouting", fun res _ => handleGetTunnelRouting res)].

(** ** Notions used in the statements about the other formatters *)

(** The three formatters of a listing, each with the field it reads, its
    line for no listing, and its line before a listing. *)
Definition listings {rt : GoRuntime}
  : list ((admin_info -> Go unit) * string * string * string) :=
  [(handleGetAllowedEncryptionPublicKeys, "allowed_box_pubs",
    "All connections are allowed",
    "Connections are allowed only from the following public box keys:");
   (handleGetMulticastInterfaces, "multicast_interfaces",
    "No multicast interfaces found", "Multicast peer discovery is active on:");
   (handleGetSourceSubnets, "source_subnets",
    "No source subnets found", "Source subnets:")].

(** The lines of [handleAddsAndRemoves] for the field [key]: one per
    element of its list. *)
Definition change_lines {rt : GoRuntime} (res : admin_info)
  (key label : string) : list string :=
  match res !! key with
  | Some (Sequence l) => map (fun v => labelled label (fmt.Sprint v)) l
  | _ => []
  end.

(** The line of [handleGetRoutes] for a route: none when the value is no
    string. *)
Definition route_lines (kv : string * Value) : list string :=
  match as_string kv.2 with
  | Some pv => [String.concat " " ["-"; kv.1; " via "; pv] +:+ nl]
  | None => []
  end.

(** The lines of [handleGetAndSetTunTap] for an interface whose value is
    the record [fields]. *)
Definition tuntap_lines {rt : GoRuntime} (k : string) (fields : admin_info)
  : list string :=
  (labelled "Interface name:" k
   :: match as_float64 (index fields "mtu") with
      | Some mtu => [labelled "Interface MTU:" (fmt_float64 mtu)]
      | None => []
      end
   ++ match as_bool (index fields "tap_mode") with
      | Some tap_mode => [labelled "TAP mode:" (fmt.Sprint (Bool tap_mode))]
      | None => []
      end)%list.

(** The counters that [handleGetSwitchQueues] prints, each with the texts
    before and after its number. *)
Definition queue_counters : list (string * string * string) :=
  [("queues_count", "Active queue count: ", " queues");
   ("queues_size", "Active queue size: ", " bytes");
   ("highest_queues_count", "Highest queue count: ", " queues");
   ("highest_queues_size", "Highest queue size: ", " bytes");
   ("maximum_queues_size", "Maximum queue size: ", " bytes")].

(** The line of a counter: none when the field is no [float64]. *)
Definition counter_lines (v : admin_info) (c : string * string * string)
  : list string :=
  match as_float64 (index v c.1.1) with
  | Some f => [c.1.2 +:+ strconv.Itoa (Qfloor f) +:+ c.2 +:+ nl]
  | None => []
  end.

(** ** Notions used in the statements about the table *)

(** The columns whose cells [handleVariousInfo] asserts to be a
    [float64]. *)
Definition numeric_columns : list string :=
  ["bytes_sent"; "bytes_recvd"; "uptime"; "last_seen"].

(** The fields that become columns. *)
Definition shown (verbose : bool) (k : string) : bool :=
  verbose || negb (hidden_unless_verbose k).

(** Ascending order, byte by byte. *)
Definition ascending (l : list string) : Prop :=
  Sorted (fun x y => String.leb x y = true) l.

(** ** [connect] (main.go, lines 143 to 171)

    [url.Parse] and [net.Dial] are the libraries' own, and the text of the
    runtime's error for a slice out of bounds has changed between versions
    of Go: the development is parametric in the three.  [url.Parse]
    returns a nil [*url.URL] with every error: [None] here. *)

Record URL := {
  Scheme : string;
  Host : string
}.

Class Network := {
  url_Parse : string -> option URL;
  (** the connection, or the error's text *)
  net_Dial : string -> string -> Conn + string;
  (** the runtime error of [s[low:]] for a string of length [len] with
      [low > len] *)
  slice_bounds_error : nat -> nat -> string
}.

Section connect.
Context {rt : GoRuntime} {net : Network}.

(** [s[low:]] *)
Definition slice_from (low : nat) (s : string) : Go string :=
  if (low <=? String.length s)%nat then ret (utf8.drop_bytes low s)
  else panic (ErrorValue (slice_bounds_error low (String.length s))).

(** The panic of [u.Host] for a nil [u]. *)
Definition nil_dereference : PanicValue :=
  ErrorValue "runtime error: invalid memory address or nil pointer dereference".

(** [conn, err = net.Dial(network, address)], and then
    [if err != nil { panic(err) }] of lines 166 to 168. *)
Definition dial (network address : string) : Go Conn :=
  match net_Dial network address with
  | inl conn => ret conn
  | inr err => panic (ErrorValue err)
  end.

Definition connect (endpoint : string) : Go Conn :=
  match url_Parse endpoint with
  | Some u =>
      let scheme := strings.ToLower (Scheme u) in
      if String.eqb scheme "unix" then
        path <- slice_from 7 endpoint ;;
        logger_Output ("Connecting to UNIX socket " +:+ path +:+ nl) ;;
        path' <- slice_from 7 endpoint ;;
        dial "unix" path'
      else if String.eqb scheme "tcp" then
        logger_Output ("Connecting to TCP socket " +:+ Host u +:+ nl) ;;
        dial "tcp" (Host u)
      else
        logger_Output
          ("Unknown protocol or malformed address - check your endpoint"
           +:+ nl) ;;
        panic (ErrorValue "protocol not supported")
  | None =>
      (* the operand [u.Host] of [logger.Println] is evaluated first *)
      panic nil_dereference
  end.

End connect.

(** A network for the examples.  Its [url_Parse] is a part of
    [url.Parse]: the fragment is cut off; the scheme is found as
    [getScheme] finds it (letters, and after the first byte digits, [+],
    [-] and [.], up to a colon; a colon at the start is an error); without
    a scheme, a colon in the first segment of a path that does not begin
    with a slash is an error; the host is what stands between [//] and the
    next slash.  The other errors of [url.Parse] (control characters, bad
    escapes, a bad host or port) are not in it, nor are user names and
    queries.  Every dial succeeds. *)
Fixpoint before_byte (c : ascii) (s : string) : string :=
  match s with
  | EmptyString => EmptyString
  | String a s' => if Ascii.eqb a c then EmptyString
                   else String a (before_byte c s')
  end.

Definition is_letter (c : ascii) : bool :=
  let n := N_of_ascii c in
  (((97 <=? n) && (n <=? 122)) || ((65 <=? n) && (n <=? 90)))%N.

(** [getScheme]: [None] for the error, [Some None] for no scheme. *)
Fixpoint getScheme (first : bool) (s : string)
  : option (option (string * string)) :=
  match s with
  | EmptyString => Some None
  | String c s' =>
      let more :=
        match getScheme false s' with
        | Some (Some (scheme, rest)) => Some (Some (String c scheme, rest))
        | other => other
        end in
      if is_letter c then more
      else if is_digit c || Ascii.eqb c "+" || Ascii.eqb c "-"
              || Ascii.eqb c "."
      then if first then Some None else more
      else if Ascii.eqb c ":"
      then if first then None else Some (Some (EmptyString, s'))
      else Some None
  end.

Definition example_host (rest : string) : string :=
  if strings.HasPrefix rest "//"
  then before_byte "/" (utf8.drop_bytes 2 rest)
  else EmptyString.

Definition example_url_Parse (rawURL : string) : option URL :=
  let u := before_byte "#" rawURL in
  match getScheme true u with
  | None => None
  | Some None =>
      if negb (strings.HasPrefix u "/")
         && contains_byte ":" (before_byte "/" u)
      then None
      else Some {| Scheme := EmptyString; Host := example_host u |}
  | Some (Some (scheme, rest)) =>
      Some {| Scheme := strings.ToLower scheme; Host := example_host rest |}
  end.

Definition example_network : Network := {|
  url_Parse := example_url_Parse;
  net_Dial := fun _ address =>
    inl {| write_error := None; incoming := address |};
  slice_bounds_error := fun low len =>
    "runtime error: slice bounds out of range ["
    +:+ strconv.Itoa (Z.of_nat low) +:+ ":"
    +:+ strconv.Itoa (Z.of_nat len) +:+ "]"
|}.

(** ** Responses for the examples *)

Definition routes_response (name : string) : admin_info :=
  {["status" := Text "success";
    "request" := Record {["request" := Text name]};
    "response" := Record {["routes" := Record {["10.0.0.0/8" := Text "abc"]}]}]}.

Definition peers_example : admin_info :=
  {["1" := Record {["port" := Number 1; "uptime" := Number 125;
                     "box_pub_key" := Text "k1"; "endpoint" := Text "tcp://a:1"]}]}.

(** A piece of the program that leaves a part [f] of the world as it is,
    however it ends: with a value, in a panic, or outside the model. *)
Definition preserves {A B} (f : World -> B) (m : Go A) : Prop :=
  forall w, f (m w).2 = f w.

(** * Properties *)

(** ** Splitting and joining *)

Lemma Split_nonempty s sep : strings.Split s sep <> [].
Proof.
  destruct s as [|a s]; simpl; [done|].
  destruct (Ascii.eqb a sep); [done|].
  by destruct (strings.Split s sep).
Qed.

Lemma Split_without s sep :
  contains_byte sep s = false -> strings.Split s sep = [s].
Proof.
  induction s as [|a s IH]; simpl; [done|].
  intros [Ha Hs]%orb_false_iff. rewrite Ha. by rewrite (IH Hs).
Qed.

Lemma Split_at_first k v sep :
  contains_byte sep k = false ->
  strings.Split (k +:+ String sep v) sep = k :: strings.Split v sep.
Proof.
  induction k as [|a k IH]; simpl.
  - intros _. by rewrite Ascii.eqb_refl.
  - intros [Ha Hk]%orb_false_iff. rewrite Ha. by rewrite (IH Hk).
Qed.

Lemma Split_with s sep :
  contains_byte sep s = true -> (2 <= length (strings.Split s sep))%nat.
Proof.
  induction s as [|a s IH]; simpl; [done|].
  destruct (Ascii.eqb a sep) eqn:Ha; simpl.
  - intros _. pose proof (Split_nonempty s sep).
    destruct (strings.Split s sep); [done|simpl; lia].
  - intros Hs. specialize (IH Hs).
    destruct (strings.Split s sep); simpl in *; lia.
Qed.

Lemma Join_Split s sep :
  strings.Join (strings.Split s sep) (String sep EmptyString) = s.
Proof.
  unfold strings.Join.
  induction s as [|a s IH]; simpl; [done|].
  pose proof (Split_nonempty s sep) as Hne.
  destruct (Ascii.eqb a sep) eqn:Ha.
  - apply Ascii.eqb_eq in Ha as ->.
    destruct (strings.Split s sep) as [|t ts]; [done|].
    simpl in *. by rewrite IH.
  - destruct (strings.Split s sep) as [|t ts]; [done|].
    destruct ts; simpl in *; by rewrite <- IH.
Qed.

(** ** The runtime of the examples *)

Lemma insert_sorted_Permutation x l : sort.insert_sorted x l ≡ₚ x :: l.
Proof.
  induction l as [|y l IH]; simpl; [done|].
  destruct (String.leb x y); [done|].
  rewrite IH. apply Permutation_swap.
Qed.

Lemma Strings_Permutation l : sort.Strings l ≡ₚ l.
Proof.
  induction l as [|x l IH]; simpl; [done|].
  unfold sort.Strings in IH. by rewrite insert_sorted_Permutation, IH.
Qed.

Lemma by_ascending_key_Permutation (m : admin_info) :
  by_ascending_key m ≡ₚ map_to_list m.
Proof.
  unfold by_ascending_key.
  rewrite Strings_Permutation.
  rewrite map_map.
  rewrite <- (map_id (map_to_list m)) at 2.
  apply Permutation_refl'.
  apply map_ext_in. intros [k v] Hin. simpl.
  apply list_elem_of_In, elem_of_map_to_list in Hin.
  unfold index. by rewrite Hin.
Qed.

Lemma example_runtime_visits_every_entry : visits_every_entry example_runtime.
Proof. intros n m. apply by_ascending_key_Permutation. Qed.

(** ** The request builder *)

Lemma plain_byte_lower b : plain_byte b = true -> strings.lower_byte b = b.
Proof.
  unfold plain_byte, strings.lower_byte.
  destruct ((65 <=? N_of_ascii b) && (N_of_ascii b <=? 90))%N; [|done].
  rewrite andb_false_r. simpl. discriminate.
Qed.

Lemma plain_byte_not b a :
  plain_byte b = true ->
  (a = "i" \/ a = "k" \/ a = "196" \/ a = "226")%char -> Ascii.eqb a b = false.
Proof.
  intros Hb Ha. apply Ascii.eqb_neq. intros <-.
  destruct Ha as [-> | [-> | [-> | ->]]]; vm_compute in Hb; discriminate.
Qed.

Lemma ToLower_equal_fold v t :
  plain_word t = true ->
  String.eqb (strings.ToLower v) t = equal_fold v t.
Proof.
  remember (String.length v) as n eqn:Hn.
  revert v t Hn. induction n as [n IH] using lt_wf_ind.
  intros v t Hn Ht.
  destruct v as [|a s1]; [by destruct t|].
  destruct t as [|b t'].
  { simpl. destruct s1 as [|b' s2]; [done|].
    destruct (_ && _); [done|]. destruct s2; [done|]. by destruct (_ && _). }
  simpl in Ht. apply andb_prop in Ht as [Hb Ht'].
  assert (Hkept : String.eqb (String (strings.lower_byte a) (strings.ToLower s1))
                    (String b t') = equal_fold (String a s1) (String b t')).
  { simpl. rewrite (plain_byte_lower b Hb).
    rewrite (IH (String.length s1)) by (simpl in Hn; (lia || done)). done. }
  assert (Hspecial : forall x rest,
             (a = "196" \/ a = "226")%char -> (x = "i" \/ x = "k")%char ->
             String.eqb (String x rest) (String b t')
             = equal_fold (String a s1) (String b t')).
  { intros x rest Ha Hx. simpl.
    rewrite (plain_byte_lower b Hb).
    rewrite (plain_byte_not b x Hb) by tauto.
    assert (Hla : strings.lower_byte a = a) by (by destruct Ha as [Ha|Ha]; subst a).
    rewrite Hla.
    rewrite (plain_byte_not b a Hb) by tauto. done. }
  cbn [strings.ToLower]. fold strings.ToLower.
  destruct s1 as [|b1 s2]; [exact Hkept|].
  destruct (Ascii.eqb a "196" && Ascii.eqb b1 "176") eqn:H1.
  { apply andb_prop in H1 as [->%Ascii.eqb_eq _]. apply Hspecial; tauto. }
  destruct s2 as [|c1 s3]; [exact Hkept|].
  destruct (Ascii.eqb a "226" && Ascii.eqb b1 "132" && Ascii.eqb c1 "170") eqn:H2.
  { apply andb_prop in H2 as [[->%Ascii.eqb_eq _]%andb_prop _].
    apply Hspecial; tauto. }
  exact Hkept.
Qed.

Lemma coerce_word_fold value :
  strconv.Atoi value = None -> coerce_word value = coerced value.
Proof.
  intros Hnone. unfold coerce_word, coerced. rewrite Hnone.
  by rewrite !ToLower_equal_fold.
Qed.

Section request_builder.
Context {rt : GoRuntime}.

Lemma request_step_cases (c : nat) (a : string) (send : admin_info) (w : World) :
  c <> 0%nat ->
  (request_step c a send w).1 =
  Done match strings.Split a "=" with
       | [] => send
       | [t0] => <[t0 := Bool true]> send
       | [t0; t1] =>
           match strconv.Atoi t1 with
           | Some i => <[t0 := Int i]> send
           | None => <[t0 := coerce_word t1]> send
           end
       | t0 :: rest => <[t0 := Text (strings.Join rest "=")]> send
       end.
Proof.
  intros Hc. unfold request_step.
  destruct (Nat.eqb_spec c 0) as [|_]; [done|].
  destruct (strings.Split a "=") as [|t0 [|t1 [|t2 rest]]]; try done.
  destruct (strconv.Atoi t1); reflexivity.
Qed.

(** [strconv.Atoi] reads the integers of the specification, and nothing
    else. *)
Lemma digit_val_is_digit a :
  strconv.digit_val a
  = if is_digit a then Some (Z.of_N (N_of_ascii a) - 48) else None.
Proof.
  unfold strconv.digit_val, is_digit.
  destruct (Z.leb_spec 48 (Z.of_N (N_of_ascii a)));
    destruct (Z.leb_spec (Z.of_N (N_of_ascii a)) 57);
    destruct (N.leb_spec 48 (N_of_ascii a));
    destruct (N.leb_spec (N_of_ascii a) 57); simpl; (reflexivity || lia).
Qed.

Lemma digits_val_decimal acc s :
  strconv.digits_val acc s
  = if all_digits s
    then Some (acc * 10 ^ Z.of_nat (String.length s) + decimal_value s)
    else None.
Proof.
  revert acc. induction s as [|a s IH]; intros acc.
  - simpl. f_equal. lia.
  - cbn [strconv.digits_val all_digits decimal_value String.length].
    rewrite digit_val_is_digit. destruct (is_digit a); [|reflexivity].
    rewrite IH. cbn [andb]. destruct (all_digits s); [|reflexivity].
    f_equal. rewrite Nat2Z.inj_succ, Z.pow_succ_r by lia. ring.
Qed.

Lemma Atoi_decimal_integer v : strconv.Atoi v = decimal_integer v.
Proof.
  assert (Hdigits : forall ds,
            match ds with
            | EmptyString => None
            | _ => strconv.digits_val 0 ds
            end
            = if negb (String.eqb ds EmptyString) && all_digits ds
              then Some (decimal_value ds) else None).
  { intros [|b ds]; [reflexivity|].
    rewrite digits_val_decimal. cbn [String.eqb negb andb].
    by destruct (all_digits (String b ds)). }
  destruct v as [|a rest]; [reflexivity|].
  unfold strconv.Atoi, decimal_integer.
  destruct (Ascii.eqb a "-") eqn:Hminus; cbn [orb].
  - specialize (Hdigits rest). destruct rest as [|b rest]; [reflexivity|].
    rewrite Hdigits.
    by destruct (negb (String.eqb (String b rest) EmptyString)
                 && all_digits (String b rest)).
  - destruct (Ascii.eqb a "+") eqn:Hplus.
    + specialize (Hdigits rest). destruct rest as [|b rest]; [reflexivity|].
      rewrite Hdigits.
      by destruct (negb (String.eqb (String b rest) EmptyString)
                   && all_digits (String b rest)).
    + specialize (Hdigits (String a rest)). cbv beta iota in Hdigits.
      rewrite Hdigits.
      by destruct (negb (String.eqb (String a rest) EmptyString)
                   && all_digits (String a rest)).
Qed.


End request_builder.


Example coerced_examples :
  coerced "5" = Int 5 /\ coerced "-12" = Int (-12)
  /\ coerced "true" = Bool true /\ coerced "TRUE" = Bool true
  /\ coerced "False" = Bool false /\ coerced "foo" = Text "foo"
  /\ coerced "" = Text "" /\ coerced "5.0" = Text "5.0"
  /\ coerced "99999999999999999999" = Text "99999999999999999999".
Proof. repeat split; reflexivity. Qed.

Lemma cut_without a k : cut a = (k, None) -> k = a /\ contains_byte "=" a = false.
Proof.
  revert k. induction a as [|b a IH]; simpl; intros k.
  - by intros [= <-].
  - destruct (Ascii.eqb b "="); [done|].
    destruct (cut a) as [k' v'] eqn:Hcut. intros [= <- ->].
    destruct (IH k' eq_refl) as [-> ->]. done.
Qed.

Lemma cut_at a k v :
  cut a = (k, Some v) -> a = k +:+ String "=" v /\ contains_byte "=" k = false.
Proof.
  revert k. induction a as [|b a IH]; simpl; intros k; [done|].
  destruct (Ascii.eqb b "=") eqn:Hb.
  - apply Ascii.eqb_eq in Hb as ->. by intros [= <- <-].
  - destruct (cut a) as [k' v'] eqn:Hcut. intros [= <- ->].
    destruct (IH k' eq_refl) as [-> Hk']. simpl. by rewrite Hb, Hk'.
Qed.

Lemma only_logs_ret {A} (a : A) : only_logs (ret a) a.
Proof. intros w. by exists w. Qed.

Lemma only_logs_Output {rt : GoRuntime} {A} s (a : A) :
  only_logs (logger_Output s ;; ret a) a.
Proof. intros w. eexists. by split. Qed.

Lemma only_logs_bind {A B} (m : Go A) (k : A -> Go B) a b :
  only_logs m a -> only_logs (k a) b -> only_logs (x <- m ;; k x) b.
Proof.
  intros Hm Hk w. destruct (Hm w) as (w1 & Hw1 & ? & ? & ?).
  destruct (Hk w1) as (w2 & Hw2 & ? & ? & ?).
  exists w2. unfold bind. rewrite Hw1, Hw2. repeat split; congruence.
Qed.

Section request.
Context {rt : GoRuntime}.

Lemma request_step_param c a send :
  c <> 0%nat -> only_logs (request_step c a send) (add_param send a).
Proof.
  intros Hc. unfold request_step, add_param, param.
  destruct (Nat.eqb_spec c 0) as [|_]; [done|].
  destruct (cut a) as [k [v|]] eqn:Hcut.
  - apply cut_at in Hcut as [-> Hk].
    rewrite (Split_at_first k v "=" Hk).
    destruct (contains_byte "=" v) eqn:Hv.
    + pose proof (Split_with v "=" Hv) as Hlen.
      pose proof (Join_Split v "=") as Hjoin.
      destruct (strings.Split v "=") as [|t1 [|t2 rest]]; simpl in Hlen; try lia.
      rewrite Hjoin. apply only_logs_ret.
    + rewrite (Split_without v "=" Hv). unfold coerced.
      destruct (strconv.Atoi v) eqn:Hi; simpl.
      * apply only_logs_Output.
      * rewrite (coerce_word_fold v Hi). unfold coerced. rewrite Hi.
        apply only_logs_Output.
  - apply cut_without in Hcut as [-> Ha].
    rewrite (Split_without a "=" Ha). apply only_logs_ret.
Qed.

Lemma request_loop_params l c send :
  c <> 0%nat -> only_logs (request_loop c l send) (foldl add_param send l).
Proof.
  revert c send. induction l as [|a l IH]; intros c send Hc; simpl.
  - apply only_logs_ret.
  - eapply only_logs_bind; [by apply request_step_param|].
    by apply IH.
Qed.

(** [send] after the loop: the parameters, on top of the name unless the
    first token begins with a dash. *)
Lemma build_request_params env name rest :
  args env = name :: rest ->
  only_logs (build_request env)
    (foldl add_param
       (if strings.HasPrefix name "-" then ∅ else {["request" := Text name]})
       rest).
Proof.
  intros Hargs. unfold build_request. rewrite Hargs. simpl.
  eapply only_logs_bind; [|by apply request_loop_params].
  unfold request_step. simpl.
  destruct (strings.HasPrefix name "-"); apply only_logs_Output.
Qed.

End request.

(** ** The parameters as a map *)

Lemma foldl_add_param_union (l : list string) (m : admin_info) :
  foldl add_param m l = params l ∪ m.
Proof.
  unfold params. revert m. induction l as [|a l IH]; intros m; simpl.
  - by rewrite (left_id_L ∅ (∪)).
  - rewrite (IH (add_param m a)), (IH (add_param ∅ a)).
    unfold add_param. rewrite <- (assoc_L (∪)). f_equal.
    by rewrite insert_union_singleton_l, insert_empty.
Qed.

Lemma params_snoc (l : list string) (a : string) :
  params (l ++ [a]) = add_param (params l) a.
Proof. unfold params. by rewrite foldl_app. Qed.

Lemma params_lookup_other (l : list string) (k : string) :
  Forall (fun a => (param a).1 <> k) l -> params l !! k = None.
Proof.
  induction l as [|a l IH] using rev_ind; [done|].
  intros [Hl Ha]%Forall_app. rewrite params_snoc. unfold add_param.
  apply Forall_inv in Ha. rewrite lookup_insert_ne by done. by apply IH.
Qed.

Lemma params_lookup_None (l : list string) (k : string) :
  params l !! k = None -> Forall (fun a => (param a).1 <> k) l.
Proof.
  induction l as [|a l IH] using rev_ind; [done|].
  rewrite params_snoc. unfold add_param. intros Hnone.
  destruct (decide ((param a).1 = k)) as [<-|Hne].
  - by rewrite lookup_insert_eq in Hnone.
  - rewrite lookup_insert_ne in Hnone by done.
    apply Forall_app. split; [by apply IH|by constructor].
Qed.

Lemma params_lookup_last (before after : list string) (a : string) :
  Forall (fun a' => (param a').1 <> (param a).1) after ->
  params (before ++ a :: after) !! (param a).1 = Some (param a).2.
Proof.
  intros Hafter. unfold params. rewrite foldl_app. simpl.
  rewrite foldl_add_param_union. rewrite lookup_union_r.
  - unfold add_param. by rewrite lookup_insert_eq.
  - by apply params_lookup_other.
Qed.

Section request_on_the_wire.
Context {rt : GoRuntime} {js : EncodingJSON}.

(** What [send_request] does to the world: it logs, and it writes one
    document, the encoding of the map that the loop has built. *)
Lemma send_request_writes env conn name rest w :
  args env = name :: rest ->
  write_error conn = None ->
  exists w',
    send_request env conn w = (Done tt, w')
    /\ stdout w' = stdout w
    /\ written w' =
       (written w ++
        [json_Encode
           (params rest ∪
            (if strings.HasPrefix name "-" then ∅
             else {["request" := Text name]}))])%list.
Proof.
  intros Hargs Hconn.
  destruct (build_request_params env name rest Hargs w) as (w1 & Hw1 & ? & ? & Hwr).
  unfold send_request, bind. rewrite Hw1.
  unfold encoder_Encode. rewrite Hconn. eexists. split; [done|]. simpl.
  by rewrite foldl_add_param_union, Hwr.
Qed.

(** C9. When a token after the command name has the key [request], the
    document written has in its field [request] the value of the last such
    token, not the command name. *)
Theorem request_parameter_replaces_name env conn name before a after w :
  args env = name :: before ++ a :: after ->
  (param a).1 = "request" ->
  Forall (fun a' => (param a').1 <> "request") after ->
  write_error conn = None ->
  exists send w',
    send_request env conn w = (Done tt, w')
    /\ written w' = (written w ++ [json_Encode send])%list
    /\ send !! "request" = Some (param a).2.
Proof.
  intros Hargs Hkey Hafter Hconn.
  destruct (send_request_writes env conn name _ w Hargs Hconn)
    as (w' & Hrun & _ & Hwritten).
  eexists _, w'. split; [done|]. split; [done|].
  rewrite lookup_union_l'; rewrite <- Hkey.
  - apply params_lookup_last. by rewrite Hkey.
  - rewrite params_lookup_last; [done|by rewrite Hkey].
Qed.

End request_on_the_wire.

(** ** The response *)

Lemma ends_with_newline_app s t :
  ends_with_newline t = true -> ends_with_newline (s +:+ t) = true.
Proof.
  intros Ht. induction s as [|a s IH]; [done|].
  simpl. destruct (s +:+ t) eqn:Hst; [|done].
  by destruct s, t.
Qed.

Lemma logger_Output_line {rt : GoRuntime} s w :
  ends_with_newline s = true ->
  logger_Output s w
  = (Done tt,
     mkWorld (stdout w) (logbuf w ++ [log_header (length (logbuf w)) +:+ s])
             (ranges w) (written w)).
Proof. intros Hs. unfold logger_Output. by rewrite Hs. Qed.

Section response.
Context {rt : GoRuntime} {js : EncodingJSON}.

Lemma request_step_only_logs c a send :
  exists send', only_logs (request_step c a send) send'.
Proof.
  destruct (Nat.eq_dec c 0%nat) as [->|Hc].
  - unfold request_step. simpl.
    destruct (strings.HasPrefix a "-"); eexists; apply only_logs_Output.
  - eexists. by apply request_step_param.
Qed.

Lemma request_loop_only_logs l c send :
  exists send', only_logs (request_loop c l send) send'.
Proof.
  revert c send. induction l as [|a l IH]; intros c send; simpl.
  - eexists. apply only_logs_ret.
  - destruct (request_step_only_logs c a send) as [send1 H1].
    destruct (IH (S c) send1) as [send2 H2].
    exists send2. by eapply only_logs_bind.
Qed.

(** The world in which the decoding starts: the request has been written
    and logged, nothing has been printed. *)
Lemma request_sent env conn w :
  write_error conn = None ->
  exists w1,
    (logger_Output "Connected" ;; send_request env conn ;;
     logger_Output "Request sent") w = (Done tt, w1)
    /\ stdout w1 = stdout w.
Proof.
  intros Hconn.
  destruct (request_loop_only_logs (args env) 0 ∅) as [send Hsend].
  destruct (Hsend (logger_Output "Connected" w).2) as (w0 & Hw0 & Hout & _).
  unfold send_request, build_request, bind.
  change (logger_Output "Connected" w)
    with (Done tt, (logger_Output "Connected" w).2).
  cbv iota. rewrite Hw0.
  unfold encoder_Encode. rewrite Hconn. simpl. eauto.
Qed.

Lemma run_body_steps env conn w w1 :
  (logger_Output "Connected" ;; send_request env conn ;;
   logger_Output "Request sent") w = (Done tt, w1) ->
  run_body env conn w = receive env conn w1
  /\ ((logger_Output "Connected" ;; send_request env conn ;;
       logger_Output "Request sent" ;; logger_Output "Response received") w).2
     = (logger_Output "Response received" w1).2.
Proof.
  unfold run_body, receive. unfold bind.
  change (logger_Output "Connected" w)
    with (Done tt, (logger_Output "Connected" w).2).
  cbv iota.
  destruct (send_request env conn (logger_Output "Connected" w).2)
    as [[[]|p|why] w0]; simpl; try discriminate.
  by intros [= <-].
Qed.

Lemma run_body_receive env conn w :
  write_error conn = None ->
  exists w1,
    stdout w1 = stdout w /\ run_body env conn w = receive env conn w1.
Proof.
  intros Hconn. destruct (request_sent env conn w Hconn) as (w1 & Hw1 & Hout).
  exists w1. split; [done|]. by apply run_body_steps.
Qed.

Lemma run_completes env conn w code w' :
  run_body env conn w = (Done code, w') -> run env conn w = (Done code, w').
Proof. intros Hbody. unfold run. by rewrite Hbody. Qed.

(** C5. A response with the status [error] makes [run] print one line and
    return 1: the error that the response carries, after the words
    [Admin socket returned an error:], or a fixed sentence when it carries
    none.  Nothing else is printed: no formatter runs. *)
Theorem error_status env conn recv w :
  write_error conn = None ->
  json_Decode (incoming conn) = (recv, None) ->
  recv !! "status" = Some (Text "error") ->
  exists w',
    run env conn w = (Done 1, w')
    /\ stdout w' =
       (stdout w ++
        [match recv !! "error" with
         | Some (Text text) => "Admin socket returned an error: " +:+ text +:+ nl
         | Some err =>
             "Admin socket returned an error: " +:+ fmt.Sprint err +:+ nl
         | None =>
             "Admin socket returned an error but didn't specify any error text"
             +:+ nl
         end])%list.
Proof.
  intros Hconn Hdec Hstatus.
  destruct (run_body_receive env conn w Hconn) as (w1 & Hout & Hbody).
  unfold receive in Hbody. rewrite Hdec in Hbody.
  unfold decoded, index in Hbody. rewrite Hstatus in Hbody. simpl in Hbody.
  destruct (recv !! "error") as [err|]; (eexists; split;
    [apply run_completes; rewrite Hbody; reflexivity|]); simpl; rewrite Hout.
  - by destruct err.
  - done.
Qed.

(** C6. A response whose status is not [error] and that lacks the field
    [request], or has it and lacks the field [response], makes [run] print
    one line that says which is missing, and return 1; the line is not one
    of the lines of an error status. *)
Theorem malformed_response env conn recv w :
  write_error conn = None ->
  json_Decode (incoming conn) = (recv, None) ->
  is_text (index recv "status") "error" = false ->
  recv !! "request" = None \/ recv !! "response" = None ->
  exists w' line,
    run env conn w = (Done 1, w')
    /\ stdout w' = (stdout w ++ [line +:+ nl])%list
    /\ line = match recv !! "request" with
              | Some _ => "Missing response body (malformed response?)"
              | None => "Missing request in response (malformed response?)"
              end
    /\ strings.HasPrefix line "Admin socket returned an error" = false.
Proof.
  intros Hconn Hdec Hstatus Hmissing.
  destruct (run_body_receive env conn w Hconn) as (w1 & Hout & Hbody).
  unfold receive in Hbody. rewrite Hdec in Hbody.
  unfold decoded in Hbody. rewrite Hstatus in Hbody.
  destruct (recv !! "request") as [req|] eqn:Hreq.
  - destruct Hmissing as [|Hres]; [done|]. rewrite Hres in Hbody.
    eexists _, _. split; [apply run_completes; rewrite Hbody; reflexivity|].
    simpl. rewrite Hout. done.
  - eexists _, _. split; [apply run_completes; rewrite Hbody; reflexivity|].
    simpl. rewrite Hout. done.
Qed.

(** C1 (what the code does). When the decoding fails and leaves [recv]
    empty, as it does for a stream that ends early and for a value that is
    no object, [run] prints nothing (the error goes to the log buffer,
    which is printed only after a panic) and returns 0. *)
Theorem decode_failure_exits_zero env conn err w :
  write_error conn = None ->
  json_Decode (incoming conn) = (∅, Some err) ->
  exists w' n,
    run env conn w = (Done 0, w')
    /\ stdout w' = stdout w
    /\ last (logbuf w')
       = Some (log_header n +:+ "Error receiving response: " +:+ err +:+ nl).
Proof.
  intros Hconn Hdec.
  destruct (run_body_receive env conn w Hconn) as (w1 & Hout & Hbody).
  unfold receive in Hbody. rewrite Hdec in Hbody.
  unfold bind in Hbody.
  rewrite logger_Output_line in Hbody by by repeat apply ends_with_newline_app.
  eexists _, _. split; [apply run_completes; rewrite Hbody; reflexivity|].
  simpl. split; [done|]. by rewrite last_snoc.
Qed.

End response.

Section other_status.
Context {rt : GoRuntime} {js : EncodingJSON}.

Lemma handleAll_completes_response recv verbose w w' :
  handleAll recv verbose w = (Done tt, w') ->
  exists res, index recv "response" = Record res.
Proof.
  unfold handleAll, bind.
  destruct (index recv "request"); simpl; try discriminate.
  destruct (index recv "response"); simpl; try discriminate.
  eauto.
Qed.

(** C10 (what the code does). With raw-JSON mode off, a response that has
    the fields [request] and [response] and whose status is not [error] is
    handed to the formatter.  When the formatter runs to its end, its
    output is what [run] prints, and [run] returns 1 if the status is
    there and is not [success], and 0 if the response has no status.  When
    the formatter panics, or the assertion of line 123 before it does,
    the deferred function prints the log buffer, whose last entry is the
    panic, and [run] returns 0 whatever the status is: the [return 1] of
    the deferred function is dropped. *)
Theorem other_status_runs_formatter env conn recv w :
  injson env = false ->
  write_error conn = None ->
  json_Decode (incoming conn) = (recv, None) ->
  is_text (index recv "status") "error" = false ->
  is_Some (recv !! "request") ->
  is_Some (recv !! "response") ->
  let w1 :=
    ((logger_Output "Connected" ;; send_request env conn ;;
      logger_Output "Request sent" ;; logger_Output "Response received")
       w).2 in
  stdout w1 = stdout w
  /\ (forall w2,
        handleAll recv (verbose env) w1 = (Done tt, w2) ->
        run env conn w = (Done (exit_status recv), w2))
  /\ (forall v,
        recv !! "status" = Some v -> v <> Text "success" ->
        exit_status recv = 1)
  /\ (recv !! "status" = None -> exit_status recv = 0)
  /\ (forall res p w2,
        recv !! "response" = Some (Record res) ->
        handleAll recv (verbose env) w1 = (Panicked p, w2) ->
        exists w' n,
          run env conn w = (Done 0, w')
          /\ stdout w'
             = (stdout w2 ++ [String.concat EmptyString (logbuf w')])%list
          /\ last (logbuf w')
             = Some (log_header n +:+ "Fatal error: " +:+ panic_text p
                     +:+ nl))
  /\ (forall v,
        recv !! "response" = Some v -> as_map v = None ->
        exists w' n,
          run env conn w = (Done 0, w')
          /\ stdout w'
             = (stdout w ++ [String.concat EmptyString (logbuf w')])%list
          /\ last (logbuf w')
             = Some (log_header n +:+ "Fatal error: "
                     +:+ panic_text (TypeAssertionError (dynamic_type v) TMap)
                     +:+ nl)).
Proof.
  intros Hjson Hconn Hdec Hstatus [req Hreq] [resp Hresp] w1.
  destruct (request_sent env conn w Hconn) as (w0 & Hw0 & Hout).
  destruct (run_body_steps env conn w w0 Hw0) as [Hbody Hw1].
  fold w1 in Hw1.
  split; [by rewrite Hw1|]. split; [|split; [|split; [|split]]].
  - intros w2 Hformat. apply run_completes.
    destruct (handleAll_completes_response _ _ _ _ Hformat) as [res Hres].
    rewrite Hbody.
    unfold receive. rewrite Hdec. unfold decoded.
    rewrite Hstatus, Hreq, Hresp, Hres, Hjson. unfold bind at 1 2.
    fold (logger_Output "Response received" w0).
    destruct (logger_Output "Response received" w0) as [r wb] eqn:Hlog.
    assert (r = Done tt) as -> by (by injection Hlog).
    simpl in Hw1. subst wb. simpl. unfold bind, ret. by rewrite Hformat.
  - intros v Hv Hne. unfold exit_status. rewrite Hv.
    destruct v as [| | | |s| |]; try done. simpl.
    destruct (String.eqb_spec s "success") as [->|]; done.
  - intros Hnone. unfold exit_status. by rewrite Hnone.
  - intros res p w2 Hres' Hformat.
    assert (Hres : index recv "response" = Record res)
      by (unfold index; by rewrite Hres').
    assert (Hpanic : run_body env conn w = (Panicked p, w2)).
    { rewrite Hbody.
      unfold receive. rewrite Hdec. unfold decoded.
      rewrite Hstatus, Hreq, Hresp, Hres, Hjson. unfold bind at 1 2.
      fold (logger_Output "Response received" w0).
      destruct (logger_Output "Response received" w0) as [r wb] eqn:Hlog.
      assert (r = Done tt) as -> by (by injection Hlog).
      simpl in Hw1. subst wb. simpl. unfold bind, ret. by rewrite Hformat. }
    unfold run. rewrite Hpanic. unfold bind.
    rewrite logger_Output_line by by repeat apply ends_with_newline_app.
    eexists _, _. split; [reflexivity|]. simpl.
    split; [done|]. by rewrite last_snoc.
  - intros v Hv Hmap.
    assert (Hres : index recv "response" = v)
      by (unfold index; by rewrite Hv).
    assert (Hpanic : run_body env conn w
                     = (Panicked (TypeAssertionError (dynamic_type v) TMap),
                        w1)).
    { rewrite Hbody.
      unfold receive. rewrite Hdec. unfold decoded.
      rewrite Hstatus, Hreq, Hresp, Hres. unfold bind at 1 2.
      fold (logger_Output "Response received" w0).
      destruct (logger_Output "Response received" w0) as [r wb] eqn:Hlog.
      assert (r = Done tt) as -> by (by injection Hlog).
      simpl in Hw1. subst wb. simpl.
      by destruct v. }
    unfold run. rewrite Hpanic. unfold bind.
    rewrite logger_Output_line by by repeat apply ends_with_newline_app.
    eexists _, _. split; [reflexivity|]. simpl.
    assert (Hout1 : stdout w1 = stdout w) by (by rewrite Hw1).
    split; [by rewrite Hout1|]. by rewrite last_snoc.
Qed.

(** With raw-JSON mode on, a response that has the field [request] and a
    record for its field [response], and whose status is not [error], is
    printed as indented JSON, and [run] returns 0 whatever the status. *)
Theorem raw_json_exits_zero env conn recv res w :
  injson env = true ->
  write_error conn = None ->
  json_Decode (incoming conn) = (recv, None) ->
  is_text (index recv "status") "error" = false ->
  is_Some (recv !! "request") ->
  recv !! "response" = Some (Record res) ->
  exists w',
    run env conn w = (Done 0, w')
    /\ stdout w'
       = (stdout w ++
          match json_MarshalIndent (Record res) with
          | Some json => [json +:+ nl]
          | None => []
          end)%list.
Proof.
  intros Hjson Hconn Hdec Hstatus [req Hreq] Hres.
  destruct (run_body_receive env conn w Hconn) as (w1 & Hout & Hbody).
  unfold receive in Hbody. rewrite Hdec in Hbody.
  unfold decoded in Hbody. rewrite Hstatus, Hreq, Hres, Hjson in Hbody.
  unfold index in Hbody. rewrite Hres in Hbody. simpl in Hbody.
  unfold bind, ret in Hbody. simpl in Hbody.
  destruct (json_MarshalIndent (Record res)) as [json|];
    (eexists; split; [apply run_completes; rewrite Hbody; reflexivity|]);
    simpl; rewrite Hout; [done|by rewrite app_nil_r].
Qed.

(** A panic in [run] is recovered: the log buffer is printed, its last
    entry the value of the panic, and [run] returns 0, since the result of
    the deferred function is dropped. *)
Theorem panic_exits_zero env conn w r w1 :
  run_body env conn w = (Panicked r, w1) ->
  exists w',
    run env conn w = (Done 0, w')
    /\ stdout w' = (stdout w1 ++ [String.concat EmptyString (logbuf w')])%list
    /\ logbuf w'
       = (logbuf w1
          ++ [log_header (length (logbuf w1))
              +:+ "Fatal error: " +:+ panic_text r +:+ nl])%list.
Proof.
  intros Hbody. unfold run. rewrite Hbody. unfold bind.
  rewrite logger_Output_line by by repeat apply ends_with_newline_app.
  eexists. split; [reflexivity|]. by split.
Qed.

End other_status.

(** ** The self-info formatter *)

Lemma print_text_printed s w : print_text s w = (Done tt, printed w [s]).
Proof. done. Qed.

Lemma printed_printed w l1 l2 :
  printed (printed w l1) l2 = printed w (l1 ++ l2).
Proof. unfold printed. simpl. by rewrite <- (assoc_L (++)). Qed.

Lemma printed_nil w : printed w [] = w.
Proof. destruct w. unfold printed. simpl. by rewrite app_nil_r. Qed.

Lemma prints_bind (m k : Go unit) l1 l2 :
  prints m l1 -> prints k l2 -> prints (m ;; k) (l1 ++ l2).
Proof.
  intros Hm Hk w. unfold bind. by rewrite Hm, Hk, printed_printed.
Qed.

Lemma prints_ret : prints (ret tt) [].
Proof. intros w. by rewrite printed_nil. Qed.

Lemma prints_Println label x :
  prints (fmt.Println [label; x]) [labelled label x].
Proof. intros w. done. Qed.

Section self_info.
Context {rt : GoRuntime}.

Lemma print_string_field_record fields key label :
  prints (print_string_field (Record fields) key label)
         (line_if label (as_string (index fields key))).
Proof.
  intros w. unfold print_string_field, field, bind. simpl.
  destruct (as_string (index fields key)); simpl; [done|].
  by rewrite printed_nil.
Qed.

Lemma print_known_field_record fields key label :
  prints (print_known_field (Record fields) key label)
         (line_if label (known (as_string (index fields key)))).
Proof.
  intros w. unfold print_known_field, field, bind. simpl.
  destruct (as_string (index fields key)) as [x|]; simpl.
  - destruct (negb (String.eqb x "unknown")); simpl; [done|].
    by rewrite printed_nil.
  - by rewrite printed_nil.
Qed.

Lemma handleGetSelf_entry_record verbose k fields :
  prints (handleGetSelf_entry verbose k (Record fields))
         (self_lines verbose k fields).
Proof.
  unfold handleGetSelf_entry, self_lines.
  repeat (apply prints_bind;
          [first [apply print_known_field_record
                 |apply print_string_field_record
                 |apply prints_Println]|]).
  destruct verbose; [|apply prints_ret].
  repeat (apply prints_bind; [apply print_string_field_record|]).
  apply print_string_field_record.
Qed.

Lemma for_each_prints {A} (l : list A) (body : A -> Go unit)
    (texts : A -> list string) :
  Forall (fun x => prints (body x) (texts x)) l ->
  prints (for_each l body) (concat (map texts l)).
Proof.
  induction 1 as [|x l Hx _ IH]; simpl; [apply prints_ret|].
  by apply prints_bind.
Qed.

End self_info.

Lemma append_assoc (s t u : string) : (s +:+ t) +:+ u = s +:+ (t +:+ u).
Proof.
  induction s as [|a s IH]; [done|].
  change (String a ((s +:+ t) +:+ u) = String a (s +:+ (t +:+ u))).
  by rewrite IH.
Qed.

Lemma diverge_HasPrefix s t rest :
  diverge s t = true -> strings.HasPrefix (s +:+ rest) t = false.
Proof.
  revert t. induction s as [|a s IH]; intros [|b t]; simpl; try done.
  destruct (Ascii.eqb a b); [apply IH|done].
Qed.

Lemma labelled_diverge label' label x :
  diverge label' label = true ->
  strings.HasPrefix (labelled label' x) label = false.
Proof.
  intros Hd. unfold labelled.
  change (String.concat " " [label'; x]) with (label' +:+ (" " +:+ x)).
  rewrite append_assoc. by apply diverge_HasPrefix.
Qed.

Lemma line_if_diverge label' label x :
  diverge label' label = true ->
  Forall (fun line => strings.HasPrefix line label = false) (line_if label' x).
Proof.
  intros Hd. destruct x; simpl; [|done].
  constructor; [by apply labelled_diverge|done].
Qed.

Lemma self_lines_omit verbose k fields key label :
  (key, label) ∈ self_fields ->
  as_string (index fields key) = None ->
  Forall (fun line => strings.HasPrefix line label = false)
         (self_lines verbose k fields).
Proof.
  intros Hin Hnone. unfold self_fields in Hin.
  repeat (apply elem_of_cons in Hin as [[= -> ->]|Hin]);
    [..|by apply elem_of_nil in Hin];
    unfold self_lines; rewrite Hnone; simpl;
    repeat match goal with
           | |- Forall _ [] => apply Forall_nil_2
           | |- Forall _ (_ :: _) =>
               apply Forall_cons_2; [by apply labelled_diverge|]
           | |- Forall _ (line_if _ _) => apply line_if_diverge; reflexivity
           | |- Forall _ (_ ++ _) => apply Forall_app; split
           | |- Forall _ (if ?b then _ else _) => destruct b
           end.
Qed.

Section self_info_lines.
Context {rt : GoRuntime}.

(** C2 (amended). When [res["self"]] is a record and every entry of it is
    a record, [handleGetSelf] runs to its end, and it prints no line for a
    field that no entry has as a string: a field that is absent, or that
    holds a value of another type. *)
Theorem handleGetSelf_omits_lines (res self : admin_info) (verbose : bool)
    (w : World) :
  visits_every_entry rt ->
  res !! "self" = Some (Record self) ->
  (forall k v, self !! k = Some v -> exists fields, v = Record fields) ->
  exists w' lines,
    handleGetSelf res verbose w = (Done tt, w')
    /\ stdout w' = (stdout w ++ lines)%list
    /\ forall key label,
         (key, label) ∈ self_fields ->
         (forall k fields,
            self !! k = Some (Record fields) ->
            as_string (index fields key) = None) ->
         Forall (fun line => strings.HasPrefix line label = false) lines.
Proof.
  intros Hrt Hself Hrecords.
  set (kvs := range_order (ranges w) self).
  set (texts := fun kv : string * Value =>
                  match kv.2 with
                  | Record fields => self_lines verbose kv.1 fields
                  | _ => []
                  end).
  assert (Hkvs : Forall (fun kv => self !! kv.1 = Some kv.2) kvs).
  { apply Forall_forall. intros [k v] Hin. simpl.
    apply elem_of_map_to_list. by rewrite <- (Hrt (ranges w) self). }
  assert (Hbody : Forall (fun kv =>
                            prints ((fun '(k, v) =>
                                       handleGetSelf_entry verbose k v) kv)
                                   (texts kv)) kvs).
  { eapply Forall_impl; [exact Hkvs|]. intros [k v] Hkv. simpl in *.
    destruct (Hrecords k v Hkv) as [fields ->]. unfold texts. simpl.
    apply handleGetSelf_entry_record. }
  apply for_each_prints in Hbody.
  eexists _, (concat (map texts kvs)). split; [|split].
  - unfold handleGetSelf, index. rewrite Hself. unfold bind. simpl.
    fold kvs. apply Hbody.
  - done.
  - intros key label Hin Hnone.
    apply Forall_concat, Forall_map.
    eapply Forall_impl; [exact Hkvs|]. intros [k v] Hkv. simpl in *.
    destruct (Hrecords k v Hkv) as [fields ->]. unfold texts. simpl.
    apply (self_lines_omit verbose k fields key label Hin).
    by apply (Hnone k).
Qed.

End self_info_lines.

(** ** Cells that hold a duration *)

Lemma Qtrunc_floor q : (0 <= q)%Q -> Qtrunc q = Qfloor q.
Proof.
  destruct q as [n d]. unfold Qle, Qtrunc, Qfloor. simpl. intros Hn.
  apply Z.quot_div_nonneg; lia.
Qed.

Lemma Qfloor_div60 q : Qfloor (q / 60) = Qfloor q / 60.
Proof.
  destruct q as [n d]. unfold Qdiv, Qmult, Qinv, Qfloor. simpl.
  rewrite Z.mul_1_r, Pos2Z.inj_mul, Z.div_div; lia.
Qed.

Lemma Qfloor_div3600 q : Qfloor (q / 3600) = Qfloor q / 3600.
Proof.
  destruct q as [n d]. unfold Qdiv, Qmult, Qinv, Qfloor. simpl.
  rewrite Z.mul_1_r, Pos2Z.inj_mul, Z.div_div; lia.
Qed.

Lemma Qdiv60_nonneg q : (0 <= q)%Q -> (0 <= q / 60)%Q.
Proof. destruct q as [n d]. unfold Qle, Qdiv, Qmult, Qinv. simpl. lia. Qed.

Lemma Qfloor_nonneg q : (0 <= q)%Q -> 0 <= Qfloor q.
Proof. intros H0. rewrite <- (Qfloor_Z 0). by apply Qfloor_resp_le. Qed.

Lemma Qfloor_below q b : (q < inject_Z b)%Q -> Qfloor q < b.
Proof.
  intros Hb. rewrite Zlt_Qlt. eapply Qle_lt_trans; [apply Qfloor_le|done].
Qed.

Lemma uint_floor q w :
  (0 <= q)%Q -> Qfloor q < 2 ^ 64 -> uint q w = (Done (Qfloor q), w).
Proof.
  intros H0 Hb. unfold uint. rewrite (Qtrunc_floor q H0).
  pose proof (Qfloor_nonneg q H0).
  destruct (Z.leb_spec 0 (Qfloor q)); [|lia].
  destruct (Z.ltb_spec (Qfloor q) (2 ^ 64)); [done|lia].
Qed.

Lemma utoa_fuel_length fuel n acc :
  (String.length acc <= String.length (strconv.utoa_fuel fuel n acc))%nat.
Proof.
  revert n acc. induction fuel as [|fuel IH]; intros n acc; simpl; [done|].
  destruct (n <? 10); simpl; [lia|].
  etransitivity; [|apply IH]. simpl. lia.
Qed.

Lemma d02_length n : (2 <= String.length (fmt.d02 n))%nat.
Proof.
  unfold fmt.d02.
  destruct (Nat.ltb_spec (String.length (strconv.Itoa n)) 2); [|done].
  assert (1 <= String.length (strconv.Itoa n))%nat; [|simpl; lia].
  unfold strconv.Itoa, strconv.utoa.
  destruct (n <? 0); simpl; [lia|].
  destruct (_ <? 10); simpl; [lia|].
  etransitivity; [|apply utoa_fuel_length]. simpl. lia.
Qed.

Lemma d02_below_100 n : 0 <= n < 100 -> String.length (fmt.d02 n) = 2%nat.
Proof.
  intros Hn.
  assert (Hall : forallb (fun m => (String.length (fmt.d02 (Z.of_nat m)) =? 2)%nat)
                   (seq 0 100) = true) by (vm_compute; reflexivity).
  rewrite forallb_forall in Hall.
  specialize (Hall (Z.to_nat n)). rewrite Z2Nat.id in Hall by lia.
  apply Nat.eqb_eq, Hall, in_seq. lia.
Qed.

(** ** Rounding to a [float64] and the whole part *)

Lemma pow2_le_bool e n d :
  0 < d ->
  Qle_bool (float64.pow2 e) (n # Z.to_pos d)
  = if 0 <=? e then 2 ^ e * d <=? n else d <=? n * 2 ^ (- e).
Proof.
  intros Hd. unfold float64.pow2, Qle_bool.
  destruct (Z.leb_spec 0 e) as [He|He]; simpl.
  - rewrite Z2Pos.id by lia. by rewrite Z.mul_1_r.
  - assert (0 < 2 ^ (- e)) by (apply Z.pow_pos_nonneg; lia).
    rewrite !Z2Pos.id by lia. f_equal. destruct d; lia.
Qed.

(** [float64.log2_floor n d] is the exponent of the power of two at or
    below [n / d]; the two bounds are stated after a multiplication by
    [2 ^ K] that makes the exponents positive. *)
Lemma log2_floor_lower n d K :
  0 < n -> 0 < d -> 0 <= K -> 0 <= float64.log2_floor n d + K ->
  2 ^ (float64.log2_floor n d + K) * d <= n * 2 ^ K.
Proof.
  intros Hn Hd HK. unfold float64.log2_floor. rewrite (pow2_le_bool _ n d Hd).
  pose proof (Z.log2_spec n Hn) as [Ha _].
  pose proof (Z.log2_spec d Hd) as [_ Hb].
  pose proof (Z.log2_nonneg n). pose proof (Z.log2_nonneg d).
  set (a := Z.log2 n) in *. set (b := Z.log2 d) in *.
  assert (HpK : 0 < 2 ^ K) by (apply Z.pow_pos_nonneg; lia).
  destruct (Z.leb_spec 0 (a - b)) as [He|He].
  - destruct (Z.leb_spec (2 ^ (a - b) * d) n) as [Ht|Ht]; intros Hlf.
    + rewrite Z.pow_add_r by lia. nia.
    + replace (a - b - 1 + K) with (a + K - Z.succ b) in * by lia.
      assert (Hsplit : 2 ^ (a + K - Z.succ b) * 2 ^ Z.succ b = 2 ^ a * 2 ^ K).
      { rewrite <- !Z.pow_add_r by lia. f_equal. lia. }
      assert (0 < 2 ^ (a + K - Z.succ b)) by (apply Z.pow_pos_nonneg; lia).
      nia.
  - destruct (Z.leb_spec d (n * 2 ^ (- (a - b)))) as [Ht|Ht]; intros Hlf.
    + assert (Hsplit : 2 ^ K = 2 ^ (- (a - b)) * 2 ^ (a - b + K)).
      { rewrite <- Z.pow_add_r by lia. f_equal. lia. }
      assert (0 < 2 ^ (a - b + K)) by (apply Z.pow_pos_nonneg; lia).
      rewrite Hsplit. nia.
    + replace (a - b - 1 + K) with (a + K - Z.succ b) in * by lia.
      assert (Hsplit : 2 ^ (a + K - Z.succ b) * 2 ^ Z.succ b = 2 ^ a * 2 ^ K).
      { rewrite <- !Z.pow_add_r by lia. f_equal. lia. }
      assert (0 < 2 ^ (a + K - Z.succ b)) by (apply Z.pow_pos_nonneg; lia).
      nia.
Qed.

Lemma log2_floor_upper n d K :
  0 < n -> 0 < d -> 0 <= K -> 0 <= float64.log2_floor n d + 1 + K ->
  n * 2 ^ K < 2 ^ (float64.log2_floor n d + 1 + K) * d.
Proof.
  intros Hn Hd HK. unfold float64.log2_floor. rewrite (pow2_le_bool _ n d Hd).
  pose proof (Z.log2_spec n Hn) as [_ Ha].
  pose proof (Z.log2_spec d Hd) as [Hb _].
  pose proof (Z.log2_nonneg n). pose proof (Z.log2_nonneg d).
  set (a := Z.log2 n) in *. set (b := Z.log2 d) in *.
  assert (HpK : 0 < 2 ^ K) by (apply Z.pow_pos_nonneg; lia).
  assert (Hround : 0 <= a - b + 1 + K ->
                   n * 2 ^ K < 2 ^ (a - b + 1 + K) * d).
  { intros Hlf.
    assert (Hsplit : 2 ^ (a - b + 1 + K) * 2 ^ b = 2 ^ Z.succ a * 2 ^ K).
    { rewrite <- !Z.pow_add_r by lia. f_equal. lia. }
    assert (0 < 2 ^ (a - b + 1 + K)) by (apply Z.pow_pos_nonneg; lia).
    nia. }
  destruct (Z.leb_spec 0 (a - b)) as [He|He].
  - destruct (Z.leb_spec (2 ^ (a - b) * d) n) as [Ht|Ht]; intros Hlf.
    + by apply Hround.
    + replace (a - b - 1 + 1 + K) with (a - b + K) by lia.
      rewrite Z.pow_add_r by lia. nia.
  - destruct (Z.leb_spec d (n * 2 ^ (- (a - b)))) as [Ht|Ht]; intros Hlf.
    + by apply Hround.
    + replace (a - b - 1 + 1 + K) with (a - b + K) in * by lia.
      assert (Hsplit : 2 ^ K = 2 ^ (- (a - b)) * 2 ^ (a - b + K)).
      { rewrite <- Z.pow_add_r by lia. f_equal. lia. }
      assert (0 < 2 ^ (a - b + K)) by (apply Z.pow_pos_nonneg; lia).
      rewrite Hsplit. nia.
Qed.

(** When the rounding goes up to a multiple of [S], the number was within
    half a step of it. *)
Lemma round_up_carry n d S N :
  0 < d -> 0 < S -> 0 <= n ->
  d <= 2 * ((n * S) mod d) ->
  n * S / d + 1 = N * S ->
  n < N * d /\ 2 * S * (N * d - n) <= d.
Proof.
  intros Hd HS Hn Hr Hm.
  pose proof (Z.div_mod (n * S) d ltac:(lia)) as Hdm.
  pose proof (Z.mod_pos_bound (n * S) d Hd) as Hmod.
  set (m := n * S / d) in *. set (r := (n * S) mod d) in *.
  assert (Hcarry : N * S * d = (m + 1) * d) by (rewrite <- Hm; ring).
  split; nia.
Qed.

Lemma round_floor n d S :
  0 < d -> 0 < S -> n * S / d / S = n / d.
Proof.
  intros Hd HS. rewrite Z.div_div by lia.
  by rewrite Z.div_mul_cancel_r by lia.
Qed.

Lemma round_up_floor n d S :
  0 < d -> 0 < S -> 0 <= n ->
  (forall N, n < N * d -> d < 2 * S * (N * d - n)) ->
  d <= 2 * ((n * S) mod d) ->
  (n * S / d + 1) / S = n / d.
Proof.
  intros Hd HS Hn Hgap Hr.
  pose proof (round_floor n d S Hd HS) as Hfloor.
  pose proof (Z.div_mod (n * S / d) S ltac:(lia)) as Hdm.
  pose proof (Z.mod_pos_bound (n * S / d) S HS) as Hmod.
  destruct (Z.eq_dec ((n * S / d) mod S) (S - 1)) as [Heq|Hne].
  - exfalso.
    destruct (round_up_carry n d S (n * S / d / S + 1) Hd HS Hn Hr)
      as [Hlt Hle]; [nia|].
    specialize (Hgap _ Hlt). lia.
  - rewrite <- Hfloor. symmetry.
    apply (Z.div_unique_pos _ _ _ ((n * S / d) mod S + 1)); lia.
Qed.

(** The two reasons why a number is not within half a step of a whole
    number above it: it is below a half, or it is a multiple of a step
    that is wide enough. *)
Lemma gap_below_half n d S :
  0 < d -> 0 < S -> 0 <= n -> 2 * n < d ->
  forall N, n < N * d -> d < 2 * S * (N * d - n).
Proof. intros Hd HS Hn Hhalf N HN. assert (1 <= N) by nia. nia. Qed.

Lemma gap_of_multiple n d S T M :
  0 < d -> 0 < S -> 0 < T -> n * T = M * d -> T < 2 * S ->
  forall N, n < N * d -> d < 2 * S * (N * d - n).
Proof.
  intros Hd HS HT Hx Hwide N HN.
  assert (M < N * T) by nia.
  assert (d <= T * (N * d - n)) by nia.
  nia.
Qed.

(** [float64.nearest] of a positive number whose exponent is negative. *)
Lemma nearest_positive n d :
  0 < n ->
  let p := Z.max (float64.log2_floor n (Z.pos d) - 52) (- 1074) in
  p < 0 ->
  exists m',
    (m' = n * 2 ^ (- p) / Z.pos d
     \/ (m' = n * 2 ^ (- p) / Z.pos d + 1
         /\ Z.pos d <= 2 * ((n * 2 ^ (- p)) mod Z.pos d)))
    /\ float64.nearest (n # d) = Qred (inject_Z m' * float64.pow2 p).
Proof.
  intros Hn p Hp. unfold float64.nearest.
  change (Qnum (n # d)) with n. change (Qden (n # d)) with d.
  rewrite (Z.abs_eq n) by lia. fold p.
  destruct (Z.eqb_spec n 0) as [|_]; [lia|].
  destruct (Z.leb_spec 0 p) as [|_]; [lia|].
  rewrite (Z.sgn_pos n Hn), Z.mul_1_l.
  set (num := n * 2 ^ (- p)).
  destruct ((Z.pos d <? 2 * (num mod Z.pos d))
            || ((2 * (num mod Z.pos d) =? Z.pos d) && Z.odd (num / Z.pos d)))
    eqn:Hup.
  - exists (num / Z.pos d + 1). split; [right; split; [done|]|done].
    apply orb_prop in Hup as [Hup|[Hup _]%andb_prop]; lia.
  - exists (num / Z.pos d). by split; [left|].
Qed.

Lemma Qfloor_scaled m p :
  p < 0 -> Qfloor (Qred (inject_Z m * float64.pow2 p)) = m / 2 ^ (- p).
Proof.
  intros Hp. rewrite (Qfloor_comp _ _ (Qred_correct _)).
  unfold float64.pow2. destruct (Z.leb_spec 0 p) as [|_]; [lia|].
  assert (0 < 2 ^ (- p)) by (apply Z.pow_pos_nonneg; lia).
  unfold Qfloor, Qmult, inject_Z. simpl.
  rewrite Z.mul_1_r, Pos.mul_1_l, Z2Pos.id by lia. done.
Qed.

Lemma Qred_scaled m p :
  p < 0 ->
  (Qred (inject_Z m * float64.pow2 p) * inject_Z (2 ^ (- p)) == inject_Z m)%Q.
Proof.
  intros Hp. rewrite Qred_correct.
  unfold float64.pow2. destruct (Z.leb_spec 0 p) as [|_]; [lia|].
  assert (0 < 2 ^ (- p)) by (apply Z.pow_pos_nonneg; lia).
  unfold Qeq, Qmult, inject_Z. simpl.
  rewrite !Pos.mul_1_r, !Z.mul_1_r, Pos.mul_1_l, Z2Pos.id by lia. done.
Qed.

Lemma scaled_nonneg (x : Q) (M S : Z) :
  0 < S -> 0 <= M -> (x * inject_Z S == inject_Z M)%Q -> (0 <= x)%Q.
Proof.
  destruct x as [n d]. unfold Qeq, Qle, Qmult, inject_Z. simpl.
  rewrite !Pos.mul_1_r, !Z.mul_1_r. intros HS HM Hx. nia.
Qed.

(** The sixtieth of a number of at most 53 bits whose last bit is a unit
    or less: rounding it keeps its whole part, and gives a number of the
    same kind. *)
Lemma nearest_sixtieth (x : Q) (M s : Z) :
  0 <= s -> 0 <= M <= 2 ^ 53 ->
  (x * inject_Z (60 * 2 ^ s) == inject_Z M)%Q ->
  Qfloor (float64.nearest x) = Qfloor x
  /\ exists M' s',
       0 <= s' /\ 0 <= M' <= 2 ^ 53
       /\ (float64.nearest x * inject_Z (2 ^ s') == inject_Z M')%Q.
Proof.
  intros Hs HM Hx. destruct x as [n d].
  assert (Hps : 0 < 2 ^ s) by (apply Z.pow_pos_nonneg; lia).
  assert (HT : n * (60 * 2 ^ s) = M * Z.pos d).
  { revert Hx. unfold Qeq, Qmult, inject_Z. simpl.
    by rewrite !Pos.mul_1_r, !Z.mul_1_r. }
  assert (Hn : 0 <= n) by nia.
  destruct (Z.eq_dec n 0) as [->|Hn0].
  { split; [done|]. exists 0, 0. done. }
  assert (Hbelow : n * 2 ^ s * 32 < 2 ^ 53 * Z.pos d) by nia.
  set (lf := float64.log2_floor n (Z.pos d)).
  assert (Hlf : lf + s <= 47).
  { destruct (Z.le_gt_cases (lf + s) 47) as [|Hbig]; [done|exfalso].
    pose proof (log2_floor_lower n (Z.pos d) s ltac:(lia) ltac:(lia) Hs
                  ltac:(fold lf; lia)) as Hlow.
    fold lf in Hlow.
    assert (2 ^ 48 <= 2 ^ (lf + s)) by (apply Z.pow_le_mono_r; lia).
    nia. }
  set (p := Z.max (lf - 52) (- 1074)).
  assert (Hp : p < 0) by lia.
  assert (HS : 0 < 2 ^ (- p)) by (apply Z.pow_pos_nonneg; lia).
  assert (Hgap : forall N, n < N * Z.pos d ->
                           Z.pos d < 2 * 2 ^ (- p) * (N * Z.pos d - n)).
  { destruct (Z.le_gt_cases s 1069) as [Hsmall|Hlarge].
    - apply (gap_of_multiple n (Z.pos d) _ (60 * 2 ^ s) M); [lia..|done|].
      assert (2 ^ (s + 5) <= 2 ^ (- p)) by (apply Z.pow_le_mono_r; lia).
      rewrite Z.pow_add_r in * by lia. lia.
    - apply gap_below_half; [lia..|].
      assert (2 ^ 54 <= 2 ^ s) by (apply Z.pow_le_mono_r; lia).
      nia. }
  assert (Hm : n * 2 ^ (- p) < 2 ^ 53 * Z.pos d).
  { destruct (Z.le_gt_cases 0 (lf + 1 + - p)) as [Hpos|Hneg].
    - pose proof (log2_floor_upper n (Z.pos d) (- p) ltac:(lia) ltac:(lia)
                    ltac:(lia) ltac:(fold lf; lia)) as Hup.
      fold lf in Hup.
      assert (2 ^ (lf + 1 + - p) <= 2 ^ 53) by (apply Z.pow_le_mono_r; lia).
      nia.
    - pose proof (log2_floor_upper n (Z.pos d) (- (lf + 1)) ltac:(lia)
                    ltac:(lia) ltac:(lia) ltac:(fold lf; lia)) as Hup.
      fold lf in Hup. rewrite Z.add_opp_diag_r, Z.pow_0_r in Hup.
      assert (2 ^ (- p) <= 2 ^ (- (lf + 1)))
        by (apply Z.pow_le_mono_r; lia).
      nia. }
  assert (Hm0 : 0 <= n * 2 ^ (- p) / Z.pos d < 2 ^ 53).
  { split; [|apply Z.div_lt_upper_bound; lia].
    apply Z.div_pos; [apply Z.mul_nonneg_nonneg|]; lia. }
  destruct (nearest_positive n d ltac:(lia) Hp) as (m' & Hm' & ->).
  fold lf p in Hm' |- *. rewrite (Qfloor_scaled _ _ Hp).
  split.
  - change (Qfloor (n # d)) with (n / Z.pos d).
    destruct Hm' as [->|[-> Hup]].
    + apply round_floor; lia.
    + apply round_up_floor; [lia..|done|done].
  - exists m', (- p). split; [lia|]. split; [|by apply Qred_scaled].
    destruct Hm' as [->|[-> _]]; lia.
Qed.

Lemma Ldexp_scaled m e :
  e <= 0 -> (float64.Ldexp m e * inject_Z (2 ^ (- e)) == inject_Z m)%Q.
Proof.
  intros He. unfold float64.Ldexp, float64.pow2.
  assert (0 < 2 ^ (- e)) by (apply Z.pow_pos_nonneg; lia).
  destruct (Z.leb_spec 0 e) as [He0|_].
  - assert (e = 0) as -> by lia. unfold Qeq, Qmult, inject_Z. simpl. lia.
  - unfold Qeq, Qmult, inject_Z. simpl.
    rewrite !Pos.mul_1_r, !Z.mul_1_r, Pos.mul_1_l, Z2Pos.id by lia. done.
Qed.

Lemma scaled_floor (x : Q) (M S : Z) :
  0 < S -> 0 <= M -> (x * inject_Z S == inject_Z M)%Q -> 0 <= Qfloor x <= M.
Proof.
  intros HS HM Hx. pose proof (scaled_nonneg x M S HS HM Hx) as H0.
  split; [by apply Qfloor_nonneg|].
  destruct x as [n d]. revert Hx H0. unfold Qeq, Qle, Qmult, inject_Z. simpl.
  rewrite !Pos.mul_1_r, !Z.mul_1_r. intros Hx H0.
  apply Z.div_le_upper_bound; [lia|]. nia.
Qed.

Lemma sixtieth_scaled (x : Q) (M s : Z) :
  (x * inject_Z (2 ^ s) == inject_Z M)%Q ->
  (x / 60 * inject_Z (60 * 2 ^ s) == inject_Z M)%Q.
Proof.
  intros Hx. rewrite inject_Z_mult, <- Hx. change (inject_Z 60) with 60%Q.
  field.
Qed.

(** [uint(f / 60)] for a [float64] below [2 ^ 53]. *)
Lemma uint_sixtieth (x : Q) (M s : Z) w :
  0 <= s -> 0 <= M <= 2 ^ 53 ->
  (x * inject_Z (2 ^ s) == inject_Z M)%Q ->
  uint (float64.div x 60) w = (Done (Qfloor x / 60), w)
  /\ Qfloor (float64.div x 60) = Qfloor x / 60
  /\ exists M' s',
       0 <= s' /\ 0 <= M' <= 2 ^ 53
       /\ (float64.div x 60 * inject_Z (2 ^ s') == inject_Z M')%Q.
Proof.
  intros Hs HM Hx. unfold float64.div.
  destruct (nearest_sixtieth (x / 60) M s Hs HM (sixtieth_scaled x M s Hx))
    as (Hfloor & M' & s' & Hs' & HM' & Hy).
  rewrite <- Qfloor_div60, <- Hfloor.
  split; [|split; [done|by exists M', s']].
  assert (Hps : 0 < 2 ^ s') by (apply Z.pow_pos_nonneg; lia).
  pose proof (scaled_floor _ M' (2 ^ s') Hps (proj1 HM') Hy).
  apply uint_floor; [by apply (scaled_nonneg _ M' (2 ^ s') Hps (proj1 HM'))|lia].
Qed.

Section durations.
Context {rt : GoRuntime}.

(** C7 (amended). A cell of the column [uptime] or [last_seen] that holds
    a [float64] number of seconds, not negative and below [2 ^ 53], is
    printed as hours, minutes and seconds: the whole hours in two digits
    or more, then the minutes of the hour and the seconds of the minute,
    each in two digits. *)
Theorem duration_cell (k : string) (q : Q) (m e : Z) (w : World) :
  k = "uptime" \/ k = "last_seen" ->
  0 <= m < 2 ^ 53 ->
  e <= 0 ->
  (q == float64.Ldexp m e)%Q ->
  let hours := Qfloor (q / 3600) in
  let minutes := Qfloor (q / 60) mod 60 in
  let seconds := Qfloor q mod 60 in
  format_cell k (Number q) w
  = (Done (fmt.d02 hours +:+ ":" +:+ fmt.d02 minutes +:+ ":"
           +:+ fmt.d02 seconds), w)
  /\ (2 <= String.length (fmt.d02 hours))%nat
  /\ String.length (fmt.d02 minutes) = 2%nat
  /\ String.length (fmt.d02 seconds) = 2%nat.
Proof.
  intros Hk Hm He Hq hours minutes seconds.
  assert (Hps : 0 < 2 ^ (- e)) by (apply Z.pow_pos_nonneg; lia).
  assert (Hx : (q * inject_Z (2 ^ (- e)) == inject_Z m)%Q)
    by (rewrite Hq; by apply Ldexp_scaled).
  pose proof (scaled_nonneg q m _ Hps ltac:(lia) Hx) as H0.
  pose proof (scaled_floor q m _ Hps ltac:(lia) Hx) as Hfloor.
  destruct (uint_sixtieth q m (- e) w ltac:(lia) ltac:(lia) Hx)
    as (Hminutes & Hsixtieth & M' & s' & Hs' & HM' & Hy).
  destruct (uint_sixtieth (float64.div q 60) M' s' w Hs' HM' Hy)
    as (Hhours & _).
  assert (Hh : Qfloor (float64.div q 60) / 60 = hours).
  { subst hours. rewrite Hsixtieth, Qfloor_div3600, Z.div_div by lia.
    reflexivity. }
  split; [|split; [apply d02_length|split; apply d02_below_100]].
  2: { subst minutes. pose proof (Z.mod_pos_bound (Qfloor (q / 60)) 60). lia. }
  2: { subst seconds. pose proof (Z.mod_pos_bound (Qfloor q) 60). lia. }
  assert (Hcell : format_cell k (Number q) w
                  = (s <- uint q ;; m <- uint (float64.div q 60) ;;
                     h <- uint (float64.div (float64.div q 60) 60) ;;
                     ret (fmt.d02 h +:+ ":" +:+ fmt.d02 (m mod 60) +:+ ":"
                          +:+ fmt.d02 (s mod 60))) w).
  { by destruct Hk as [-> | ->]. }
  rewrite Hcell. unfold bind.
  rewrite (uint_floor q) by (done || lia).
  rewrite Hminutes, Hhours, Hh. subst minutes. by rewrite Qfloor_div60.
Qed.

End durations.

(** ** The table renderer *)

Lemma bind_Done {A B} (m : Go A) (k : A -> Go B) w b w' :
  (x <- m ;; k x) w = (Done b, w') ->
  exists a w1, m w = (Done a, w1) /\ k a w1 = (Done b, w').
Proof.
  unfold bind. destruct (m w) as [[a|p|why] w1]; try discriminate. eauto.
Qed.

Lemma for_fold_carries {A S} (R : S -> S -> Prop) (l : list A)
    (body : A -> S -> Go S) :
  (forall s, R s s) ->
  (forall s1 s2 s3, R s1 s2 -> R s2 s3 -> R s1 s3) ->
  (forall x s w s' w', body x s w = (Done s', w') -> R s s') ->
  forall s w s' w', for_fold l body s w = (Done s', w') -> R s s'.
Proof.
  intros Hrefl Htrans Hbody.
  induction l as [|x l IH]; intros s w s' w'; simpl.
  - intros [= <- _]. apply Hrefl.
  - intros (s1 & w1 & H1 & H2)%bind_Done.
    eapply Htrans; [by eapply Hbody|by eapply IH].
Qed.

Lemma carried_over_refl st : carried_over st st.
Proof. split; [done|]. by intros ->. Qed.

Lemma carried_over_trans st1 st2 st3 :
  carried_over st1 st2 -> carried_over st2 st3 -> carried_over st1 st3.
Proof.
  intros [Hw12 Hk12] [Hw23 Hk23]. split.
  - intros k. etransitivity; [apply Hw12|apply Hw23].
  - intros Ho. destruct (Hk12 Ho) as [Hk Ho2].
    destruct (Hk23 Ho2) as [Hk' Ho3]. split; congruence.
Qed.

Section table.
Context {rt : GoRuntime}.

Lemma measure_carried slk k v st : carried_over st (measure slk k v st).
Proof.
  split; [|done]. intros j. unfold measure, width. simpl.
  set (w1 := if (_ <? String.length slk)%nat then _ else _).
  assert (H1 : (default 0%nat (maxWidths st !! j) <= default 0%nat (w1 !! j))%nat).
  { subst w1. unfold width.
    destruct (Nat.ltb_spec (default 0%nat (maxWidths st !! "key"))
                (String.length slk)) as [Hlt|]; [|done].
    destruct (decide (j = "key")) as [->|Hne].
    - rewrite lookup_insert_eq. simpl. lia.
    - by rewrite lookup_insert_ne. }
  etransitivity; [exact H1|].
  destruct (Nat.ltb_spec (default 0%nat (w1 !! k))
              (String.length (fmt.Sprint v))) as [Hlt|]; [|done].
  destruct (decide (j = k)) as [->|Hne].
  - destruct (_ <? String.length k)%nat eqn:Hk;
      rewrite lookup_insert_eq; simpl; [|lia].
    apply Nat.ltb_lt in Hk. lia.
  - destruct (_ <? String.length k)%nat; by rewrite lookup_insert_ne.
Qed.

Lemma foldl_measure_carried slk kvs st :
  carried_over st (foldl (fun st '(k, v) => measure slk k v st) st kvs).
Proof.
  revert st. induction kvs as [|[k v] kvs IH]; intros st; simpl.
  - apply carried_over_refl.
  - eapply carried_over_trans; [apply measure_carried|apply IH].
Qed.

Lemma order_keys_carried verbose slv st w st' w' :
  order_keys verbose slv st w = (Done st', w') -> carried_over st st'.
Proof.
  unfold order_keys. destruct (keysOrdered st) eqn:Ho; simpl.
  - intros [= <- _]. apply carried_over_refl.
  - intros (fields & w1 & _ & (kvs & w2 & _ & [= <- _])%bind_Done)%bind_Done.
    split; [done|]. by rewrite Ho.
Qed.

Lemma measure_record_carried verbose slk slv st w st' w' :
  measure_record verbose slk slv st w = (Done st', w') -> carried_over st st'.
Proof.
  unfold measure_record.
  intros (st1 & w1 & H1 & (fields & w2 & _
          & (kvs & w3 & _ & [= <- _])%bind_Done)%bind_Done)%bind_Done.
  eapply carried_over_trans; [by eapply order_keys_carried|].
  apply foldl_measure_carried.
Qed.

Lemma for_each_Printf_left (width : string -> nat) (l : list string) :
  prints (for_each l (fun v => fmt.Printf_left (width v) v))
         (map (fun v => v +:+ fmt.spaces (width v - utf8.RuneCountInString v)
                        +:+ "  ") l).
Proof.
  induction l as [|v l IH]; simpl; [apply prints_ret|].
  apply (prints_bind _ _ [_]); [by intros w|exact IH].
Qed.

Lemma print_header_texts st : prints (print_header st) (header_texts st).
Proof.
  unfold print_header, header_texts.
  destruct (keyOrder st) as [|k ks]; [apply prints_ret|].
  change (0 <? length (k :: ks))%nat with true. cbv iota.
  apply (prints_bind _ _ [_]); [by intros w|].
  apply prints_bind; [|by intros w].
  apply (for_each_Printf_left (width st)).
Qed.


End table.

(** ** The request on its way through JSON *)

Section round_trip.
Context {rt : GoRuntime} {js : EncodingJSON}.

(** The contract of the JSON library that the round trip rests on: a map
    that the encoder [carries] (it writes the map's texts as they are; Go's
    encoder replaces bytes that are not valid UTF-8) reads back as the same
    map, with every number as a [float64]. *)
Variable carries : admin_info -> Prop.
Hypothesis Decode_Encode :
  forall m, carries m ->
    json_Decode (json_Encode m) = (as_decoded <$> m, None).

(** C8 (amended). For a command name that does not begin with a dash and
    parameters without the key [request], the document that is written
    reads back as the record of the name under [request] and the
    parameters beside it. *)
Theorem request_round_trip env conn name rest w :
  args env = name :: rest ->
  strings.HasPrefix name "-" = false ->
  params rest !! "request" = None ->
  write_error conn = None ->
  carries (<["request" := Text name]> (params rest)) ->
  exists doc w',
    send_request env conn w = (Done tt, w')
    /\ written w' = (written w ++ [doc])%list
    /\ json_Decode doc
       = (<["request" := Text name]> (as_decoded <$> params rest), None).
Proof.
  intros Hargs Hname Hfree Hconn Hcarries.
  destruct (send_request_writes env conn name rest w Hargs Hconn)
    as (w' & Hrun & _ & Hwritten).
  rewrite Hname in Hwritten.
  rewrite <- insert_union_singleton_r in Hwritten by done.
  eexists _, w'. split; [done|]. split; [done|].
  rewrite (Decode_Encode _ Hcarries). by rewrite fmap_insert.
Qed.

End round_trip.

(** ** The JSON library of the examples: strings *)

Lemma append_String a s t : String a s +:+ t = String a (s +:+ t).
Proof. reflexivity. Qed.

Lemma append_length s t :
  String.length (s +:+ t) = (String.length s + String.length t)%nat.
Proof.
  induction s as [|a s IH]; [done|].
  rewrite append_String. simpl. by rewrite IH.
Qed.

Lemma unquote_escape_byte b fuel rest :
  (N_of_ascii b <? 128)%N = true ->
  json.unquote (S fuel) (json.escape_byte b +:+ rest)
  = json.add_text (String b) (json.unquote fuel rest).
Proof.
  destruct b as [[] [] [] [] [] [] [] []]; intros Hb; try discriminate Hb;
    destruct fuel; reflexivity.
Qed.

Lemma rune_len_sequence s n :
  utf8.rune_len s = n -> (2 <= n)%nat ->
  exists pre post,
    s = pre +:+ post /\ String.length pre = n
    /\ (exists c pre', pre = String c pre' /\ (N_of_ascii c <? 128)%N = false)
    /\ forall rest, utf8.rune_len (pre +:+ rest) = n.
Proof.
  destruct s as [|c s]; simpl; [lia|].
  destruct (N_of_ascii c <? 128)%N eqn:Hc; [lia|].
  destruct (utf8.lead (N_of_ascii c)) as [[[k lo] hi]|] eqn:Hlead; [|lia].
  destruct k as [|[|[|[|[|k]]]]]; try lia.
  - destruct s as [|c1 s]; [lia|].
    destruct (utf8.between lo hi c1) eqn:H1; [|lia].
    intros <- _. exists (String c (String c1 EmptyString)), s.
    split; [done|]. split; [done|]. split; [by eexists _, _|].
    intros rest. simpl. by rewrite Hc, Hlead, H1.
  - destruct s as [|c1 [|c2 s]]; try lia.
    destruct (utf8.between lo hi c1 && utf8.between 128 191 c2) eqn:H1; [|lia].
    intros <- _. exists (String c (String c1 (String c2 EmptyString))), s.
    split; [done|]. split; [done|]. split; [by eexists _, _|].
    intros rest. simpl. by rewrite Hc, Hlead, H1.
  - destruct s as [|c1 [|c2 [|c3 s]]]; try lia.
    destruct (utf8.between lo hi c1 && utf8.between 128 191 c2
              && utf8.between 128 191 c3) eqn:H1; [|lia].
    intros <- _.
    exists (String c (String c1 (String c2 (String c3 EmptyString)))), s.
    split; [done|]. split; [done|]. split; [by eexists _, _|].
    intros rest. simpl. by rewrite Hc, Hlead, H1.
Qed.

Lemma take_bytes_app pre rest :
  json.take_bytes (String.length pre) (pre +:+ rest) = pre.
Proof.
  induction pre as [|a pre IH]; [by destruct rest|].
  rewrite append_String. simpl. by rewrite IH.
Qed.

Lemma drop_bytes_app pre rest :
  utf8.drop_bytes (String.length pre) (pre +:+ rest) = rest.
Proof. induction pre as [|a pre IH]; [done|]. by rewrite append_String. Qed.

Lemma line_separator_escape s d fuel rest :
  json.line_separator s = Some d ->
  utf8.rune_len s = 3%nat
  /\ json.unquote (S fuel)
       (String json.backslash "u202" +:+ String d EmptyString +:+ rest)
     = json.add_text (String.append (json.take_bytes 3 s))
                     (json.unquote fuel rest).
Proof.
  destruct s as [|a [|b [|c s]]]; try discriminate. simpl.
  destruct (Ascii.eqb_spec a "226") as [->|]; [|discriminate].
  destruct (Ascii.eqb_spec b "128") as [->|]; [|discriminate]. simpl.
  destruct (Ascii.eqb_spec c "168") as [->|].
  { intros [= <-]. split; [done|]. by destruct fuel. }
  destruct (Ascii.eqb_spec c "169") as [->|]; [|discriminate].
  intros [= <-]. split; [done|]. by destruct fuel.
Qed.

Lemma escape_byte_length b : (1 <= String.length (json.escape_byte b))%nat.
Proof.
  unfold json.escape_byte.
  repeat match goal with
         | |- context [if ?c then _ else _] => destruct c
         end; simpl; lia.
Qed.

Lemma unquote_high c s fuel :
  (N_of_ascii c <? 128)%N = false ->
  json.unquote (S fuel) (String c s)
  = let k := utf8.rune_len (String c s) in
    if (k =? 1)%nat
    then json.add_text (String.append json.replacement) (json.unquote fuel s)
    else json.add_text (String.append (json.take_bytes k (String c s)))
           (json.unquote fuel (utf8.drop_bytes k (String c s))).
Proof.
  intros Hc. apply N.ltb_ge in Hc.
  cbn [json.unquote].
  destruct (N.eqb_spec (N_of_ascii c) 34); [lia|].
  destruct (N.eqb_spec (N_of_ascii c) 92); [lia|].
  destruct (N.ltb_spec (N_of_ascii c) 32); [lia|].
  destruct (N.ltb_spec (N_of_ascii c) 128); [lia|].
  reflexivity.
Qed.

Lemma unquote_closing fuel rest :
  json.unquote (S fuel) (String json.dquote rest) = json.Parsed EmptyString rest None.
Proof. reflexivity. Qed.

Lemma rune_len_at_least_1 c s : (1 <= utf8.rune_len (String c s))%nat.
Proof.
  unfold utf8.rune_len.
  repeat match goal with
         | |- context [if ?c then _ else _] => destruct c
         | |- context [match ?x with _ => _ end] => destruct x
         end; lia.
Qed.

Lemma unquote_quote_bytes f1 s :
  valid_bytes f1 s = true ->
  (String.length s <= f1)%nat ->
  forall f2 rest,
    (String.length (json.quote_bytes f1 s) < f2)%nat ->
    json.unquote f2 (json.quote_bytes f1 s +:+ String json.dquote rest)
    = json.Parsed s rest None.
Proof.
  revert s. induction f1 as [|f1 IH]; intros s Hvalid Hlen f2 rest Hf2.
  { destruct s; [|simpl in Hlen; lia]. destruct f2; [simpl in Hf2; lia|].
    reflexivity. }
  destruct s as [|b s].
  { destruct f2; [simpl in Hf2; lia|]. reflexivity. }
  cbn [json.quote_bytes valid_bytes] in *.
  destruct (N_of_ascii b <? 128)%N eqn:Hb.
  - rewrite append_assoc. rewrite append_length in Hf2.
    pose proof (escape_byte_length b).
    destruct f2 as [|f2]; [lia|].
    rewrite (unquote_escape_byte b f2 _ Hb).
    rewrite IH; [done|done|simpl in Hlen; lia|lia].
  - pose proof (rune_len_at_least_1 b s) as Hpos.
    destruct (Nat.eqb_spec (utf8.rune_len (String b s)) 1) as [|Hne];
      [discriminate|].
    destruct (rune_len_sequence (String b s) _ eq_refl ltac:(lia))
      as (pre & post & Hs & Hpre & (c & pre' & Hc & Hhigh) & Hrune).
    rewrite Hs in Hlen. rewrite append_length in Hlen.
    assert (Hdrop : utf8.drop_bytes (utf8.rune_len (String b s)) (String b s)
                    = post).
    { rewrite <- Hpre at 1. rewrite Hs. apply drop_bytes_app. }
    assert (Htake : json.take_bytes (utf8.rune_len (String b s)) (String b s)
                    = pre).
    { rewrite <- Hpre at 1. rewrite Hs. apply take_bytes_app. }
    rewrite Hdrop in *.
    destruct f2 as [|f2]; [lia|].
    destruct (json.line_separator (String b s)) as [d|] eqn:Hsep.
    + destruct (line_separator_escape _ d f2
                  (json.quote_bytes f1 post +:+ String json.dquote rest) Hsep)
        as [H3 Hstep].
      rewrite !append_assoc. rewrite Hstep. rewrite <- H3, Htake.
      rewrite !append_length in Hf2. simpl in Hf2.
      rewrite IH; [by rewrite Hs|done|lia|lia].
    + rewrite Htake in *. rewrite append_assoc. rewrite append_length in Hf2.
      subst pre. rewrite append_String.
      rewrite (unquote_high c _ f2 Hhigh). cbv zeta.
      rewrite <- append_String. rewrite (Hrune _).
      destruct (Nat.eqb_spec (utf8.rune_len (String b s)) 1) as [|_]; [done|].
      rewrite <- Hpre at 1 2. rewrite take_bytes_app, drop_bytes_app.
      rewrite IH; [by rewrite Hs|done|lia|lia].
Qed.

Lemma unquote_quote s fuel rest :
  ValidString s = true ->
  (String.length (json.quote s) <= S fuel)%nat ->
  exists tail,
    json.quote s +:+ rest = String json.dquote tail
    /\ json.unquote fuel tail = json.Parsed s rest None.
Proof.
  intros Hvalid Hfuel. unfold json.quote in *.
  eexists. split; [rewrite append_String; reflexivity|].
  rewrite append_assoc. apply unquote_quote_bytes; [done|done|].
  simpl in Hfuel. rewrite append_length in Hfuel. simpl in Hfuel. lia.
Qed.

(** ** The JSON library of the examples: numbers *)

Lemma digit_char_val d :
  0 <= d <= 9 ->
  strconv.digit_val (strconv.digit_char d) = Some d
  /\ is_digit (strconv.digit_char d) = true
  /\ (0 < d -> Ascii.eqb (strconv.digit_char d) "0" = false).
Proof.
  intros Hd.
  assert (d = 0 \/ d = 1 \/ d = 2 \/ d = 3 \/ d = 4 \/ d = 5 \/ d = 6
          \/ d = 7 \/ d = 8 \/ d = 9) as Hcases by lia.
  repeat destruct Hcases as [->|Hcases]; try subst d;
    (split; [reflexivity|split; [reflexivity|]]); intros; (reflexivity || lia).
Qed.

Lemma digits_digit d a s :
  0 <= d <= 9 ->
  json.digits a (String (strconv.digit_char d) s)
  = bump 1 (json.digits (a * 10 + d) s).
Proof.
  intros Hd. cbn [json.digits].
  rewrite (proj1 (digit_char_val d Hd)).
  by destruct (json.digits (a * 10 + d) s) as [[c v] r].
Qed.

Lemma bump_bump j k r : bump j (bump k r) = bump (j + k) r.
Proof. destruct r as [[c v] rest]. simpl. f_equal. f_equal. lia. Qed.

Lemma digits_utoa_fuel fuel n acc a rest :
  (1 <= fuel)%nat ->
  0 <= n < 10 ^ Z.of_nat fuel ->
  exists k,
    (1 <= k)%nat
    /\ json.digits a (strconv.utoa_fuel fuel n acc +:+ rest)
       = bump k (json.digits (a * 10 ^ Z.of_nat k + n) (acc +:+ rest)).
Proof.
  revert n acc a. induction fuel as [|fuel IH]; intros n acc a Hfuel Hn; [lia|].
  cbn [strconv.utoa_fuel].
  destruct (Z.ltb_spec n 10) as [Hsmall|Hbig].
  - exists 1%nat. split; [done|]. rewrite append_String.
    rewrite Z.mod_small by lia. rewrite digits_digit by lia.
    reflexivity.
  - assert (Hdiv : 0 <= n / 10 < 10 ^ Z.of_nat fuel).
    { split; [apply Z.div_pos; lia|]. apply Z.div_lt_upper_bound; [lia|].
      rewrite Nat2Z.inj_succ, Z.pow_succ_r in Hn by lia. lia. }
    assert (1 <= fuel)%nat.
    { destruct fuel; [|lia]. simpl in Hdiv.
      assert (1 <= n / 10) by (apply Z.div_le_lower_bound; lia). lia. }
    destruct (IH (n / 10) (String (strconv.digit_char (n mod 10)) acc) a
                ltac:(done) Hdiv) as (k & Hk & Heq).
    exists (S k). split; [lia|]. rewrite Heq, append_String.
    pose proof (Z.mod_pos_bound n 10 ltac:(lia)).
    rewrite digits_digit by lia. rewrite bump_bump.
    replace (k + 1)%nat with (S k) by lia. do 2 f_equal.
    rewrite Nat2Z.inj_succ, Z.pow_succ_r by lia.
    pose proof (Z.div_mod n 10 ltac:(lia)). lia.
Qed.

Lemma utoa_fuel_head fuel n acc :
  0 < n < 10 ^ Z.of_nat fuel ->
  exists c tail,
    strconv.utoa_fuel fuel n acc = String c tail
    /\ is_digit c = true /\ Ascii.eqb c "0" = false.
Proof.
  revert n acc. induction fuel as [|fuel IH]; intros n acc Hn.
  { simpl in Hn. lia. }
  cbn [strconv.utoa_fuel].
  destruct (Z.ltb_spec n 10) as [Hsmall|Hbig].
  - eexists _, _. split; [done|]. rewrite Z.mod_small by lia.
    destruct (digit_char_val n ltac:(lia)) as (_ & ? & ?). split; [done|].
    auto with zarith.
  - apply IH. split; [apply Z.div_str_pos; lia|].
    apply Z.div_lt_upper_bound; [lia|].
    rewrite Nat2Z.inj_succ, Z.pow_succ_r in Hn by lia. lia.
Qed.

Lemma utoa_fuel_enough n :
  0 <= n -> n < 10 ^ Z.of_nat (S (Z.to_nat (Z.log2 n))).
Proof.
  intros Hn. destruct (Z.eq_dec n 0) as [->|Hne]; [done|].
  rewrite Nat2Z.inj_succ, Z2Nat.id by apply Z.log2_nonneg.
  pose proof (Z.log2_spec n ltac:(lia)) as [_ Hlog].
  eapply Z.lt_le_trans; [exact Hlog|].
  apply Z.pow_le_mono_l. lia.
Qed.

Lemma digits_stop a rest :
  ends_number rest = true -> json.digits a rest = (O, a, rest).
Proof.
  destruct rest as [|t rest]; [done|]. simpl.
  destruct (Ascii.eqb_spec t ",") as [->|]; [done|].
  destruct (Ascii.eqb_spec t "}") as [->|]; done.
Qed.

Lemma overflows_int z :
  - 2 ^ 63 <= z < 2 ^ 63 -> float64.overflows (inject_Z z) = false.
Proof.
  intros Hz. unfold float64.overflows, Qle_bool, Qabs, inject_Z. simpl.
  apply Z.leb_gt. rewrite Z.mul_1_r.
  assert (Z.abs z <= 2 ^ 63) by lia.
  eapply Z.le_lt_trans; [eassumption|]. reflexivity.
Qed.

Lemma number_after_int_ends (neg : bool) k (i : Z) rest :
  ends_number rest = true ->
  (1 <= k)%nat ->
  - 2 ^ 63 <= (if neg then - i else i) < 2 ^ 63 ->
  json.number_after_int neg k (i : Z) rest
  = json.Parsed (Number (float64_of_int (if neg then - i else i))) rest None.
Proof.
  intros Hrest Hk Hv. unfold json.number_after_int.
  destruct k as [|k]; [lia|]. cbn [Nat.eqb].
  destruct rest as [|t rest]; [done|]. simpl in Hrest.
  assert (Ht : Ascii.eqb t "." = false /\ Ascii.eqb t "e" = false
               /\ Ascii.eqb t "E" = false).
  { destruct (Ascii.eqb_spec t ",") as [->|]; [done|].
    destruct (Ascii.eqb_spec t "}") as [->|]; done. }
  destruct Ht as (-> & -> & ->). cbn [orb].
  change (0 - Z.of_nat 0) with 0. change (0 <=? 0) with true. cbv iota zeta.
  rewrite Z.pow_0_r, Z.mul_1_r.
  by rewrite (overflows_int _ Hv).
Qed.

Lemma is_digit_not c :
  is_digit c = true ->
  Ascii.eqb c "-" = false /\ json.is_space c = false
  /\ Ascii.eqb c json.dquote = false.
Proof.
  unfold is_digit, json.is_space. intros [H1 H2]%andb_prop.
  apply N.leb_le in H1, H2.
  split; [|split].
  - apply Ascii.eqb_neq. intros ->. simpl in *. lia.
  - repeat match goal with
           | |- context [(?n =? ?k)%N] => destruct (N.eqb_spec n k); try lia
           end; try done.
  - apply Ascii.eqb_neq. intros ->. simpl in *. lia.
Qed.

Lemma value_number fuel c s :
  c = "-"%char \/ is_digit c = true ->
  json.value (S fuel) (String c s) = json.number (String c s).
Proof.
  intros [->|Hc]; [reflexivity|].
  destruct (is_digit_not c Hc) as (_ & Hspace & _).
  cbn [json.value json.skip_spaces]. rewrite Hspace.
  unfold is_digit in Hc. apply andb_prop in Hc as [H1 H2].
  pose proof H1 as H1'. pose proof H2 as H2'.
  apply N.leb_le in H1', H2'.
  repeat match goal with
         | |- context [(N_of_ascii c =? ?k)%N] =>
             destruct (N.eqb_spec (N_of_ascii c) k); [lia|]
         end.
  rewrite H1, H2. reflexivity.
Qed.

Lemma number_Itoa z rest :
  - 2 ^ 63 <= z < 2 ^ 63 ->
  ends_number rest = true ->
  exists c tail,
    strconv.Itoa z +:+ rest = String c tail
    /\ (c = "-"%char \/ is_digit c = true)
    /\ json.number (String c tail)
       = json.Parsed (Number (float64_of_int z)) rest None.
Proof.
  intros Hz Hrest.
  assert (Hpos : forall n, 0 < n -> - 2 ^ 63 <= n <= 2 ^ 63 ->
            exists c tail,
              strconv.utoa n +:+ rest = String c tail
              /\ is_digit c = true
              /\ forall neg : bool,
                   - 2 ^ 63 <= (if neg then - n else n) < 2 ^ 63 ->
                   (let '(n_int, i, s2) :=
                      if Ascii.eqb c "0" then (1%nat, 0, tail)
                      else json.digits 0 (String c tail) in
                    json.number_after_int neg n_int i s2)
                   = json.Parsed
                       (Number (float64_of_int (if neg then - n else n)))
                       rest None).
  { intros n Hn Hrange. unfold strconv.utoa.
    pose proof (utoa_fuel_enough n ltac:(lia)) as Hfuel.
    destruct (utoa_fuel_head _ n EmptyString (conj Hn Hfuel))
      as (c & tail & Hhead & Hdigit & Hzero).
    destruct (digits_utoa_fuel _ n EmptyString 0 rest
                (le_n_S _ _ (Nat.le_0_l _))
                (conj (Z.lt_le_incl _ _ Hn) Hfuel))
      as (k & Hk & Hdigits).
    exists c, (tail +:+ rest). rewrite Hhead. split; [done|]. split; [done|].
    intros neg Hneg. rewrite Hzero. rewrite <- append_String, <- Hhead.
    rewrite Hdigits. simpl (EmptyString +:+ rest).
    rewrite (digits_stop _ rest Hrest). cbn [bump].
    rewrite Z.mul_0_l, Z.add_0_l.
    apply number_after_int_ends; [done|lia|done]. }
  unfold strconv.Itoa. destruct (Z.ltb_spec z 0) as [Hneg|Hnonneg].
  - destruct (Hpos (- z) ltac:(lia) ltac:(lia)) as (c & tail & Hs & Hc & Hnum).
    exists "-"%char, (strconv.utoa (- z) +:+ rest).
    split; [done|]. split; [by left|].
    unfold json.number. simpl (Ascii.eqb "-" "-"). cbv iota.
    rewrite Hs. specialize (Hnum true). rewrite Z.opp_involutive in Hnum.
    by apply Hnum.
  - destruct (Z.eq_dec z 0) as [->|Hne].
    + exists "0"%char, rest. split; [done|]. split; [by right|].
      unfold json.number. simpl (Ascii.eqb "0" "-"). cbv iota.
      simpl (Ascii.eqb "0" "0"). cbv iota.
      by apply (number_after_int_ends false 1 0 rest).
    + destruct (Hpos z ltac:(lia) ltac:(lia)) as (c & tail & Hs & Hc & Hnum).
      exists c, tail. split; [done|]. split; [by right|].
      unfold json.number. destruct (is_digit_not c Hc) as (-> & _).
      by apply (Hnum false).
Qed.

(** What a value of the request reads back as. *)
Lemma value_sendable v fuel tail :
  sendable v ->
  ends_number tail = true ->
  json.value (S fuel) (json.Marshal v +:+ tail)
  = json.Parsed (as_decoded v) tail None.
Proof.
  intros Hv Htail. destruct v as [|b|q|z|s|l|m]; try done.
  - destruct b, tail; reflexivity.
  - destruct (number_Itoa z tail Hv Htail) as (c & rest & Hs & Hc & Hnum).
    cbn [json.Marshal]. rewrite Hs, (value_number fuel c rest Hc). exact Hnum.
  - cbn [json.Marshal]. simpl in Hv.
    destruct (unquote_quote s (String.length (json.quote s +:+ tail) - 1)
                tail Hv) as (rest & Hs & Hun).
    { rewrite append_length. unfold json.quote. simpl. lia. }
    rewrite Hs in *. simpl in Hun. rewrite Nat.sub_0_r in Hun.
    change (json.value (S fuel) (String json.dquote rest))
      with (json.add_text Text (json.unquote (String.length rest) rest)).
    by rewrite Hun.
Qed.

(** One member of an object, as [json.members] reads it. *)
Lemma members_step fuel acc k v tail :
  ValidString k = true ->
  sendable v ->
  ends_number tail = true ->
  json.members (S (S fuel)) acc None
    (json.quote k +:+ ":" +:+ json.Marshal v +:+ tail)
  = match json.skip_spaces tail with
    | String "," rest' =>
        json.members (S fuel) (<[k := as_decoded v]> acc) None rest'
    | String "}" rest' =>
        json.Parsed (Record (<[k := as_decoded v]> acc)) rest' None
    | EmptyString => json.Failed "unexpected EOF"
    | _ => json.Failed "invalid character after object key:value pair"
    end.
Proof.
  intros Hk Hv Htail.
  set (after := ":" +:+ json.Marshal v +:+ tail).
  destruct (unquote_quote k (String.length (json.quote k +:+ after) - 1)
              after Hk) as (rest & Hs & Hun).
  { rewrite append_length. unfold json.quote. simpl. lia. }
  rewrite Hs in *. simpl in Hun. rewrite Nat.sub_0_r in Hun.
  cbn [json.members json.skip_spaces].
  change (json.is_space json.dquote) with false. cbv iota.
  change (Ascii.eqb json.dquote json.dquote) with true. cbn [negb].
  rewrite Hun. subst after.
  change (":" +:+ json.Marshal v +:+ tail)
    with (String ":" (json.Marshal v +:+ tail)).
  cbn [json.skip_spaces]. change (json.is_space ":") with false. cbv iota.
  by rewrite (value_sendable v fuel tail Hv Htail).
Qed.

Lemma concat_length (f : string -> string) (ks : list string) :
  (length ks <= S (String.length (String.concat "," (map f ks))))%nat.
Proof.
  induction ks as [|k ks IH]; [simpl; lia|].
  destruct ks as [|k' ks]; [simpl; lia|].
  change (String.concat "," (map f (k :: k' :: ks)))
    with (f k +:+ "," +:+ String.concat "," (map f (k' :: ks))).
  rewrite !append_length. simpl in *. lia.
Qed.

(** The members of an object written by [json.Marshal], read back. *)
Lemma members_fields (m : admin_info) ks acc fuel rest :
  ks <> [] ->
  (forall k, k ∈ ks ->
             ValidString k = true
             /\ exists v, m !! k = Some v /\ sendable v) ->
  (length ks < fuel)%nat ->
  json.members fuel acc None
    (String.concat ","
       (map (fun k => json.quote k +:+ ":"
                      +:+ default EmptyString ((json.Marshal <$> m) !! k)) ks)
     +:+ String "}" rest)
  = json.Parsed
      (Record (foldl (fun a k => <[k := as_decoded (index m k)]> a) acc ks))
      rest None.
Proof.
  revert acc fuel.
  induction ks as [|k ks IH]; intros acc fuel Hne Hks Hfuel; [done|].
  destruct (Hks k) as (Hk & v & Hv & Hsend); [apply list_elem_of_here|].
  destruct fuel as [|[|fuel]]; [simpl in Hfuel; lia..|].
  assert (Hmember : default EmptyString ((json.Marshal <$> m) !! k)
                    = json.Marshal v) by by rewrite lookup_fmap, Hv.
  assert (Hindex : index m k = v) by by unfold index; rewrite Hv.
  destruct ks as [|k' ks].
  - change (String.concat "," (map _ [k]))
      with (json.quote k +:+ ":"
            +:+ default EmptyString ((json.Marshal <$> m) !! k)).
    rewrite Hmember, !append_assoc.
    rewrite (members_step fuel acc k v (String "}" rest) Hk Hsend eq_refl).
    cbn [foldl]. by rewrite Hindex.
  - set (f := fun k => json.quote k +:+ ":"
                       +:+ default EmptyString ((json.Marshal <$> m) !! k)).
    change (String.concat "," (map f (k :: k' :: ks)))
      with (f k +:+ "," +:+ String.concat "," (map f (k' :: ks))).
    unfold f at 1. rewrite Hmember, !append_assoc.
    change ("," +:+ String.concat "," (map f (k' :: ks)) +:+ String "}" rest)
      with (String "," (String.concat "," (map f (k' :: ks))
                        +:+ String "}" rest)).
    rewrite (members_step fuel acc k v (String "," _) Hk Hsend eq_refl).
    cbn [json.skip_spaces]. change (json.is_space ",") with false. cbv iota.
    subst f. rewrite IH; [by cbn [foldl]; rewrite Hindex|done| |simpl in *; lia].
    intros k0 Hk0. apply Hks. by apply list_elem_of_further.
Qed.

Lemma foldl_insert_lookup {A} (g : string -> A) ks (acc : gmap string A) i :
  foldl (fun a k => <[k := g k]> a) acc ks !! i
  = if decide (i ∈ ks) then Some (g i) else acc !! i.
Proof.
  revert acc. induction ks as [|k ks IH]; intros acc.
  { simpl. destruct (decide (i ∈ [])) as [Hin|]; [|done].
    by apply elem_of_nil in Hin. }
  cbn [foldl]. rewrite IH.
  destruct (decide (i ∈ ks)) as [Hin|Hout].
  - rewrite decide_True; [done|by apply list_elem_of_further].
  - destruct (decide (i = k)) as [->|Hne].
    + rewrite decide_True by apply list_elem_of_here.
      by rewrite lookup_insert_eq.
    + rewrite decide_False, lookup_insert_ne; [done..|].
      intros [Heq|Hin]%elem_of_cons; done.
Qed.

Lemma sorted_keys_elem_of (m : admin_info) i :
  i ∈ sort.Strings (map fst (map_to_list (json.Marshal <$> m)))
  <-> is_Some (m !! i).
Proof.
  rewrite Strings_Permutation.
  change (map fst ?l) with (fst <$> l).
  rewrite list_elem_of_fmap. split.
  - intros ([k s] & -> & Hin). apply elem_of_map_to_list in Hin.
    rewrite lookup_fmap in Hin. simpl.
    destruct (m !! k); [done|discriminate].
  - intros [v Hv]. exists (i, json.Marshal v). split; [done|].
    apply elem_of_map_to_list. by rewrite lookup_fmap, Hv.
Qed.

Lemma Decode_object doc m rest saved :
  json.value (S (S (String.length doc))) (String "{" doc)
  = json.Parsed (Record m) rest saved ->
  json.Decode (String "{" doc) = (m, saved).
Proof.
  intros Hvalue. unfold json.Decode.
  change (json.skip_spaces (String "{" doc)) with (String "{" doc).
  cbv iota. change (String.length (String "{" doc)) with (S (String.length doc)).
  by rewrite Hvalue.
Qed.

(** The example library reads back what it has written for a request. *)
Lemma example_json_Decode_Encode (m : admin_info) :
  carried_by_example_json m ->
  json.Decode (json.Encode m) = (as_decoded <$> m, None).
Proof.
  intros Hm. unfold json.Encode. cbn [json.Marshal].
  set (keys := sort.Strings (map fst (map_to_list (json.Marshal <$> m)))).
  set (f := fun k => json.quote k +:+ ":"
                     +:+ default EmptyString ((json.Marshal <$> m) !! k)).
  assert (Hkeys : forall k, k ∈ keys ->
            ValidString k = true /\ exists v, m !! k = Some v /\ sendable v).
  { intros k [v Hv]%sorted_keys_elem_of.
    destruct (Hm k v Hv) as [Hk Hs]. eauto. }
  assert (Hmap : foldl (fun a k => <[k := as_decoded (index m k)]> a) ∅ keys
                 = as_decoded <$> m).
  { apply map_eq. intros i.
    rewrite (foldl_insert_lookup (fun k => as_decoded (index m k))).
    rewrite lookup_fmap. unfold index.
    destruct (decide (i ∈ keys)) as [Hin|Hout].
    - apply sorted_keys_elem_of in Hin as [v Hv]. by rewrite Hv.
    - destruct (m !! i) as [v|] eqn:Hv; [|done].
      exfalso. apply Hout. apply sorted_keys_elem_of. by exists v. }
  rewrite !append_assoc.
  change ("}" +:+ nl) with (String "}" nl).
  change ("{" +:+ String.concat "," (map f keys) +:+ String "}" nl)
    with (String "{" (String.concat "," (map f keys) +:+ String "}" nl)).
  set (doc := String.concat "," (map f keys) +:+ String "}" nl).
  apply (Decode_object doc _ nl).
  change (json.value (S (S (String.length doc))) (String "{" doc))
    with (match json.skip_spaces doc with
          | String "}" rest => json.Parsed (Record ∅) rest None
          | _ => json.members (S (String.length doc)) ∅ None doc
          end).
  destruct keys as [|k ks] eqn:Hks.
  - subst doc. simpl. by rewrite <- Hmap.
  - destruct (Hkeys k) as (Hk & _); [apply list_elem_of_here|].
    assert (Hhead : exists tail, doc = String json.dquote tail).
    { subst doc.
      destruct ks as [|k' ks'].
      - change (String.concat "," (map f [k])) with (f k).
        unfold f, json.quote. rewrite !append_String. eauto.
      - change (String.concat "," (map f (k :: k' :: ks')))
          with (f k +:+ "," +:+ String.concat "," (map f (k' :: ks'))).
        unfold f at 1. unfold json.quote. rewrite !append_String. eauto. }
    destruct Hhead as (tail & Hdoc). rewrite Hdoc at 1.
    cbn [json.skip_spaces]. change (json.is_space json.dquote) with false.
    cbv iota.
    assert (Hread : json.members (S (String.length doc)) ∅ None doc
                    = json.Parsed (Record (as_decoded <$> m)) nl None).
    { subst doc f. rewrite <- Hmap.
      apply members_fields; [done|exact Hkeys|].
      rewrite append_length.
      pose proof (concat_length
                    (fun k => json.quote k +:+ ":"
                       +:+ default EmptyString ((json.Marshal <$> m) !! k))
                    (k :: ks)).
      simpl in *. lia. }
    unfold json.dquote. cbv iota. exact Hread.
Qed.

(** ** The properties at concrete inputs *)

Lemma decode_failure_exits_zero_witness :
  (exists w' n,
     run (rt := example_runtime) (js := example_json)
       (command false ["getPeers"]) (answers "[1]") start = (Done 0, w')
     /\ stdout w' = stdout start
     /\ last (logbuf w')
        = Some (log_header (GoRuntime := example_runtime) n
                +:+ "Error receiving response: "
                +:+ "json: cannot unmarshal array into Go value of type main.admin_info"
                +:+ nl))
  /\ (exists w' n,
        run (rt := example_runtime) (js := example_json)
          (command false ["getPeers"]) (answers "{'status':'succ") start
        = (Done 0, w')
        /\ stdout w' = stdout start
        /\ last (logbuf w')
           = Some (log_header (GoRuntime := example_runtime) n
                   +:+ "Error receiving response: " +:+ "unexpected EOF"
                   +:+ nl)).
Proof.
  split.
  - apply (decode_failure_exits_zero (rt := example_runtime)
             (js := example_json)); reflexivity.
  - apply (decode_failure_exits_zero (rt := example_runtime)
             (js := example_json)); reflexivity.
Defined.

(** C1 at the failing inputs: a reply that is no object, and a reply that
    ends early; nothing is printed and the exit code is 0. *)
Example decode_failure_is_silent :
  yggdrasilctl (command false ["getPeers"]) (answers "[1]") = Some ([], 0)
  /\ yggdrasilctl (command false ["getPeers"]) (answers "{'status':'succ")
     = Some ([], 0).
Proof. split; vm_compute; reflexivity. Qed.

Lemma error_status_witness :
  exists w',
    run (rt := example_runtime) (js := example_json)
      (command false ["getPeers"])
      (answers "{'status':'error','error':'disabled'}") start
    = (Done 1, w')
    /\ stdout w' = ["Admin socket returned an error: disabled" +:+ nl].
Proof.
  destruct (error_status (rt := example_runtime) (js := example_json)
              (command false ["getPeers"])
              (answers "{'status':'error','error':'disabled'}")
              {["status" := Text "error"; "error" := Text "disabled"]} start)
    as (w' & Hrun & Hout); [reflexivity..|].
  exists w'. split; [exact Hrun|exact Hout].
Defined.

Lemma malformed_response_witness :
  (exists w',
     run (rt := example_runtime) (js := example_json)
       (command false ["getPeers"])
       (answers "{'status':'success','response':{}}") start
     = (Done 1, w')
     /\ stdout w'
        = ["Missing request in response (malformed response?)" +:+ nl])
  /\ (exists w',
        run (rt := example_runtime) (js := example_json)
          (command false ["getPeers"])
          (answers "{'status':'success','request':{'request':'getpeers'}}")
          start
        = (Done 1, w')
        /\ stdout w' = ["Missing response body (malformed response?)" +:+ nl]).
Proof.
  split.
  - destruct (malformed_response (rt := example_runtime) (js := example_json)
                (command false ["getPeers"])
                (answers "{'status':'success','response':{}}")
                {["status" := Text "success"; "response" := Record ∅]} start)
      as (w' & line & Hrun & Hout & -> & _);
      [reflexivity|reflexivity|reflexivity|by left|].
    exists w'. split; [exact Hrun|exact Hout].
  - destruct (malformed_response (rt := example_runtime) (js := example_json)
                (command false ["getPeers"])
                (answers "{'status':'success','request':{'request':'getpeers'}}")
                {["status" := Text "success";
                  "request" := Record {["request" := Text "getpeers"]}]}
                start)
      as (w' & line & Hrun & Hout & -> & _);
      [reflexivity|reflexivity|reflexivity|by right|].
    exists w'. split; [exact Hrun|exact Hout].
Defined.

Lemma duration_cell_witness :
  format_cell (rt := example_runtime) "uptime" (Number 125) start
  = (Done "00:02:05", start)
  /\ format_cell (rt := example_runtime) "last_seen" (Number 3661) start
     = (Done "01:01:01", start).
Proof.
  split.
  - destruct (duration_cell (rt := example_runtime) "uptime" 125 125 0 start)
      as [Hcell _]; [by left|lia|lia|reflexivity|exact Hcell].
  - destruct (duration_cell (rt := example_runtime) "last_seen" 3661 3661 0
                start)
      as [Hcell _]; [by right|lia|lia|reflexivity|exact Hcell].
Defined.

(** Above [2 ^ 53] the quotient is no longer exact: for an uptime of
    [2 ^ 60 + 768] seconds the sixtieth is rounded down to a multiple of
    four, and the minutes printed are 08 where the whole sixtieth gives
    09. *)
Lemma duration_cell_rounds :
  (long_uptime == float64.Ldexp (2 ^ 52 + 3) 8)%Q
  /\ format_cell (rt := example_runtime) "uptime" (Number long_uptime) start
     = (Done "320255973501902:08:04", start)
  /\ Qfloor (long_uptime / 3600) = 320255973501902
  /\ Qfloor (long_uptime / 60) mod 60 = 9
  /\ Qfloor long_uptime mod 60 = 4.
Proof.
  split; [reflexivity|]. split; [vm_compute; reflexivity|].
  split; [vm_compute; reflexivity|]. split; vm_compute; reflexivity.
Qed.

Lemma request_parameter_replaces_name_witness :
  exists send w',
    send_request (rt := example_runtime) (js := example_json)
      (command false ["getPeers"; "request=foo"]) (answers "") start
    = (Done tt, w')
    /\ written w' = [json_Encode (EncodingJSON := example_json) send]
    /\ send !! "request" = Some (Text "foo").
Proof.
  destruct (request_parameter_replaces_name (rt := example_runtime)
              (js := example_json)
              (command false ["getPeers"; "request=foo"]) (answers "")
              "getPeers" [] "request=foo" [] start)
    as (send & w' & Hrun & Hwritten & Hsend); [reflexivity|reflexivity|done|reflexivity|].
  exists send, w'. split; [exact Hrun|]. split; [exact Hwritten|exact Hsend].
Defined.

(** C9 at a concrete command line: the document has [foo] where the
    command name would be. *)
Example request_parameter_on_the_wire :
  written
    (send_request (rt := example_runtime) (js := example_json)
       (command false ["getPeers"; "request=foo"]) (answers "") start).2
  = [dq "{'request':'foo'}" +:+ nl].
Proof. vm_compute. reflexivity. Qed.

(** A formatter that panics under a status that is not [success]: the
    log buffer is what is printed, and the exit code is 0. *)
Lemma other_status_not_exit_one :
  yggdrasilctl (command false ["getSelf"])
    (answers "{'status':'warning','request':{'request':'getself'},'response':{}}")
  = Some ([log_text
            ["Connected"; "Sending request: getSelf"; "Request sent";
             "Response received";
             "Fatal error: interface conversion: interface {} is nil, not map[string]interface {}"]],
          0).
Proof. vm_compute. reflexivity. Qed.

Lemma other_status_runs_formatter_witness :
  (exists w2,
     run (rt := example_runtime) (js := example_json)
       (command false ["getRoutes"])
       (answers "{'status':'warning','request':{'request':'getroutes'},'response':{'routes':{}}}")
       start
     = (Done 1, w2)
     /\ stdout w2 = ["No routes found" +:+ nl])
  /\ (exists w2,
        run (rt := example_runtime) (js := example_json)
          (command false ["getRoutes"])
          (answers "{'request':{'request':'getroutes'},'response':{'routes':{}}}")
          start
        = (Done 0, w2)
        /\ stdout w2 = ["No routes found" +:+ nl])
  /\ (exists w' n,
        run (rt := example_runtime) (js := example_json)
          (command false ["getSelf"])
          (answers "{'status':'warning','request':{'request':'getself'},'response':{}}")
          start
        = (Done 0, w')
        /\ stdout w' = [String.concat EmptyString (logbuf w')]
        /\ last (logbuf w')
           = Some (log_header (GoRuntime := example_runtime) n
                   +:+ "Fatal error: interface conversion: interface {} is nil, not map[string]interface {}"
                   +:+ nl)).
Proof.
  split; [|split].
  - destruct (other_status_runs_formatter (rt := example_runtime)
                (js := example_json) (command false ["getRoutes"])
                (answers "{'status':'warning','request':{'request':'getroutes'},'response':{'routes':{}}}")
                {["status" := Text "warning";
                  "request" := Record {["request" := Text "getroutes"]};
                  "response" := Record {["routes" := Record ∅]}]} start)
      as (_ & Hrun & _); [reflexivity|reflexivity|reflexivity|reflexivity|by eexists|by eexists|].
    match type of Hrun with
    | forall w2, ?formatter = _ -> _ => exists (formatter.2)
    end.
    split; [apply Hrun; vm_compute; reflexivity|vm_compute; reflexivity].
  - destruct (other_status_runs_formatter (rt := example_runtime)
                (js := example_json) (command false ["getRoutes"])
                (answers "{'request':{'request':'getroutes'},'response':{'routes':{}}}")
                {["request" := Record {["request" := Text "getroutes"]};
                  "response" := Record {["routes" := Record ∅]}]} start)
      as (_ & Hrun & _); [reflexivity|reflexivity|reflexivity|reflexivity|by eexists|by eexists|].
    match type of Hrun with
    | forall w2, ?formatter = _ -> _ => exists (formatter.2)
    end.
    split; [apply Hrun; vm_compute; reflexivity|vm_compute; reflexivity].
  - destruct (other_status_runs_formatter (rt := example_runtime)
                (js := example_json) (command false ["getSelf"])
                (answers "{'status':'warning','request':{'request':'getself'},'response':{}}")
                {["status" := Text "warning";
                  "request" := Record {["request" := Text "getself"]};
                  "response" := Record ∅]} start)
      as (_ & _ & _ & _ & Hpanic & _); [reflexivity|reflexivity|reflexivity|reflexivity|by eexists|by eexists|].
    match type of Hpanic with
    | forall res p w2, _ -> ?formatter = _ -> _ =>
        assert (Hformat :
                  formatter
                  = (Panicked (TypeAssertionError None TMap), formatter.2))
          by (vm_compute; reflexivity)
    end.
    destruct (Hpanic ∅ _ _ eq_refl Hformat) as (w' & n & Hrun & Hout & Hlog).
    exists w', n. split; [exact Hrun|]. split; [exact Hout|exact Hlog].
Defined.

(** C2 as stated fails: [handleGetSelf] asserts without a check that
    [res["self"]] and each entry of it are records, and so does [run] for
    the response; on a response of another shape the formatter stops in a
    panic, which [run] recovers and prints. *)
Lemma handleGetSelf_panics :
  (handleGetSelf (rt := example_runtime) ∅ false start).1
  = Panicked (TypeAssertionError None TMap)
  /\ (handleGetSelf (rt := example_runtime)
        {["self" := Record {["200:1::1" := Number 5]}]} false start).1
     = Panicked (TypeAssertionError (Some TFloat64) TMap)
  /\ yggdrasilctl (command false ["getSelf"])
       (answers "{'status':'success','request':{'request':'getself'},'response':{}}")
     = Some ([log_text
               ["Connected"; "Sending request: getSelf"; "Request sent";
                "Response received";
                "Fatal error: interface conversion: interface {} is nil, not map[string]interface {}"]],
             0)
  /\ yggdrasilctl (command false ["getSelf"])
       (answers "{'status':'success','request':{'request':'getself'},'response':5}")
     = Some ([log_text
               ["Connected"; "Sending request: getSelf"; "Request sent";
                "Response received";
                "Fatal error: interface conversion: interface {} is float64, not map[string]interface {}"]],
             0).
Proof. split; [|split; [|split]]; vm_compute; reflexivity. Qed.

Lemma handleGetSelf_omits_lines_witness :
  exists w' lines,
    handleGetSelf (rt := example_runtime) scenario_A false start = (Done tt, w')
    /\ stdout w' = lines
    /\ Forall (fun line => strings.HasPrefix line "IPv6 subnet:" = false) lines.
Proof.
  destruct (handleGetSelf_omits_lines (rt := example_runtime) scenario_A
              {["200:1::1" := Record scenario_A_node]} false start)
    as (w' & lines & Hrun & Hout & Homit).
  - exact example_runtime_visits_every_entry.
  - reflexivity.
  - intros k v [_ <-]%lookup_singleton_Some. by eexists.
  - exists w', lines. split; [exact Hrun|]. split; [exact Hout|].
    apply (Homit "subnet" "IPv6 subnet:").
    + unfold self_fields. do 2 apply list_elem_of_further. apply list_elem_of_here.
    + intros k fields [_ [= <-]]%lookup_singleton_Some. reflexivity.
Defined.

(** Scenario A of the specification. *)
Example scenario_A_lines :
  (handleGetSelf (rt := example_runtime) scenario_A false start).1 = Done tt
  /\ stdout (handleGetSelf (rt := example_runtime) scenario_A false start).2
     = ["Build name: ygg" +:+ nl; "IPv6 address: 200:1::1" +:+ nl;
        "Public key: ABCD" +:+ nl; "Coords: [1 2]" +:+ nl].
Proof. split; vm_compute; reflexivity. Qed.



(** A category without records prints nothing after a category whose one
    record has no field, and after one whose record has only a field that
    [-v] shows: there is no column then, although a record has been
    visited. *)
Example empty_category_without_columns :
  yggdrasilctl (command false ["getPeers"])
    (answers "{'status':'success','request':{'request':'getpeers'},'response':{'a':{'r':{}},'b':{}}}")
  = Some (["r  "; nl], 0)
  /\ yggdrasilctl (command false ["getPeers"])
       (answers "{'status':'success','request':{'request':'getpeers'},'response':{'a':{'r':{'box_pub_key':'k'}},'b':{}}}")
     = Some (["r  "; nl], 0).
Proof. split; vm_compute; reflexivity. Qed.

Lemma request_round_trip_witness :
  exists doc w',
    send_request (rt := example_runtime) (js := example_json)
      (command false ["getPeers"; "x=5"]) (answers "{}") start
    = (Done tt, w')
    /\ written w' = (written start ++ [doc])%list
    /\ json.Decode doc
       = (<["request" := Text "getPeers"]> (as_decoded <$> params ["x=5"]),
          None).
Proof.
  apply (request_round_trip (rt := example_runtime) (js := example_json)
           carried_by_example_json example_json_Decode_Encode
           (command false ["getPeers"; "x=5"]) (answers "{}")
           "getPeers" ["x=5"] start); try reflexivity.
  change (params ["x=5"]) with (<["x" := Int 5]> (∅ : admin_info)).
  apply map_Forall_insert_2; [split; reflexivity|].
  apply map_Forall_insert_2; [|apply map_Forall_empty].
  split; [reflexivity|]. simpl. lia.
Defined.

(** The first token [-v] is taken for a flag and dropped: the document
    that is written has the parameter and no [request]. *)
Lemma dash_name_is_dropped :
  exists w',
    send_request (rt := example_runtime) (js := example_json)
      (command false ["-v"; "x=5"]) (answers "{}") start
    = (Done tt, w')
    /\ written w' = [dq "{'x':5}" +:+ nl]
    /\ params ["x=5"] !! "request" = None
    /\ (json.Decode (dq "{'x':5}" +:+ nl)).1 !! "request" = None
    /\ json.Decode (dq "{'x':5}" +:+ nl)
       <> (<["request" := Text "-v"]> (as_decoded <$> params ["x=5"]), None).
Proof.
  eexists. split; [vm_compute; reflexivity|].
  split; [vm_compute; reflexivity|].
  split; [vm_compute; reflexivity|].
  assert (Hnone : (json.Decode (dq "{'x':5}" +:+ nl)).1 !! "request" = None)
    by (vm_compute; reflexivity).
  split; [exact Hnone|].
  intros Heq. rewrite Heq in Hnone. simpl in Hnone.
  by rewrite lookup_insert_eq in Hnone.
Qed.

Lemma raw_json_exits_zero_witness :
  exists w',
    run (rt := example_runtime) (js := example_json)
      {| args := ["getRoutes"]; injson := true; verbose := false |}
      (answers "{'status':'warning','request':{'request':'getroutes'},'response':{'routes':{}}}")
      start
    = (Done 0, w')
    /\ stdout w' = [dq "{" +:+ nl +:+ dq "  'routes': {}" +:+ nl +:+ "}" +:+ nl].
Proof.
  destruct (raw_json_exits_zero (rt := example_runtime) (js := example_json)
              {| args := ["getRoutes"]; injson := true; verbose := false |}
              (answers "{'status':'warning','request':{'request':'getroutes'},'response':{'routes':{}}}")
              {["status" := Text "warning";
                "request" := Record {["request" := Text "getroutes"]};
                "response" := Record {["routes" := Record ∅]}]}
              {["routes" := Record ∅]} start)
    as (w' & Hrun & Hout);
    [reflexivity|reflexivity|reflexivity|reflexivity|by eexists|reflexivity|].
  exists w'. split; [exact Hrun|exact Hout].
Defined.

(** A connection that cannot be written to: the encoder's error is the
    value of the panic. *)
Lemma panic_exits_zero_witness :
  exists w',
    run (rt := example_runtime) (js := example_json)
      (command false ["getPeers"])
      {| write_error := Some "write: broken pipe"; incoming := EmptyString |}
      start
    = (Done 0, w')
    /\ stdout w'
       = [log_text ["Connected"; "Sending request: getPeers";
                    "Fatal error: write: broken pipe"]].
Proof.
  destruct (panic_exits_zero (rt := example_runtime) (js := example_json)
              (command false ["getPeers"])
              {| write_error := Some "write: broken pipe";
                 incoming := EmptyString |}
              start (ErrorValue "write: broken pipe")
              (logger_Output (rt := example_runtime)
                 "Sending request: getPeers"
                 (logger_Output (rt := example_runtime) "Connected" start).2).2)
    as (w' & Hrun & Hout & Hlog); [reflexivity|].
  exists w'. split; [exact Hrun|]. rewrite Hout, Hlog. reflexivity.
Defined.

(** * Further properties *)

(** ** The exit code of [run] *)

Section exit_code.
Context {rt : GoRuntime} {js : EncodingJSON}.

(** However the decoding fails, nothing is printed, and the exit code is
    read off what the decoder has left in [recv]: 1 when there is a status
    other than [success], 0 otherwise.  The error itself is only logged. *)
Theorem decode_error_exit_status env conn recv err w :
  write_error conn = None ->
  json_Decode (incoming conn) = (recv, Some err) ->
  exists w',
    run env conn w
    = (Done match recv !! "status" with
            | Some v => if is_text v "success" then 0 else 1
            | None => 0
            end, w')
    /\ stdout w' = stdout w.
Proof.
  intros Hconn Hdec.
  destruct (run_body_receive env conn w Hconn) as (w1 & Hout & Hbody).
  unfold receive in Hbody. rewrite Hdec in Hbody.
  unfold bind in Hbody.
  rewrite logger_Output_line in Hbody by by repeat apply ends_with_newline_app.
  assert (Hcode : exit_status recv
                  = match recv !! "status" with
                    | Some v => if is_text v "success" then 0 else 1
                    | None => 0
                    end).
  { unfold exit_status. destruct (recv !! "status") as [v|]; [|done].
    by destruct (is_text v "success"). }
  rewrite <- Hcode.
  eexists. split; [apply run_completes; rewrite Hbody; reflexivity|by simpl].
Qed.

(** The code that [receive] returns is 0 or 1. *)
Lemma receive_code env conn w code w' :
  receive env conn w = (Done code, w') -> code = 0 \/ code = 1.
Proof.
  unfold receive. destruct (json_Decode (incoming conn)) as [recv err].
  intros ([code'|] & w1 & Hret & Hcode)%bind_Done.
  - injection Hcode as <- _. destruct err as [err|].
    + by apply bind_Done in Hret as (_ & _ & _ & [=]).
    + revert Hret. unfold decoded.
      intros (_ & w2 & _ & Hret)%bind_Done.
      destruct (is_text (index recv "status") "error").
      { apply bind_Done in Hret as (_ & _ & _ & [= <- _]). by right. }
      destruct (recv !! "request");
        [|apply bind_Done in Hret as (_ & _ & _ & [= <- _]); by right].
      destruct (recv !! "response");
        [|apply bind_Done in Hret as (_ & _ & _ & [= <- _]); by right].
      apply bind_Done in Hret as (res & w3 & _ & Hret).
      destruct (injson env).
      * apply bind_Done in Hret as (_ & _ & _ & [= <- _]). by left.
      * by apply bind_Done in Hret as (_ & _ & _ & [=]).
  - injection Hcode as <- _. unfold exit_status.
    destruct (recv !! "status") as [v|]; [|by left].
    destruct (negb (is_text v "success")); [by right|by left].
Qed.

(** No panic leaves [run], and the exit code is 0 or 1. *)
Theorem run_exit_code env conn w :
  match (run env conn w).1 with
  | Done code => code = 0 \/ code = 1
  | Panicked _ => False
  | OutsideModel _ => True
  end.
Proof.
  unfold run. destruct (run_body env conn w) as [[code|p|why] w'] eqn:Hbody.
  - simpl. revert Hbody. unfold run_body.
    intros (_ & w1 & _ & (_ & w2 & _ & (_ & w3 & _ & Hrec)%bind_Done
            )%bind_Done)%bind_Done.
    by apply receive_code in Hrec.
  - simpl. by left.
  - done.
Qed.

(** When the request cannot be written, the response is not read: [run]
    panics with the encoder's error, which the deferred function prints at
    the end of the log buffer, and the exit code is 0. *)
Theorem write_failure_exits_zero env conn err w :
  write_error conn = Some err ->
  exists w' n,
    run env conn w = (Done 0, w')
    /\ written w' = written w
    /\ stdout w' = (stdout w ++ [String.concat EmptyString (logbuf w')])%list
    /\ last (logbuf w')
       = Some (log_header n +:+ "Fatal error: " +:+ err +:+ nl).
Proof.
  intros Hconn.
  destruct (request_loop_only_logs (args env) 0 ∅) as [send Hsend].
  destruct (Hsend (logger_Output "Connected" w).2)
    as (w0 & Hw0 & Hout & _ & Hwritten).
  assert (Hbody : run_body env conn w
                  = (Panicked (ErrorValue err), w0)).
  { unfold run_body, send_request, build_request, bind.
    change (logger_Output "Connected" w)
      with (Done tt, (logger_Output "Connected" w).2).
    cbv iota. rewrite Hw0. unfold encoder_Encode. by rewrite Hconn. }
  unfold run. rewrite Hbody. unfold bind.
  rewrite logger_Output_line by by repeat apply ends_with_newline_app.
  eexists _, _. split; [reflexivity|]. simpl.
  split; [by rewrite Hwritten|]. split; [by rewrite Hout|].
  by rewrite last_snoc.
Qed.

End exit_code.

(** ** The dispatcher *)

Section dispatcher.
Context {rt : GoRuntime} {js : EncodingJSON}.

(** [handleAll] completes only on a response of the shape it asserts: the
    field [request] a record whose own field [request] is a string, and
    the field [response] a record. *)
Theorem handleAll_needs_shape recv verbose w w' :
  handleAll recv verbose w = (Done tt, w') ->
  exists req name res,
    recv !! "request" = Some (Record req)
    /\ req !! "request" = Some (Text name)
    /\ recv !! "response" = Some (Record res).
Proof.
  unfold handleAll.
  intros (req & w1 & Hreq & (res & w2 & Hres & (name & w3 & Hname & _
          )%bind_Done)%bind_Done)%bind_Done.
  unfold index in *.
  destruct (recv !! "request") as [[]|]; try discriminate Hreq.
  destruct (recv !! "response") as [[]|]; try discriminate Hres.
  injection Hreq as -> _. injection Hres as -> _.
  destruct (req !! "request") as [[]|] eqn:Hfield; try discriminate Hname.
  by eexists _, _, _.
Qed.

(** A request name that is none of the names of the [switch], in any mix
    of cases, gets the response printed as indented JSON. *)
Theorem handleAll_unknown_command recv req name res verbose w :
  recv !! "request" = Some (Record req) ->
  req !! "request" = Some (Text name) ->
  recv !! "response" = Some (Record res) ->
  strings.ToLower name ∉ known_commands ->
  handleAll recv verbose w
  = match json_MarshalIndent (Record res) with
    | Some json => (Done tt, printed w [json +:+ nl])
    | None => (Done tt, w)
    end.
Proof.
  intros Hreq Hname Hres Hnew. unfold handleAll, index.
  rewrite Hreq, Hres. simpl. unfold bind at 1 2. simpl. rewrite Hname. simpl.
  set (lower := strings.ToLower name) in *.
  assert (Heqb : forall c, c ∈ known_commands -> String.eqb lower c = false).
  { intros c Hc. apply String.eqb_neq. by intros <-. }
  unfold bind, ret. fold lower.
  rewrite !Heqb by (unfold known_commands; repeat
    (first [apply list_elem_of_here|apply list_elem_of_further])).
  cbn [orb]. destruct (json_MarshalIndent (Record res)); [|done].
  unfold fmt.Println. by rewrite print_text_printed.
Qed.

End dispatcher.

Section dispatch_table.
Context {rt : GoRuntime} {js : EncodingJSON}.

(** On a response of the shape it asserts, [handleAll] is the formatter
    that the registry has for the request name in lower case; the two
    names of the tunnel routing, one of which falls through to the other,
    get the same formatter. *)
Theorem handleAll_dispatch recv req name res verbose h :
  recv !! "request" = Some (Record req) ->
  req !! "request" = Some (Text name) ->
  recv !! "response" = Some (Record res) ->
  (strings.ToLower name, h) ∈ registry ->
  handleAll recv verbose = h res verbose.
Proof.
  intros Hreq Hname Hres Hin. unfold handleAll, index.
  rewrite Hreq, Hres. simpl. unfold bind at 1 2. simpl. rewrite Hname. simpl.
  unfold bind, ret.
  set (lower := strings.ToLower name) in *.
  unfold registry in Hin.
  repeat match type of Hin with
         | _ ∈ _ :: _ =>
             apply elem_of_cons in Hin as [[= -> ->]|Hin]; [reflexivity|]
         end.
  by apply elem_of_nil in Hin.
Qed.

End dispatch_table.

(** ** The formatters of listings and changes *)

Section listings.
Context {rt : GoRuntime}.

Lemma for_each_Println label (l : list Value) :
  prints (for_each l (fun v => fmt.Println [label; fmt.Sprint v]))
         (map (fun v => labelled label (fmt.Sprint v)) l).
Proof.
  induction l as [|v l IH]; [apply prints_ret|].
  apply (prints_bind _ _ [_]); [apply prints_Println|exact IH].
Qed.

Lemma prints_line s : prints (fmt.Println [s]) [s +:+ nl].
Proof. by intros w. Qed.

Lemma print_listing_cases res key none some :
  (res !! key = None \/ res !! key = Some Null ->
   prints (print_listing res key none some) [none +:+ nl])
  /\ (forall l,
        res !! key = Some (Sequence l) ->
        prints (print_listing res key none some)
               ((some +:+ nl)
                :: map (fun v => labelled "-" (fmt.Sprint v)) l))
  /\ (forall v,
        res !! key = Some v ->
        dynamic_type v <> None -> dynamic_type v <> Some TSlice ->
        forall w,
          print_listing res key none some w
          = (Panicked (TypeAssertionError (dynamic_type v) TSlice),
             printed w [some +:+ nl])).
Proof.
  unfold print_listing, index. split; [|split].
  - intros [-> | ->]; apply prints_line.
  - intros l ->. apply (prints_bind _ _ [_]); [apply prints_line|].
    intros w. simpl. unfold bind at 1. simpl. apply for_each_Println.
  - intros v -> Hnil Hslice w. by destruct v.
Qed.

(** The three formatters of a listing: the line for no listing when the
    field is absent or [null]; for a list, the line before the listing and
    a line per element in the order of the list, the line before the
    listing alone when the list is empty; for any other value, the line
    before the listing and then a panic. *)
Theorem listing_formatters h key none some res :
  (h, key, none, some) ∈ listings ->
  (res !! key = None \/ res !! key = Some Null ->
   prints (h res) [none +:+ nl])
  /\ (forall l,
        res !! key = Some (Sequence l) ->
        prints (h res)
               ((some +:+ nl)
                :: map (fun v => labelled "-" (fmt.Sprint v)) l))
  /\ (forall v,
        res !! key = Some v ->
        dynamic_type v <> None -> dynamic_type v <> Some TSlice ->
        forall w,
          h res w
          = (Panicked (TypeAssertionError (dynamic_type v) TSlice),
             printed w [some +:+ nl])).
Proof.
  unfold listings. intros Hin.
  repeat match type of Hin with
         | _ ∈ _ :: _ =>
             apply elem_of_cons in Hin as [[= -> -> -> ->]|Hin];
               [apply print_listing_cases|]
         end.
  by apply elem_of_nil in Hin.
Qed.

Lemma print_each_lines res key label :
  res !! key = None \/ (exists l, res !! key = Some (Sequence l)) ->
  prints (print_each res key label) (change_lines res key label).
Proof.
  unfold print_each, change_lines, index. intros [-> | [l ->]].
  - apply prints_ret.
  - intros w. simpl. unfold bind at 1. simpl. apply for_each_Println.
Qed.

(** [handleAddsAndRemoves] prints a line per element of the lists under
    [added], [not_added], [removed] and [not_removed], in this order of
    the fields; a field that is absent adds nothing.  A field that is
    there and holds no list, [null] included, makes it panic: for [added],
    before anything is printed. *)
Theorem handleAddsAndRemoves_lines res :
  ((forall key,
      key ∈ ["added"; "not_added"; "removed"; "not_removed"] ->
      res !! key = None \/ exists l, res !! key = Some (Sequence l)) ->
   prints (handleAddsAndRemoves res)
          (change_lines res "added" "Added:"
           ++ change_lines res "not_added" "Not added:"
           ++ change_lines res "removed" "Removed:"
           ++ change_lines res "not_removed" "Not removed:"))
  /\ (forall v w,
        res !! "added" = Some v ->
        dynamic_type v <> Some TSlice ->
        handleAddsAndRemoves res w
        = (Panicked (TypeAssertionError (dynamic_type v) TSlice), w)).
Proof.
  split.
  - intros Hlists. unfold handleAddsAndRemoves.
    repeat apply prints_bind; apply print_each_lines, Hlists;
      repeat (first [apply list_elem_of_here|apply list_elem_of_further]).
  - intros v w Hv Hslice. unfold handleAddsAndRemoves, print_each, index, bind.
    rewrite Hv. by destruct v.
Qed.

End listings.

(** ** The formatters of routes, interfaces and queues *)

Section routes.
Context {rt : GoRuntime}.

(** [handleGetRoutes] never panics.  It prints [No routes found] when the
    field [routes] is absent, is no record, or is an empty record; else the
    line [Routes:] and a line for every route whose value is a string, the
    routes in the order of the [range]; a route whose value is no string
    is passed over. *)
Theorem handleGetRoutes_lines res w :
  visits_every_entry rt ->
  let routes := default ∅ (as_map (index res "routes")) in
  exists w' kvs,
    handleGetRoutes res w = (Done tt, w')
    /\ kvs ≡ₚ map_to_list routes
    /\ stdout w'
       = (stdout w ++
          if decide (routes = ∅) then ["No routes found" +:+ nl]
          else ("Routes:" +:+ nl) :: concat (map route_lines kvs))%list.
Proof.
  intros Hrt routes. unfold handleGetRoutes. subst routes.
  destruct (as_map (index res "routes")) as [routes|]; cbn [from_option id].
  - destruct (Nat.eqb_spec (size routes) 0) as [Hsize|Hsize].
    + apply map_size_empty_iff in Hsize as ->.
      exists (printed w ["No routes found" +:+ nl]), [].
      split; [done|]. split; [by rewrite map_to_list_empty|].
      by rewrite decide_True.
    + assert (routes <> ∅) by by rewrite <- map_size_empty_iff.
      set (kvs := range_order (ranges w) routes).
      assert (Hlines : prints
                (for_each kvs (fun '(k, v) =>
                   match as_string v with
                   | Some pv => fmt.Println ["-"; k; " via "; pv]
                   | None => ret tt
                   end))
                (concat (map route_lines kvs))).
      { apply for_each_prints, Forall_forall. intros [k v] _.
        unfold route_lines. simpl.
        destruct (as_string v); [by intros w0|apply prints_ret]. }
      eexists _, kvs. split; [|split; [apply Hrt|]].
      * unfold bind. simpl. fold kvs. rewrite Hlines. reflexivity.
      * rewrite decide_False by done. simpl. by rewrite <- (assoc_L (++)).
  - exists (printed w ["No routes found" +:+ nl]), [].
    split; [done|]. split; [by rewrite map_to_list_empty|].
    by rewrite decide_True.
Qed.

(** [handleDot], [handleGetRoutes] and [handleGetTunnelRouting] assert
    nothing: whatever the response holds, they complete.  [handleDot]
    prints what [%v] makes of the field [dot], [<nil>] when it is absent;
    the tunnel routing reads as enabled only for the boolean [true]. *)
Theorem formatters_that_never_panic res w :
  handleDot res w = (Done tt, printed w [fmt.Sprint (index res "dot") +:+ nl])
  /\ (exists w', handleGetRoutes res w = (Done tt, w'))
  /\ handleGetTunnelRouting res w
     = (Done tt,
        printed w [(if default false (as_bool (index res "enabled"))
                    then "Tunnel routing is enabled"
                    else "Tunnel routing is disabled") +:+ nl]).
Proof.
  split; [done|]. split.
  - unfold handleGetRoutes.
    destruct (as_map (index res "routes")) as [routes|]; [|by eexists].
    destruct (size routes =? 0)%nat; [by eexists|].
    assert (Hlines : forall kvs : list (string * Value),
              prints
                (for_each kvs (fun '(k, v) =>
                   match as_string v with
                   | Some pv => fmt.Println ["-"; k; " via "; pv]
                   | None => ret tt
                   end))
                (concat (map route_lines kvs))).
    { intros kvs. apply for_each_prints, Forall_forall. intros [k v] _.
      unfold route_lines. simpl.
      destruct (as_string v); [by intros w0|apply prints_ret]. }
    unfold bind. simpl. rewrite Hlines. by eexists.
  - unfold handleGetTunnelRouting.
    by destruct (as_bool (index res "enabled")) as [[]|].
Qed.

Lemma tuntap_entry k fields :
  prints (fmt.Println ["Interface name:"; k] ;;
          mtu <- field (Record fields) "mtu" ;;
          match as_float64 mtu with
          | Some mtu => fmt.Println ["Interface MTU:"; fmt_float64 mtu]
          | None => ret tt
          end ;;
          tap_mode <- field (Record fields) "tap_mode" ;;
          match as_bool tap_mode with
          | Some tap_mode =>
              fmt.Println ["TAP mode:"; fmt.Sprint (Bool tap_mode)]
          | None => ret tt
          end)
         (tuntap_lines k fields).
Proof.
  unfold tuntap_lines.
  apply (prints_bind _ _ [_]); [apply prints_Println|].
  intros w. unfold field. simpl. unfold bind at 1 2. simpl.
  revert w. apply prints_bind.
  - destruct (as_float64 (index fields "mtu"));
      [apply prints_Println|apply prints_ret].
  - intros w. unfold bind at 1 2. simpl. revert w.
    destruct (as_bool (index fields "tap_mode"));
      [apply prints_Println|apply prints_ret].
Qed.

(** [handleGetAndSetTunTap] on a response all of whose entries are
    records: every interface gets its lines once, the name first, then the
    MTU if it is a [float64] and the TAP mode if it is a boolean.  An
    interface whose value is no record makes it panic, after the line of
    the name. *)
Theorem handleGetAndSetTunTap_lines (res : admin_info) w :
  visits_every_entry rt ->
  ((forall k v, res !! k = Some v -> exists fields, v = Record fields) ->
   exists w' kvs,
     handleGetAndSetTunTap res w = (Done tt, w')
     /\ kvs ≡ₚ map_to_list res
     /\ stdout w'
        = (stdout w ++
           concat (map (fun kv => tuntap_lines kv.1
                                    (default ∅ (as_map kv.2))) kvs))%list)
  /\ (forall k v,
        res = {[k := v]} ->
        dynamic_type v <> Some TMap ->
        handleGetAndSetTunTap res w
        = (Panicked (TypeAssertionError (dynamic_type v) TMap),
           mkWorld (stdout w ++ [labelled "Interface name:" k]) (logbuf w)
                   (S (ranges w)) (written w))).
Proof.
  intros Hrt. split.
  - intros Hrecords. unfold handleGetAndSetTunTap.
    set (kvs := range_order (ranges w) res).
    assert (Hkvs : Forall (fun kv => res !! kv.1 = Some kv.2) kvs).
    { apply Forall_forall. intros [k v] Hin.
      apply elem_of_map_to_list. by rewrite <- (Hrt (ranges w) res). }
    eexists _, kvs. split; [|split; [apply Hrt|]].
    + unfold bind at 1. simpl. fold kvs.
      rewrite (for_each_prints kvs _
                 (fun kv => tuntap_lines kv.1 (default ∅ (as_map kv.2)))).
      * reflexivity.
      * eapply Forall_impl; [exact Hkvs|]. intros [k v] Hkv. simpl in *.
        destruct (Hrecords k v Hkv) as [fields ->]. apply tuntap_entry.
    + done.
  - intros k v -> Hv. unfold handleGetAndSetTunTap, bind at 1. simpl.
    pose proof (Hrt (ranges w) {[k := v]}) as Hperm.
    rewrite map_to_list_singleton in Hperm.
    apply Permutation_singleton_r in Hperm. rewrite Hperm. simpl.
    unfold bind, field. simpl. by destruct v.
Qed.

Lemma print_counter (v : admin_info) (c : string * string * string) :
  (forall q, index v c.1.1 = Number q -> (0 <= q)%Q /\ Qfloor q < 2 ^ 64) ->
  prints match as_float64 (index v c.1.1) with
         | Some f => print_uint c.1.2 f (c.2 +:+ nl)
         | None => ret tt
         end
         (counter_lines v c).
Proof.
  intros Hrange. unfold counter_lines.
  destruct (index v c.1.1) as [| |q| | | |] eqn:Hv; simpl;
    try apply prints_ret.
  destruct (Hrange q eq_refl) as [H0 Hb].
  intros w. unfold print_uint, bind. by rewrite (uint_floor q w H0 Hb).
Qed.

(** [handleGetSwitchQueues] on a response without queues (the field
    [queues] absent, no list, or an empty list): a line for each of the
    five counters that is a [float64], in a fixed order, the number
    without its fraction; a counter that is absent or of another type is
    passed over.  Without the field [switchqueues], or with one that is no
    record, it panics before it prints anything. *)
Theorem handleGetSwitchQueues_counters res w :
  (forall v : admin_info,
     res !! "switchqueues" = Some (Record v) ->
     (forall item items, index v "queues" <> Sequence (item :: items)) ->
     (forall c q,
        c ∈ queue_counters -> index v c.1.1 = Number q ->
        (0 <= q)%Q /\ Qfloor q < 2 ^ 64) ->
     handleGetSwitchQueues res w
     = (Done tt, printed w (concat (map (counter_lines v) queue_counters))))
  /\ (dynamic_type (index res "switchqueues") <> Some TMap ->
      handleGetSwitchQueues res w
      = (Panicked
           (TypeAssertionError (dynamic_type (index res "switchqueues")) TMap),
         w)).
Proof.
  split.
  - intros v Hv Hqueues Hrange. revert w.
    change (prints (handleGetSwitchQueues res)
                   (concat (map (counter_lines v) queue_counters))).
    unfold handleGetSwitchQueues, index at 1.
    rewrite Hv. intros w. simpl. unfold bind at 1. simpl. revert w.
    assert (Hc : forall c, c ∈ queue_counters ->
              prints match as_float64 (index v c.1.1) with
                     | Some f => print_uint c.1.2 f (c.2 +:+ nl)
                     | None => ret tt
                     end (counter_lines v c)).
    { intros c Hin. apply print_counter. intros q. by apply Hrange. }
    unfold queue_counters in *. cbn [map concat].
    repeat (apply prints_bind;
            [apply (Hc (_, _, _));
             repeat (first [apply list_elem_of_here
                           |apply list_elem_of_further])
            |]).
    destruct (index v "queues") as [| | | | |[|item items]|] eqn:Hq;
      simpl; try apply prints_ret.
    by destruct (Hqueues item items).
  - intros Hv. unfold handleGetSwitchQueues, bind.
    by destruct (index res "switchqueues").
Qed.

End routes.

(** ** The columns and the widths of the table *)

Lemma insert_sorted_ascending x l :
  ascending l -> ascending (sort.insert_sorted x l).
Proof.
  unfold ascending. induction l as [|y l IH]; simpl; intros Hl.
  - by repeat constructor.
  - destruct (String.leb x y) eqn:Hxy.
    + constructor; [done|by constructor].
    + apply Sorted_inv in Hl as [Hl Hy].
      constructor; [by apply IH|].
      assert (Hyx : String.leb y x = true).
      { destruct (String.leb_total x y) as [H|H]; [congruence|done]. }
      destruct l as [|z l]; simpl; [by constructor|].
      destruct (String.leb x z); constructor; [done|].
      by apply HdRel_inv in Hy.
Qed.

Lemma Strings_ascending l : ascending (sort.Strings l).
Proof.
  induction l as [|x l IH]; simpl; [constructor|].
  by apply insert_sorted_ascending.
Qed.

Lemma filter_Permutation' {A} (f : A -> bool) (l1 l2 : list A) :
  l1 ≡ₚ l2 -> List.filter f l1 ≡ₚ List.filter f l2.
Proof.
  induction 1 as [|x l1 l2 _ IH|x y l|l1 l2 l3 _ IH1 _ IH2]; simpl.
  - done.
  - destruct (f x); [by constructor|done].
  - destruct (f x), (f y); try done. apply perm_swap.
  - by etransitivity.
Qed.

Section columns.
Context {rt : GoRuntime}.

(** The columns of the table are the fields of the first record that is
    visited: without the four that only [-v] shows, in ascending order.
    ([handleVariousInfo] starts with no columns and [keysOrdered]
    false.) *)
Theorem columns_of_first_record verbose slk (fields : admin_info)
    (st st' : table_state) (w w' : World) :
  visits_every_entry rt ->
  keysOrdered st = false ->
  keyOrder st = [] ->
  measure_record verbose slk (Record fields) st w = (Done st', w') ->
  keysOrdered st' = true
  /\ keyOrder st'
     ≡ₚ List.filter (shown verbose) (map fst (map_to_list fields))
  /\ ascending (keyOrder st').
Proof.
  intros Hrt Hno Hnil. unfold measure_record.
  intros (st1 & w1 & Hkeys & (fields' & w2 & _ & (kvs & w3 & _ & [= <- _]
          )%bind_Done)%bind_Done)%bind_Done.
  destruct (foldl_measure_carried slk kvs st1) as [_ Hkept].
  revert Hkeys. unfold order_keys. rewrite Hno, Hnil. simpl.
  unfold bind, range_map. simpl. intros [= <- _]. simpl in Hkept.
  destruct (Hkept eq_refl) as [-> ->]. simpl.
  split; [done|]. split; [|apply Strings_ascending].
  rewrite Strings_Permutation. apply filter_Permutation'.
  apply Permutation_map, Hrt.
Qed.

Lemma measure_fits slk k v st :
  (String.length (fmt.Sprint v) <= width (measure slk k v st) k)%nat
  /\ (String.length slk <= width (measure slk k v st) "key")%nat.
Proof.
  unfold measure, width. simpl.
  set (w1 := if (default 0%nat (maxWidths st !! "key")
                 <? String.length slk)%nat
             then <["key" := String.length slk]> (maxWidths st)
             else maxWidths st).
  assert (Hkey : (String.length slk <= default 0 (w1 !! "key"))%nat).
  { subst w1. destruct (Nat.ltb_spec (default 0%nat (maxWidths st !! "key"))
                          (String.length slk)); [|done].
    by rewrite lookup_insert_eq. }
  destruct (Nat.ltb_spec (default 0%nat (w1 !! k))
              (String.length (fmt.Sprint v))) as [Hlt|Hge]; [|done].
  destruct (Nat.ltb_spec (String.length (fmt.Sprint v)) (String.length k));
    rewrite lookup_insert_eq; simpl; (split; [lia|]);
    (destruct (decide (k = "key")) as [->|Hne];
     [rewrite lookup_insert_eq; simpl in *; lia
     |by rewrite lookup_insert_ne]).
Qed.

Lemma foldl_measure_fits slk kvs st k v :
  (k, v) ∈ kvs ->
  let st' := foldl (fun st '(k, v) => measure slk k v st) st kvs in
  (String.length (fmt.Sprint v) <= width st' k)%nat
  /\ (String.length slk <= width st' "key")%nat.
Proof.
  revert st. induction kvs as [|[k0 v0] kvs IH]; intros st Hin; simpl.
  { by apply elem_of_nil in Hin. }
  apply elem_of_cons in Hin as [[= <- <-]|Hin]; [|by apply IH].
  destruct (measure_fits slk k v st) as [Hv Hkey].
  destruct (foldl_measure_carried slk kvs (measure slk k v st)) as [Hmono _].
  pose proof (Hmono k). pose proof (Hmono "key"). lia.
Qed.

Lemma measure_record_fits verbose slk fields st w st' w' k v :
  visits_every_entry rt ->
  measure_record verbose slk (Record fields) st w = (Done st', w') ->
  fields !! k = Some v ->
  (String.length (fmt.Sprint v) <= width st' k)%nat
  /\ (String.length slk <= width st' "key")%nat.
Proof.
  intros Hrt. unfold measure_record.
  intros (st1 & w1 & _ & (fields' & w2 & [= <- <-] & (kvs & w3 & Hkvs
          & [= <- _])%bind_Done)%bind_Done)%bind_Done Hv.
  apply foldl_measure_fits.
  unfold range_map in Hkvs. injection Hkvs as <- _.
  rewrite (Hrt _ fields). by apply elem_of_map_to_list.
Qed.

Lemma for_fold_fits verbose (kvs : list (string * Value)) st w st' w' :
  visits_every_entry rt ->
  for_fold kvs (fun '(slk, slv) => measure_record verbose slk slv) st w
  = (Done st', w') ->
  forall slk fields k v,
    (slk, Record fields) ∈ kvs -> fields !! k = Some v ->
    (String.length (fmt.Sprint v) <= width st' k)%nat
    /\ (String.length slk <= width st' "key")%nat.
Proof.
  intros Hrt. revert st w.
  induction kvs as [|[slk0 slv0] kvs IH]; intros st w Hfold slk fields k v Hin Hv.
  { by apply elem_of_nil in Hin. }
  simpl in Hfold. apply bind_Done in Hfold as (st1 & w1 & Hrec & Hrest).
  apply elem_of_cons in Hin as [[= <- <-]|Hin]; [|by eapply IH].
  destruct (measure_record_fits _ _ _ _ _ _ _ k v Hrt Hrec Hv) as [Hfit Hkey].
  assert (Hmono : carried_over st1 st').
  { revert Hrest. apply for_fold_carries.
    - apply carried_over_refl.
    - apply carried_over_trans.
    - intros [slk' slv'] s w0 s' w0'. apply measure_record_carried. }
  destruct Hmono as [Hmono _].
  pose proof (Hmono k). pose proof (Hmono "key"). lia.
Qed.

(** The widths with which a category is printed fit its values: every
    value as [fmt.Sprint] prints it is at most as long as the width of its
    column, and the key of every record that has a field is at most as long
    as the width of the first column. *)
Theorem widths_fit verbose (records : admin_info) st w st' w' :
  visits_every_entry rt ->
  handle_category verbose (Record records) st w = (Done st', w') ->
  forall slk fields k v,
    records !! slk = Some (Record fields) -> fields !! k = Some v ->
    (String.length (fmt.Sprint v) <= width st' k)%nat
    /\ (String.length slk <= width st' "key")%nat.
Proof.
  intros Hrt. unfold handle_category.
  intros (records' & w1 & [= <- <-] & (kvs & w2 & Hkvs & (st1 & w3 & Hfold
          & (u1 & w4 & _ & (records'' & w5 & _ & (kvs' & w6 & _
          & (u2 & w7 & _ & [= <- _])%bind_Done)%bind_Done)%bind_Done
          )%bind_Done)%bind_Done)%bind_Done)%bind_Done.
  intros slk fields k v Hrec Hv.
  eapply (for_fold_fits _ _ _ _ _ _ Hrt Hfold); [|exact Hv].
  unfold range_map in Hkvs. injection Hkvs as <- _.
  rewrite (Hrt _ records). by apply elem_of_map_to_list.
Qed.

Lemma for_each_Done {A} (l : list A) (body : A -> Go unit) w w' x :
  for_each l body w = (Done tt, w') ->
  x ∈ l ->
  exists w1 w2, body x w1 = (Done tt, w2).
Proof.
  revert w. induction l as [|y l IH]; intros w Hrun Hin.
  { by apply elem_of_nil in Hin. }
  simpl in Hrun. apply bind_Done in Hrun as ([] & w1 & Hy & Hrest).
  apply elem_of_cons in Hin as [->|Hin]; [eauto|by eapply IH].
Qed.

(** A row is printed to its end only if the record has a [float64] in
    each of the columns [bytes_sent], [bytes_recvd], [uptime] and
    [last_seen] that the table has: a record without one, or with a value
    of another type in one, stops the table in a panic. *)
Theorem row_needs_numbers st slk (fields : admin_info) w w' :
  print_row st slk (Record fields) w = (Done tt, w') ->
  forall k,
    k ∈ keyOrder st -> k ∈ numeric_columns ->
    exists q, fields !! k = Some (Number q).
Proof.
  unfold print_row.
  intros (u1 & w1 & _ & (u2 & w2 & Hcells & _)%bind_Done)%bind_Done k Hk Hnum.
  destruct u1, u2.
  destruct (for_each_Done _ _ _ _ k Hcells Hk) as (wa & wb & Hcell).
  apply bind_Done in Hcell as (pre & wc & Hpre & Hcell).
  injection Hpre as <- <-.
  apply bind_Done in Hcell as (formatted & wd & Hcell & _).
  assert (Hfloat : exists q, index fields k = Number q).
  { unfold numeric_columns in Hnum. unfold format_cell in Hcell.
    repeat (apply elem_of_cons in Hnum as [->|Hnum];
            [simpl in Hcell;
             apply bind_Done in Hcell as (q & we & Hq & _);
             destruct (index fields _); try discriminate Hq; eauto|]).
    by apply elem_of_nil in Hnum. }
  destruct Hfloat as [q Hq]. exists q. unfold index in Hq.
  by destruct (fields !! k) as [v|]; simpl in Hq; subst.
Qed.

End columns.

(** ** The fields of the request *)

Section request_map.
Context {rt : GoRuntime} {js : EncodingJSON}.

(** The request builder refuses no token.  The document that is written
    has a field for every key that a token after the first has before its
    first [=], and the field [request] besides, unless the first token
    begins with a dash; and it has no other field. *)
Theorem request_fields env conn name rest w :
  args env = name :: rest ->
  write_error conn = None ->
  exists send w',
    send_request env conn w = (Done tt, w')
    /\ written w' = (written w ++ [json_Encode send])%list
    /\ forall k,
         is_Some (send !! k)
         <-> (k = "request" /\ strings.HasPrefix name "-" = false)
             \/ exists a, a ∈ rest /\ (cut a).1 = k.
Proof.
  intros Hargs Hconn.
  destruct (send_request_writes env conn name rest w Hargs Hconn)
    as (w' & Hrun & _ & Hwritten).
  eexists _, w'. split; [done|]. split; [done|]. intros k.
  assert (Hkey : forall a, (param a).1 = (cut a).1).
  { intros a. unfold param. by destruct (cut a) as [k' [v|]]. }
  rewrite lookup_union_is_Some. split.
  - intros [Hparam|Hbase].
    + right. destruct (decide (Exists (fun a => (cut a).1 = k) rest))
        as [Hex|Hnone].
      * apply Exists_exists in Hex as (a & Hin & Ha). eauto.
      * rewrite <- Forall_Exists_neg in Hnone.
        rewrite params_lookup_other in Hparam; [by destruct Hparam|].
        eapply Forall_impl; [exact Hnone|]. intros a Ha. by rewrite Hkey.
    + left. destruct (strings.HasPrefix name "-").
      * rewrite lookup_empty in Hbase. by destruct Hbase.
      * destruct Hbase as [v Hv].
        by apply lookup_singleton_Some in Hv as [<- _].
  - intros [[-> Hdash]|(a & Hin & Ha)].
    + right. rewrite Hdash. by rewrite lookup_singleton_eq.
    + left. destruct (params rest !! k) eqn:Hparam; [done|].
      apply params_lookup_None in Hparam.
      rewrite Forall_forall in Hparam.
      destruct (Hparam a Hin). by rewrite Hkey.
Qed.

End request_map.

(** ** Integers as parameters *)

Lemma digits_val_utoa_fuel fuel n acc a :
  (1 <= fuel)%nat -> 0 <= n ->
  exists k,
    strconv.digits_val a (strconv.utoa_fuel fuel n acc)
    = strconv.digits_val (a * 10 ^ Z.of_nat k + n) acc
  \/ n >= 10 ^ Z.of_nat fuel.
Proof.
  revert n acc a. induction fuel as [|fuel IH]; intros n acc a Hfuel Hn; [lia|].
  cbn [strconv.utoa_fuel].
  pose proof (Z.mod_pos_bound n 10 ltac:(lia)) as Hmod.
  destruct (digit_char_val (n mod 10) ltac:(lia)) as (Hval & _ & _).
  destruct (Z.ltb_spec n 10) as [Hsmall|Hbig].
  - exists 1%nat. left. cbn [strconv.digits_val]. rewrite Hval.
    rewrite Z.mod_small by lia. f_equal; lia.
  - destruct fuel as [|fuel].
    { exists 0%nat. right. simpl. lia. }
    destruct (IH (n / 10) (String (strconv.digit_char (n mod 10)) acc) a
                ltac:(lia) ltac:(apply Z.div_pos; lia)) as [k [Heq|Hbig']].
    + exists (S k). left. rewrite Heq. cbn [strconv.digits_val].
      rewrite Hval. f_equal.
      rewrite Nat2Z.inj_succ, Z.pow_succ_r by lia.
      pose proof (Z.div_mod n 10 ltac:(lia)). lia.
    + exists 0%nat. right.
      rewrite Nat2Z.inj_succ, Z.pow_succ_r by lia.
      pose proof (Z.div_mod n 10 ltac:(lia)). lia.
Qed.

Lemma digits_val_utoa n :
  0 <= n -> strconv.digits_val 0 (strconv.utoa n) = Some n.
Proof.
  intros Hn. unfold strconv.utoa.
  pose proof (utoa_fuel_enough n Hn) as Hfuel.
  destruct (digits_val_utoa_fuel (S (Z.to_nat (Z.log2 n))) n EmptyString 0
              ltac:(lia) Hn) as [k [Heq|Hbig]]; [|lia].
  rewrite Heq. cbn [strconv.digits_val]. f_equal; lia.
Qed.

Lemma utoa_head n :
  0 <= n ->
  exists c tail, strconv.utoa n = String c tail /\ is_digit c = true.
Proof.
  intros Hn. destruct (Z.eq_dec n 0) as [->|Hne]; [by exists "0"%char, EmptyString|].
  unfold strconv.utoa.
  destruct (utoa_fuel_head (S (Z.to_nat (Z.log2 n))) n EmptyString)
    as (c & tail & Hs & Hc & _); [|eauto].
  pose proof (utoa_fuel_enough n Hn). lia.
Qed.

Lemma is_digit_no_sign c :
  is_digit c = true ->
  Ascii.eqb c "+" = false /\ Ascii.eqb c "=" = false
  /\ strings.lower_byte c = c
  /\ Ascii.eqb c "t" = false /\ Ascii.eqb c "f" = false
  /\ Ascii.eqb c "196" = false /\ Ascii.eqb c "226" = false.
Proof.
  unfold is_digit, strings.lower_byte. intros [H1 H2]%andb_prop.
  apply N.leb_le in H1, H2.
  destruct (N.leb_spec 65 (N_of_ascii c)); [lia|]. simpl.
  repeat split; try done; apply Ascii.eqb_neq; intros ->; simpl in *; lia.
Qed.

(** [strconv.Atoi] reads back what [strconv.Itoa] writes, within the range
    of [int] and not beyond it. *)
Lemma Atoi_Itoa z :
  strconv.Atoi (strconv.Itoa z)
  = if (- 2 ^ 63 <=? z) && (z <? 2 ^ 63) then Some z else None.
Proof.
  unfold strconv.Itoa. destruct (Z.ltb_spec z 0) as [Hneg|Hpos].
  - destruct (utoa_head (- z) ltac:(lia)) as (c & tail & Hs & Hc).
    unfold strconv.Atoi. change (Ascii.eqb "-" "-") with true. cbn [orb].
    pose proof (digits_val_utoa (- z) ltac:(lia)) as Hval.
    rewrite Hs in *. rewrite Hval. by rewrite Z.opp_involutive.
  - destruct (utoa_head z Hpos) as (c & tail & Hs & Hc).
    pose proof (digits_val_utoa z Hpos) as Hval.
    rewrite Hs in *. unfold strconv.Atoi.
    destruct (is_digit_not c Hc) as (-> & _).
    destruct (is_digit_no_sign c Hc) as (-> & _).
    cbn [orb]. by rewrite Hval.
Qed.

Lemma utoa_fuel_no_equals fuel n acc :
  0 <= n ->
  contains_byte "=" acc = false ->
  contains_byte "=" (strconv.utoa_fuel fuel n acc) = false.
Proof.
  revert n acc. induction fuel as [|fuel IH]; intros n acc Hn Hacc; [done|].
  cbn [strconv.utoa_fuel].
  pose proof (Z.mod_pos_bound n 10 ltac:(lia)) as Hmod.
  destruct (digit_char_val (n mod 10) ltac:(lia)) as (_ & Hdigit & _).
  destruct (is_digit_no_sign _ Hdigit) as (_ & Heq & _).
  assert (Hacc' : contains_byte "="
                    (String (strconv.digit_char (n mod 10)) acc) = false)
    by (simpl; by rewrite Heq, Hacc).
  destruct (n <? 10); [done|].
  apply IH; [apply Z.div_pos; lia|done].
Qed.

Lemma Itoa_no_equals z : contains_byte "=" (strconv.Itoa z) = false.
Proof.
  unfold strconv.Itoa, strconv.utoa.
  destruct (Z.ltb_spec z 0); [cbn [contains_byte orb]|];
    apply utoa_fuel_no_equals; (lia || done).
Qed.

Lemma Itoa_is_no_word z :
  coerce_word (strconv.Itoa z) = Text (strconv.Itoa z).
Proof.
  assert (Hdigit : forall c tail,
            is_digit c = true ->
            coerce_word (String c tail) = Text (String c tail)).
  { intros c tail Hc.
    destruct (is_digit_no_sign c Hc) as (_ & _ & Hlow & Ht & Hf & H196 & H226).
    unfold coerce_word.
    assert (Hhead : exists rest,
              strings.ToLower (String c tail) = String c rest).
    { cbn [strings.ToLower]. rewrite H196, H226, Hlow. cbn [andb].
      destruct tail as [|b [|b' tail]]; eauto. }
    destruct Hhead as [rest ->]. simpl. by rewrite Ht, Hf. }
  unfold strconv.Itoa. destruct (Z.ltb_spec z 0) as [Hneg|Hpos].
  - destruct (utoa_head (- z) ltac:(lia)) as (c & tail & -> & Hc).
    destruct (is_digit_no_sign c Hc) as (_ & _ & Hlow & _ & _ & H196 & H226).
    unfold coerce_word.
    assert (Hhead : exists rest,
              strings.ToLower (String "-" (String c tail))
              = String "-" rest).
    { cbn [strings.ToLower]. simpl (Ascii.eqb "-" _). cbn [andb].
      destruct tail as [|b tail]; eauto. }
    destruct Hhead as [rest ->]. done.
  - destruct (utoa_head z Hpos) as (c & tail & -> & Hc). by apply Hdigit.
Qed.

Section integers.
Context {rt : GoRuntime}.

(** A token [key=digits] with the decimal form of an integer, as
    [strconv.Itoa] writes it, stores the integer when it is in the range of
    [int], and the digits as a string when it is beyond. *)
Theorem integer_parameter (c : nat) (k : string) (z : Z) (send : admin_info)
    (w : World) :
  c <> 0%nat ->
  contains_byte "=" k = false ->
  (request_step c (k +:+ String "=" (strconv.Itoa z)) send w).1
  = Done (<[k := if (- 2 ^ 63 <=? z) && (z <? 2 ^ 63) then Int z
                 else Text (strconv.Itoa z)]> send).
Proof.
  intros Hc Hk. rewrite (request_step_cases _ _ _ _ Hc).
  rewrite (Split_at_first k _ "=" Hk), (Split_without _ "=" (Itoa_no_equals z)).
  rewrite Atoi_Itoa.
  destruct ((- 2 ^ 63 <=? z) && (z <? 2 ^ 63)); [done|].
  by rewrite Itoa_is_no_word.
Qed.

End integers.

(** ** [connect] *)

Section connecting.
Context {rt : GoRuntime} {net : Network}.

(** [connect] returns a connection only in two ways: the scheme of the
    endpoint is [unix], in any mix of cases, and the connection is the one
    dialled to the endpoint from its eighth byte on, whatever the URL's
    path is; or the scheme is [tcp] and the connection is the one dialled
    to the URL's host.  Nothing is printed. *)
Theorem connect_succeeds_only endpoint conn w w' :
  connect endpoint w = (Done conn, w') ->
  stdout w' = stdout w
  /\ exists u,
       url_Parse endpoint = Some u
       /\ ((strings.ToLower (Scheme u) = "unix"
            /\ (7 <= String.length endpoint)%nat
            /\ net_Dial "unix" (utf8.drop_bytes 7 endpoint) = inl conn)
           \/ (strings.ToLower (Scheme u) = "tcp"
               /\ net_Dial "tcp" (Host u) = inl conn)).
Proof.
  unfold connect. destruct (url_Parse endpoint) as [u|]; [|discriminate].
  destruct (String.eqb_spec (strings.ToLower (Scheme u)) "unix") as [Hunix|_].
  - unfold slice_from, dial.
    destruct (Nat.leb_spec 7 (String.length endpoint)) as [Hlen|];
      [|discriminate].
    unfold bind, ret. simpl.
    destruct (net_Dial "unix" _) as [c|err] eqn:Hdial; [|discriminate].
    intros [= <- <-]. split; [done|]. exists u. split; [done|]. by left.
  - destruct (String.eqb_spec (strings.ToLower (Scheme u)) "tcp") as [Htcp|_];
      [|discriminate].
    unfold dial, bind. simpl.
    destruct (net_Dial "tcp" (Host u)) as [c|err] eqn:Hdial; [|discriminate].
    intros [= <- <-]. split; [done|]. exists u. split; [done|]. by right.
Qed.

(** The endpoints that make [connect] panic without a dial: one that
    [url.Parse] rejects, where the nil URL is dereferenced before anything
    is logged; one with the scheme [unix] and fewer than seven bytes, where
    the slice is out of bounds; and one with another scheme than [unix] and
    [tcp], which is logged as unknown. *)
Theorem connect_panics endpoint w :
  (url_Parse endpoint = None ->
   connect endpoint w = (Panicked nil_dereference, w))
  /\ (forall u,
        url_Parse endpoint = Some u ->
        strings.ToLower (Scheme u) = "unix" ->
        (String.length endpoint < 7)%nat ->
        connect endpoint w
        = (Panicked
             (ErrorValue (slice_bounds_error 7 (String.length endpoint))),
           w))
  /\ (forall u,
        url_Parse endpoint = Some u ->
        strings.ToLower (Scheme u) <> "unix" ->
        strings.ToLower (Scheme u) <> "tcp" ->
        exists w',
          connect endpoint w
          = (Panicked (ErrorValue "protocol not supported"), w')
          /\ stdout w' = stdout w
          /\ logbuf w'
             = (logbuf w
                ++ [log_header (length (logbuf w))
                    +:+ "Unknown protocol or malformed address - check your endpoint"
                    +:+ nl])%list).
Proof.
  unfold connect. split; [by intros ->|]. split.
  - intros u -> -> Hlen. simpl. unfold slice_from, bind.
    by destruct (Nat.leb_spec 7 (String.length endpoint)); [lia|].
  - intros u -> Hunix Htcp.
    destruct (String.eqb_spec (strings.ToLower (Scheme u)) "unix"); [done|].
    destruct (String.eqb_spec (strings.ToLower (Scheme u)) "tcp"); [done|].
    unfold bind.
    rewrite logger_Output_line by by repeat apply ends_with_newline_app.
    by eexists.
Qed.

End connecting.

(** ** The lines of [handleGetSelf] *)

Section self_info_order.
Context {rt : GoRuntime}.

(** [handleGetSelf] on a response whose field [self] is a record of
    records: every entry gets its lines once, in the order of the source,
    the address always, a build name or version unless it is [unknown],
    and the three keys of [-v] last. *)
Theorem handleGetSelf_lines (res self : admin_info) (verbose : bool)
    (w : World) :
  visits_every_entry rt ->
  res !! "self" = Some (Record self) ->
  (forall k v, self !! k = Some v -> exists fields, v = Record fields) ->
  exists w' kvs,
    handleGetSelf res verbose w = (Done tt, w')
    /\ kvs ≡ₚ map_to_list self
    /\ stdout w'
       = (stdout w ++
          concat (map (fun kv => self_lines verbose kv.1
                                   (default ∅ (as_map kv.2))) kvs))%list.
Proof.
  intros Hrt Hself Hrecords.
  set (kvs := range_order (ranges w) self).
  assert (Hkvs : Forall (fun kv => self !! kv.1 = Some kv.2) kvs).
  { apply Forall_forall. intros [k v] Hin. simpl.
    apply elem_of_map_to_list. by rewrite <- (Hrt (ranges w) self). }
  eexists _, kvs. split; [|split; [apply Hrt|]].
  - unfold handleGetSelf, index. rewrite Hself. unfold bind. simpl. fold kvs.
    rewrite (for_each_prints kvs _
               (fun kv => self_lines verbose kv.1 (default ∅ (as_map kv.2)))).
    + reflexivity.
    + eapply Forall_impl; [exact Hkvs|]. intros [k v] Hkv. simpl in *.
      destruct (Hrecords k v Hkv) as [fields ->].
      apply handleGetSelf_entry_record.
  - done.
Qed.

End self_info_order.

(** ** The shape of the table *)

Section table_rows.
Context {rt : GoRuntime}.

Lemma format_cell_world k v w s w' :
  format_cell k v w = (Done s, w') -> w' = w.
Proof.
  assert (Huint : forall q w n w', uint q w = (Done n, w') -> w' = w).
  { intros q w0 n w0'. unfold uint.
    destruct ((0 <=? Qtrunc q) && (Qtrunc q <? 2 ^ 64)); [|discriminate].
    by intros [= _ <-]. }
  assert (Hfloat : forall v w q w', assert_float64 v w = (Done q, w') -> w' = w).
  { intros v0 w0 q w0'. destruct v0; try discriminate. by intros [= _ <-]. }
  unfold format_cell.
  destruct (String.eqb k "bytes_sent" || String.eqb k "bytes_recvd").
  { intros (q & w1 & Hq & (n & w2 & Hn & [= _ <-])%bind_Done)%bind_Done.
    apply Hfloat in Hq as ->. by apply Huint in Hn as ->. }
  destruct (String.eqb k "uptime" || String.eqb k "last_seen").
  { intros (q1 & w1 & Hq1 & (n1 & w2 & Hn1 & (q2 & w3 & Hq2 & (n2 & w4 & Hn2
            & (q3 & w5 & Hq3 & (n3 & w6 & Hn3 & [= _ <-])%bind_Done
            )%bind_Done)%bind_Done)%bind_Done)%bind_Done)%bind_Done.
    apply Hfloat in Hq1 as ->. apply Huint in Hn1 as ->.
    apply Hfloat in Hq2 as ->. apply Huint in Hn2 as ->.
    apply Hfloat in Hq3 as ->. by apply Huint in Hn3 as ->. }
  by intros [= _ <-].
Qed.

Lemma cells_shape st slv (l : list string) w w' :
  for_each l (fun k =>
    preformatted <- field slv k ;;
    formatted <- format_cell k preformatted ;;
    fmt.Printf_left (width st k) formatted) w = (Done tt, w') ->
  exists cells,
    w' = printed w cells /\ length cells = length l.
Proof.
  revert w. induction l as [|k l IH]; intros w; simpl.
  { intros [= <-]. exists []. by rewrite printed_nil. }
  intros ([] & w1 & Hcell & Hrest)%bind_Done.
  apply bind_Done in Hcell as (pre & w2 & Hpre & Hcell).
  apply bind_Done in Hcell as (formatted & w3 & Hformat & Hprint).
  assert (w2 = w) as ->.
  { revert Hpre. unfold field, bind. destruct slv; try discriminate.
    by intros [= _ <-]. }
  apply format_cell_world in Hformat as ->.
  unfold fmt.Printf_left in Hprint. rewrite print_text_printed in Hprint.
  injection Hprint as <-.
  destruct (IH _ Hrest) as (cells & -> & Hlen).
  eexists (_ :: cells). rewrite printed_printed. split; [done|].
  simpl. by rewrite Hlen.
Qed.

Lemma print_row_shape st slk slv w w' :
  print_row st slk slv w = (Done tt, w') ->
  exists row,
    w' = printed w row
    /\ length row = (length (keyOrder st) + 2)%nat
    /\ last row = Some nl.
Proof.
  unfold print_row.
  intros ([] & w1 & Hkey & ([] & w2 & Hcells & Hnl)%bind_Done)%bind_Done.
  unfold fmt.Printf_left in Hkey. rewrite print_text_printed in Hkey.
  injection Hkey as <-.
  apply cells_shape in Hcells as (cells & -> & Hlen).
  unfold fmt.Println in Hnl. rewrite print_text_printed in Hnl.
  injection Hnl as <-. rewrite !printed_printed.
  eexists. split; [reflexivity|]. split.
  - rewrite !length_app. simpl. lia.
  - by rewrite (assoc_L (++)), last_snoc.
Qed.

Lemma rows_shape st (kvs : list (string * Value)) w w' :
  for_each kvs (fun '(slk, slv) => print_row st slk slv) w = (Done tt, w') ->
  exists rows,
    w' = printed w (concat rows)
    /\ length rows = length kvs
    /\ Forall (fun row => length row = (length (keyOrder st) + 2)%nat
                          /\ last row = Some nl) rows.
Proof.
  revert w. induction kvs as [|[slk slv] kvs IH]; intros w; simpl.
  { intros [= <-]. exists []. by rewrite printed_nil. }
  intros ([] & w1 & Hrow & Hrest)%bind_Done.
  apply print_row_shape in Hrow as (row & -> & Hrow).
  destruct (IH _ Hrest) as (rows & -> & Hlen & Hrows).
  exists (row :: rows). rewrite printed_printed. split; [done|].
  split; [simpl; by rewrite Hlen|by constructor].
Qed.

Lemma measure_record_stdout verbose slk slv st w st' w' :
  measure_record verbose slk slv st w = (Done st', w') ->
  stdout w' = stdout w /\ logbuf w' = logbuf w /\ written w' = written w.
Proof.
  assert (Hmap : forall v w m w',
            assert_map v w = (Done m, w') -> w' = w).
  { intros v w0 m w0'. destruct v; try discriminate. by intros [= _ <-]. }
  unfold measure_record.
  intros (st1 & w1 & Hkeys & (fields & w2 & Hfields & (kvs & w3 & Hkvs
          & [= _ <-])%bind_Done)%bind_Done)%bind_Done.
  apply Hmap in Hfields as ->. injection Hkvs as _ <-. simpl.
  revert Hkeys. unfold order_keys. destruct (negb (keysOrdered st)).
  - intros (fields' & w4 & Hfields' & (kvs' & w5 & Hkvs' & [= _ <-]
            )%bind_Done)%bind_Done.
    apply Hmap in Hfields' as ->. by injection Hkvs' as _ <-.
  - by intros [= _ <-].
Qed.

Lemma measure_records_stdout verbose (kvs : list (string * Value)) st w st' w' :
  for_fold kvs (fun '(slk, slv) => measure_record verbose slk slv) st w
  = (Done st', w') ->
  stdout w' = stdout w /\ logbuf w' = logbuf w /\ written w' = written w.
Proof.
  revert st w. induction kvs as [|[slk slv] kvs IH]; intros st w; simpl.
  { by intros [= _ <-]. }
  intros (st1 & w1 & Hrec & Hrest)%bind_Done.
  apply measure_record_stdout in Hrec as (<- & <- & <-). by eapply IH.
Qed.

(** A category that is printed to its end is a header line, when there
    are columns, and a row for every record: each row has a cell for the
    key and a cell for every column, and ends with a newline. *)
Theorem table_shape verbose (records : admin_info) st w st' w' :
  visits_every_entry rt ->
  handle_category verbose (Record records) st w = (Done st', w') ->
  exists rows,
    stdout w' = (stdout w ++ header_texts st' ++ concat rows)%list
    /\ length rows = size records
    /\ Forall (fun row => length row = (length (keyOrder st') + 2)%nat
                          /\ last row = Some nl) rows.
Proof.
  intros Hrt. unfold handle_category.
  intros (records' & w1 & [= <- <-] & (kvs & w2 & Hkvs & (st1 & w3 & Hfold
          & ([] & w4 & Hheader & (records'' & w5 & [= <- <-] & (kvs' & w6
          & Hkvs' & ([] & w7 & Hrows & [= <- <-])%bind_Done)%bind_Done
          )%bind_Done)%bind_Done)%bind_Done)%bind_Done)%bind_Done.
  injection Hkvs as <- <-. injection Hkvs' as <- <-.
  apply measure_records_stdout in Hfold as (Hout & _).
  rewrite print_header_texts in Hheader. injection Hheader as <-.
  apply rows_shape in Hrows as (rows & -> & Hlen & Hrows).
  exists rows. simpl in *. rewrite Hout.
  split; [by rewrite <- (assoc_L (++))|]. split; [|done].
  rewrite Hlen, (Hrt _ records). by rewrite length_map_to_list.
Qed.

Lemma for_fold_Done {A S} (l : list A) (body : A -> S -> Go S) s w s' w' x :
  for_fold l body s w = (Done s', w') ->
  x ∈ l ->
  exists s1 w1 s2 w2, body x s1 w1 = (Done s2, w2).
Proof.
  revert s w. induction l as [|y l IH]; intros s w Hrun Hin.
  { by apply elem_of_nil in Hin. }
  simpl in Hrun. apply bind_Done in Hrun as (s1 & w1 & Hy & Hrest).
  apply elem_of_cons in Hin as [->|Hin]; [by eauto 6|by eapply IH].
Qed.

(** [handleVariousInfo] completes only on a response every field of which
    is a record of records: a category or a record of another type stops
    it in a panic. *)
Theorem handleVariousInfo_needs_records (res : admin_info) verbose w w' :
  visits_every_entry rt ->
  handleVariousInfo res verbose w = (Done tt, w') ->
  forall c tlv,
    res !! c = Some tlv ->
    exists records : admin_info,
      tlv = Record records
      /\ forall slk slv,
           records !! slk = Some slv -> exists fields, slv = Record fields.
Proof.
  intros Hrt. unfold handleVariousInfo.
  intros (kvs & w1 & Hkvs & (st & w2 & Hfold & _)%bind_Done)%bind_Done
         c tlv Hc.
  injection Hkvs as <- <-.
  assert (Hin : (c, tlv) ∈ range_order (ranges w) res)
    by (rewrite (Hrt _ res); by apply elem_of_map_to_list).
  destruct (for_fold_Done _ _ _ _ _ _ _ Hfold Hin)
    as (s1 & wa & s2 & wb & Hcat).
  unfold handle_category in Hcat.
  apply bind_Done in Hcat as (records & wc & Hrec & Hcat).
  destruct tlv; try discriminate Hrec. injection Hrec as -> <-.
  exists records. split; [done|]. intros slk slv Hslk.
  apply bind_Done in Hcat as (kvs' & wd & Hkvs' & Hcat).
  injection Hkvs' as <- <-.
  apply bind_Done in Hcat as (s3 & we & Hmeasure & _).
  assert (Hin' : (slk, slv) ∈ range_order (ranges wa) records)
    by (rewrite (Hrt _ records); by apply elem_of_map_to_list).
  destruct (for_fold_Done _ _ _ _ _ _ _ Hmeasure Hin')
    as (s4 & wf & s5 & wg & Hone).
  unfold measure_record in Hone.
  apply bind_Done in Hone as (s6 & wh & _ & Hone).
  apply bind_Done in Hone as (fields & wi & Hfields & _).
  destruct slv; try discriminate Hfields. eauto.
Qed.

End table_rows.

(** ** What the formatters leave alone *)

Ltac head_of t :=
  lazymatch t with
  | ?g _ => head_of g
  | _ => t
  end.

Section frame.
Context {rt : GoRuntime} {js : EncodingJSON}.
Context {B : Type} (f : World -> B).

Lemma preserves_ret {A} (a : A) : preserves f (ret a).
Proof. by intros w. Qed.

Lemma preserves_panic {A} p : preserves f (panic (A := A) p).
Proof. by intros w. Qed.

Lemma preserves_outside_model {A} why :
  preserves f (outside_model (A := A) why).
Proof. by intros w. Qed.

Lemma preserves_bind {A C} (m : Go A) (k : A -> Go C) :
  preserves f m -> (forall a, preserves f (k a)) -> preserves f (bind m k).
Proof.
  intros Hm Hk w. unfold bind. specialize (Hm w).
  destruct (m w) as [[a|p|why] w1]; simpl in *; [|done|done].
  by rewrite Hk.
Qed.

Lemma preserves_for_each {A} (l : list A) (body : A -> Go unit) :
  (forall x, preserves f (body x)) -> preserves f (for_each l body).
Proof.
  intros Hbody. induction l as [|x l IH]; simpl.
  - apply preserves_ret.
  - apply preserves_bind; [apply Hbody|by intros _].
Qed.

Lemma preserves_for_fold {A S} (l : list A) (body : A -> S -> Go S) s :
  (forall x s, preserves f (body x s)) -> preserves f (for_fold l body s).
Proof.
  intros Hbody. revert s. induction l as [|x l IH]; intros s; simpl.
  - apply preserves_ret.
  - apply preserves_bind; [apply Hbody|apply IH].
Qed.

Hypothesis print_text_preserves : forall s, preserves f (print_text s).
Hypothesis range_map_preserves : forall m, preserves f (range_map m).

Ltac frame :=
  repeat (cbv beta zeta;
    lazymatch goal with
    | |- preserves _ (bind _ _) => apply preserves_bind; [|intros ?]
    | |- preserves _ (for_each _ _) => apply preserves_for_each; intros ?
    | |- preserves _ (for_fold _ _ _) => apply preserves_for_fold; intros ? ?
    | |- preserves _ (ret _) => apply preserves_ret
    | |- preserves _ (panic _) => apply preserves_panic
    | |- preserves _ (outside_model _) => apply preserves_outside_model
    | |- preserves _ (print_text _) => apply print_text_preserves
    | |- preserves _ (range_map _) => apply range_map_preserves
    | |- preserves _ (match ?x with _ => _ end) => destruct x
    | |- preserves _ (match ?x with _ => _ end _) => destruct x
    | |- preserves _ ?m => let h := head_of m in progress unfold h
    end).

Lemma handleAll_preserves recv verbose :
  preserves f (handleAll recv verbose).
Proof. frame. Qed.

Hypothesis logger_Output_preserves : forall s, preserves f (logger_Output s).

Lemma receive_preserves env conn : preserves f (receive env conn).
Proof.
  unfold receive. destruct (json_Decode (incoming conn)) as [recv err].
  apply preserves_bind.
  - destruct err as [err|].
    + apply preserves_bind; [apply logger_Output_preserves|].
      intros _. apply preserves_ret.
    + unfold decoded. apply preserves_bind; [apply logger_Output_preserves|].
      intros _.
      repeat lazymatch goal with
        | |- preserves _ (handleAll _ _) => apply handleAll_preserves
        | |- _ => progress frame
        end.
  - intros [code|]; apply preserves_ret.
Qed.

End frame.

(** The formatters only print: whatever the response is, and whether the
    formatter completes or panics, [handleAll] adds nothing to the log
    buffer and writes nothing to the connection. *)
Theorem handleAll_only_prints {rt : GoRuntime} {js : EncodingJSON}
    recv verbose w :
  logbuf (handleAll recv verbose w).2 = logbuf w
  /\ written (handleAll recv verbose w).2 = written w.
Proof. split; by apply handleAll_preserves. Qed.

(** [run] writes to the connection once: the document of the request when
    the connection takes it, and nothing when the writing fails, whatever
    the response is and however its handling ends. *)
Theorem run_writes_once {rt : GoRuntime} {js : EncodingJSON} env conn w :
  exists send,
    only_logs (build_request env) send
    /\ written (run env conn w).2
       = (written w ++ match write_error conn with
                       | None => [json_Encode send]
                       | Some _ => []
                       end)%list.
Proof.
  destruct (request_loop_only_logs (args env) 0 ∅) as [send Hsend].
  exists send. split; [exact Hsend|].
  assert (Hrun : written (run env conn w).2
                 = written (run_body env conn w).2).
  { unfold run. by destruct (run_body env conn w) as [[code|p|why] w1]. }
  rewrite Hrun. unfold run_body, send_request, bind.
  change (logger_Output "Connected" w)
    with (Done tt, (logger_Output "Connected" w).2).
  cbv iota.
  destruct (Hsend (logger_Output "Connected" w).2)
    as (w1 & Hw1 & _ & _ & Hwritten).
  fold (build_request env) in Hw1. rewrite Hw1. unfold encoder_Encode.
  destruct (write_error conn) as [err|]; simpl.
  { by rewrite Hwritten, app_nil_r. }
  match goal with
  | |- written (receive env conn ?w2).2 = _ =>
      rewrite (receive_preserves written) by (by intros ? ?)
  end.
  simpl. by rewrite Hwritten.
Qed.

(** ** The cells of the byte counters *)

Section byte_counts.
Context {rt : GoRuntime}.

(** A cell of the column [bytes_sent] or [bytes_recvd] (lines 256 to 258)
    is the whole part of the number in decimal, for a number that is not
    negative and whose whole part is below [2 ^ 64]; a value that is no
    number stops the formatter in a panic. *)
Theorem byte_count_cell (k : string) (w : World) :
  k = "bytes_sent" \/ k = "bytes_recvd" ->
  (forall q,
     (0 <= q)%Q -> Qfloor q < 2 ^ 64 ->
     format_cell k (Number q) w = (Done (strconv.Itoa (Qfloor q)), w))
  /\ (forall v,
        as_float64 v = None ->
        format_cell k v w
        = (Panicked (TypeAssertionError (dynamic_type v) TFloat64), w)).
Proof.
  intros Hk.
  assert (Hcol : String.eqb k "bytes_sent" || String.eqb k "bytes_recvd"
                 = true) by (by destruct Hk as [-> | ->]).
  unfold format_cell. rewrite Hcol. split.
  - intros q H0 Hb. unfold bind. simpl. by rewrite (uint_floor q w H0 Hb).
  - intros v Hv. by destruct v.
Qed.

End byte_counts.

(** ** The further properties at concrete inputs *)

Lemma decode_error_exit_status_witness :
  exists w',
    run (rt := example_runtime) (js := example_json)
      (command false ["getPeers"])
      (answers "{'status':'warning','x':1e999}") start
    = (Done 1, w')
    /\ stdout w' = stdout start.
Proof.
  destruct (decode_error_exit_status (rt := example_runtime)
              (js := example_json) (command false ["getPeers"])
              (answers "{'status':'warning','x':1e999}")
              {["status" := Text "warning"; "x" := Null]}
              "json: cannot unmarshal number into Go value of type float64"
              start)
    as (w' & Hrun & Hout); [reflexivity|vm_compute; reflexivity|].
  exists w'. split; [exact Hrun|exact Hout].
Defined.

Lemma write_failure_exits_zero_witness :
  exists w' n,
    run (rt := example_runtime) (js := example_json)
      (command false ["getPeers"])
      {| write_error := Some "write: broken pipe"; incoming := "{}" |} start
    = (Done 0, w')
    /\ written w' = written start
    /\ stdout w'
       = (stdout start ++ [String.concat EmptyString (logbuf w')])%list
    /\ last (logbuf w')
       = Some (log_header (GoRuntime := example_runtime) n
               +:+ "Fatal error: " +:+ "write: broken pipe" +:+ nl).
Proof.
  apply (write_failure_exits_zero (rt := example_runtime)
           (js := example_json)).
  reflexivity.
Defined.

Lemma handleAll_needs_shape_witness :
  exists req name res,
    routes_response "getRoutes" !! "request" = Some (Record req)
    /\ req !! "request" = Some (Text name)
    /\ routes_response "getRoutes" !! "response" = Some (Record res).
Proof.
  apply (handleAll_needs_shape (rt := example_runtime) (js := example_json)
           (routes_response "getRoutes") false start
           (handleAll (rt := example_runtime) (js := example_json)
              (routes_response "getRoutes") false start).2).
  vm_compute. reflexivity.
Defined.

Lemma handleAll_unknown_command_witness :
  handleAll (rt := example_runtime) (js := example_json)
    (routes_response "getNodeInfo") false start
  = (Done tt,
     printed start
       [dq "{" +:+ nl +:+ dq "  'routes': {" +:+ nl
        +:+ dq "    '10.0.0.0/8': 'abc'" +:+ nl +:+ "  }" +:+ nl +:+ "}"
        +:+ nl]).
Proof.
  rewrite (handleAll_unknown_command (rt := example_runtime)
             (js := example_json) (routes_response "getNodeInfo")
             {["request" := Text "getNodeInfo"]} "getNodeInfo"
             {["routes" := Record {["10.0.0.0/8" := Text "abc"]}]}
             false start);
    [vm_compute; reflexivity|reflexivity..|].
  intros Hin. unfold known_commands in Hin.
  repeat (apply elem_of_cons in Hin as [Heq|Hin]; [discriminate Heq|]).
  by apply elem_of_nil in Hin.
Defined.

Lemma handleAll_dispatch_witness :
  handleAll (rt := example_runtime) (js := example_json)
    (routes_response "GetRoutes") false
  = handleGetRoutes (rt := example_runtime)
      {["routes" := Record {["10.0.0.0/8" := Text "abc"]}]}.
Proof.
  apply (handleAll_dispatch (rt := example_runtime) (js := example_json)
           (routes_response "GetRoutes") {["request" := Text "GetRoutes"]}
           "GetRoutes" _ false (fun res _ => handleGetRoutes res));
    [reflexivity..|].
  unfold registry.
  repeat (first [apply list_elem_of_here|apply list_elem_of_further]).
Defined.

Lemma listing_formatters_witness :
  handleGetSourceSubnets (rt := example_runtime)
    {["source_subnets" := Sequence []]} start
  = (Done tt, printed start ["Source subnets:" +:+ nl])
  /\ handleGetSourceSubnets (rt := example_runtime)
       {["source_subnets" := Null]} start
     = (Done tt, printed start ["No source subnets found" +:+ nl])
  /\ handleGetSourceSubnets (rt := example_runtime)
       {["source_subnets" := Text "10.0.0.0/8"]} start
     = (Panicked (TypeAssertionError (Some TString) TSlice),
        printed start ["Source subnets:" +:+ nl]).
Proof.
  assert (Hin : (handleGetSourceSubnets (rt := example_runtime),
                 "source_subnets", "No source subnets found",
                 "Source subnets:") ∈ listings (rt := example_runtime)).
  { unfold listings.
    repeat (first [apply list_elem_of_here|apply list_elem_of_further]). }
  split; [|split].
  - destruct (listing_formatters (rt := example_runtime) _ _ _ _
                {["source_subnets" := Sequence []]} Hin) as (_ & Hlist & _).
    exact (Hlist [] eq_refl start).
  - destruct (listing_formatters (rt := example_runtime) _ _ _ _
                {["source_subnets" := Null]} Hin) as (Hnone & _ & _).
    exact (Hnone (or_intror eq_refl) start).
  - destruct (listing_formatters (rt := example_runtime) _ _ _ _
                {["source_subnets" := Text "10.0.0.0/8"]} Hin)
      as (_ & _ & Hother).
    exact (Hother (Text "10.0.0.0/8") eq_refl ltac:(discriminate)
             ltac:(discriminate) start).
Defined.

Lemma handleAddsAndRemoves_lines_witness :
  handleAddsAndRemoves (rt := example_runtime)
    {["added" := Sequence [Text "tcp://a:1"];
      "not_added" := Sequence [Text "tcp://b:2"]]} start
  = (Done tt, printed start ["Added: tcp://a:1" +:+ nl;
                             "Not added: tcp://b:2" +:+ nl])
  /\ handleAddsAndRemoves (rt := example_runtime) {["added" := Null]} start
     = (Panicked (TypeAssertionError None TSlice), start).
Proof.
  split.
  - destruct (handleAddsAndRemoves_lines (rt := example_runtime)
                {["added" := Sequence [Text "tcp://a:1"];
                  "not_added" := Sequence [Text "tcp://b:2"]]})
      as [Hlines _].
    apply Hlines. intros key Hkey.
    repeat (apply elem_of_cons in Hkey as [->|Hkey];
            [first [by left|right; by eexists]|]).
    by apply elem_of_nil in Hkey.
  - destruct (handleAddsAndRemoves_lines (rt := example_runtime)
                {["added" := Null]}) as [_ Hpanic].
    by apply (Hpanic Null start).
Defined.

Lemma handleGetRoutes_lines_witness :
  exists w' kvs,
    handleGetRoutes (rt := example_runtime)
      {["routes" := Record {["10.0.0.0/8" := Text "abc"; "bad" := Number 1]}]}
      start
    = (Done tt, w')
    /\ kvs ≡ₚ [("10.0.0.0/8", Text "abc"); ("bad", Number 1)]
    /\ stdout w'
       = ("Routes:" +:+ nl) :: concat (map route_lines kvs).
Proof.
  destruct (handleGetRoutes_lines (rt := example_runtime)
              {["routes" := Record {["10.0.0.0/8" := Text "abc";
                                     "bad" := Number 1]}]} start
              example_runtime_visits_every_entry)
    as (w' & kvs & Hrun & Hperm & Hout).
  exists w', kvs. split; [exact Hrun|]. split.
  - rewrite Hperm. vm_compute. reflexivity.
  - exact Hout.
Defined.

(** The line of a route has two spaces on either side of [via]:
    [fmt.Println] puts a space between any two operands. *)
Example handleGetRoutes_spaces :
  stdout (handleGetRoutes (rt := example_runtime)
            {["routes" := Record {["10.0.0.0/8" := Text "abc";
                                   "bad" := Number 1]}]} start).2
  = ["Routes:" +:+ nl; "- 10.0.0.0/8  via  abc" +:+ nl].
Proof. vm_compute. reflexivity. Qed.

Lemma handleGetAndSetTunTap_lines_witness :
  (exists w' kvs,
     handleGetAndSetTunTap (rt := example_runtime)
       {["tun0" := Record {["mtu" := Number 1500; "tap_mode" := Bool false]}]}
       start
     = (Done tt, w')
     /\ kvs ≡ₚ [("tun0", Record {["mtu" := Number 1500;
                                   "tap_mode" := Bool false]})]
     /\ stdout w'
        = concat (map (fun kv => tuntap_lines (rt := example_runtime) kv.1
                                   (default ∅ (as_map kv.2))) kvs))
  /\ handleGetAndSetTunTap (rt := example_runtime) {["tun0" := Text "up"]}
       start
     = (Panicked (TypeAssertionError (Some TString) TMap),
        mkWorld ["Interface name: tun0" +:+ nl] [] 1 []).
Proof.
  split.
  - destruct (handleGetAndSetTunTap_lines (rt := example_runtime)
                {["tun0" := Record {["mtu" := Number 1500;
                                     "tap_mode" := Bool false]}]} start
                example_runtime_visits_every_entry) as [Hlines _].
    destruct Hlines as (w' & kvs & Hrun & Hperm & Hout).
    { intros k v [_ <-]%lookup_singleton_Some. by eexists. }
    exists w', kvs. split; [exact Hrun|]. split; [|exact Hout].
    by rewrite Hperm, map_to_list_singleton.
  - destruct (handleGetAndSetTunTap_lines (rt := example_runtime)
                {["tun0" := Text "up"]} start
                example_runtime_visits_every_entry) as [_ Hpanic].
    by apply (Hpanic "tun0" (Text "up")).
Defined.

Example handleGetAndSetTunTap_example :
  stdout (handleGetAndSetTunTap (rt := example_runtime)
            {["tun0" := Record {["mtu" := Number 1500;
                                 "tap_mode" := Bool false]}]} start).2
  = ["Interface name: tun0" +:+ nl; "Interface MTU: 1500" +:+ nl;
     "TAP mode: false" +:+ nl].
Proof. vm_compute. reflexivity. Qed.

Lemma handleGetSwitchQueues_counters_witness :
  handleGetSwitchQueues
    {["switchqueues" :=
        Record {["queues_count" := Number 0; "queues_size" := Number (5 # 2);
                 "highest_queues_count" := Text "n/a";
                 "queues" := Sequence []]}]} start
  = (Done tt,
     printed start ["Active queue count: 0 queues" +:+ nl;
                    "Active queue size: 2 bytes" +:+ nl])
  /\ handleGetSwitchQueues ∅ start
     = (Panicked (TypeAssertionError None TMap), start).
Proof.
  set (v := {["queues_count" := Number 0; "queues_size" := Number (5 # 2);
              "highest_queues_count" := Text "n/a";
              "queues" := Sequence []]} : admin_info).
  split.
  - destruct (handleGetSwitchQueues_counters {["switchqueues" := Record v]}
                start) as [Hlines _].
    rewrite (Hlines v eq_refl).
    + vm_compute. reflexivity.
    + intros item items. vm_compute. discriminate.
    + intros c q Hc Hq. unfold queue_counters in Hc.
      assert (Hcases : q = 0%Q \/ q = (5 # 2)%Q).
      { repeat (apply elem_of_cons in Hc as [->|Hc];
                [vm_compute in Hq;
                 first [discriminate Hq
                       |injection Hq as <-; first [by left|by right]]|]).
        by apply elem_of_nil in Hc. }
      destruct Hcases as [-> | ->]; split; (discriminate || reflexivity).
  - destruct (handleGetSwitchQueues_counters ∅ start) as [_ Hpanic].
    apply Hpanic. discriminate.
Defined.

Lemma handleGetSelf_lines_witness :
  exists w' kvs,
    handleGetSelf (rt := example_runtime) scenario_A false start
    = (Done tt, w')
    /\ kvs ≡ₚ [("200:1::1", Record scenario_A_node)]
    /\ stdout w'
       = concat (map (fun kv => self_lines false kv.1
                                  (default ∅ (as_map kv.2))) kvs).
Proof.
  destruct (handleGetSelf_lines (rt := example_runtime) scenario_A
              {["200:1::1" := Record scenario_A_node]} false start)
    as (w' & kvs & Hrun & Hperm & Hout).
  - exact example_runtime_visits_every_entry.
  - reflexivity.
  - intros k v [_ <-]%lookup_singleton_Some. by eexists.
  - exists w', kvs. split; [exact Hrun|]. split; [|exact Hout].
    by rewrite Hperm, map_to_list_singleton.
Defined.

Lemma columns_of_first_record_witness :
  exists st' w',
    measure_record (rt := example_runtime) false "1"
      (Record {["port" := Number 1; "uptime" := Number 125;
                "box_pub_key" := Text "k1"; "endpoint" := Text "tcp://a:1"]})
      {| maxWidths := ∅; keyOrder := []; keysOrdered := false |} start
    = (Done st', w')
    /\ keyOrder st' = ["endpoint"; "port"; "uptime"]
    /\ keysOrdered st' = true
    /\ ascending (keyOrder st').
Proof.
  eexists _, _. split; [vm_compute; reflexivity|].
  split; [vm_compute; reflexivity|].
  destruct (columns_of_first_record (rt := example_runtime) false "1"
              {["port" := Number 1; "uptime" := Number 125;
                "box_pub_key" := Text "k1"; "endpoint" := Text "tcp://a:1"]}
              {| maxWidths := ∅; keyOrder := []; keysOrdered := false |}
              _ start _ example_runtime_visits_every_entry eq_refl eq_refl
              eq_refl) as (Hordered & _ & Hascending).
  split; [exact Hordered|exact Hascending].
Defined.

Lemma widths_fit_witness :
  exists st' w',
    handle_category (rt := example_runtime) false (Record peers_example)
      {| maxWidths := ∅; keyOrder := []; keysOrdered := false |} start
    = (Done st', w')
    /\ (String.length (fmt.Sprint (rt := example_runtime)
                         (Text "tcp://a:1")) <= width st' "endpoint")%nat
    /\ (String.length "1" <= width st' "key")%nat.
Proof.
  eexists _, _.
  match goal with
  | |- ?run = (Done ?st, ?w) /\ _ =>
      assert (Hrun : run = (Done st, w)) by (vm_compute; reflexivity)
  end.
  split; [exact Hrun|].
  apply (widths_fit (rt := example_runtime) false peers_example _ _ _ _
           example_runtime_visits_every_entry Hrun "1"
           {["port" := Number 1; "uptime" := Number 125;
             "box_pub_key" := Text "k1"; "endpoint" := Text "tcp://a:1"]});
    reflexivity.
Defined.

Lemma row_needs_numbers_witness :
  exists q,
    ({["uptime" := Number 125; "port" := Number 1]} : admin_info) !! "uptime"
    = Some (Number q).
Proof.
  apply (row_needs_numbers (rt := example_runtime)
           {| maxWidths := ∅; keyOrder := ["port"; "uptime"];
              keysOrdered := true |}
           "1" {["uptime" := Number 125; "port" := Number 1]} start
           (print_row (rt := example_runtime)
              {| maxWidths := ∅; keyOrder := ["port"; "uptime"];
                 keysOrdered := true |}
              "1" (Record {["uptime" := Number 125; "port" := Number 1]})
              start).2).
  - vm_compute. reflexivity.
  - apply list_elem_of_further, list_elem_of_here.
  - unfold numeric_columns. do 2 apply list_elem_of_further.
    apply list_elem_of_here.
Defined.

(** A record without the column [uptime] that the table has. *)
Example row_without_uptime :
  print_row (rt := example_runtime)
    {| maxWidths := ∅; keyOrder := ["port"; "uptime"]; keysOrdered := true |}
    "2" (Record {["port" := Number 2]}) start
  = (Panicked (TypeAssertionError None TFloat64),
     printed start ["2  "; "2  "]).
Proof. vm_compute. reflexivity. Qed.

Lemma request_fields_witness :
  exists send w',
    send_request (rt := example_runtime) (js := example_json)
      (command false ["addPeer"; "uri=tcp://a:1"; "uri=tcp://b:2"; "request"])
      (answers "{}") start
    = (Done tt, w')
    /\ written w'
       = (written start
          ++ [json_Encode (EncodingJSON := example_json) send])%list
    /\ forall k,
         is_Some (send !! k)
         <-> (k = "request" /\ strings.HasPrefix "addPeer" "-" = false)
             \/ exists a,
                  a ∈ ["uri=tcp://a:1"; "uri=tcp://b:2"; "request"]
                  /\ (cut a).1 = k.
Proof.
  apply (request_fields (rt := example_runtime) (js := example_json)
           (command false ["addPeer"; "uri=tcp://a:1"; "uri=tcp://b:2";
                           "request"])
           (answers "{}") "addPeer"
           ["uri=tcp://a:1"; "uri=tcp://b:2"; "request"] start);
    reflexivity.
Defined.

Lemma integer_parameter_witness :
  (request_step (rt := example_runtime) 1 "port=-9223372036854775808" ∅
     start).1
  = Done {["port" := Int (- 2 ^ 63)]}
  /\ (request_step (rt := example_runtime) 1 "port=9223372036854775808" ∅
        start).1
     = Done {["port" := Text "9223372036854775808"]}.
Proof.
  split.
  - apply (integer_parameter (rt := example_runtime) 1 "port" (- 2 ^ 63) ∅
             start); [lia|reflexivity].
  - apply (integer_parameter (rt := example_runtime) 1 "port" (2 ^ 63) ∅
             start); [lia|reflexivity].
Defined.

Lemma connect_succeeds_only_witness :
  stdout (connect (rt := example_runtime) (net := example_network)
            "unix:/var/run/yggdrasil.sock" start).2 = stdout start
  /\ exists u,
       url_Parse (Network := example_network) "unix:/var/run/yggdrasil.sock"
       = Some u
       /\ ((strings.ToLower (Scheme u) = "unix"
            /\ (7 <= String.length "unix:/var/run/yggdrasil.sock")%nat
            /\ net_Dial (Network := example_network) "unix"
                 "ar/run/yggdrasil.sock"
               = inl {| write_error := None;
                        incoming := "ar/run/yggdrasil.sock" |})
           \/ (strings.ToLower (Scheme u) = "tcp"
               /\ net_Dial (Network := example_network) "tcp" (Host u)
                  = inl {| write_error := None;
                           incoming := "ar/run/yggdrasil.sock" |})).
Proof.
  apply (connect_succeeds_only (rt := example_runtime)
           (net := example_network) "unix:/var/run/yggdrasil.sock"
           {| write_error := None; incoming := "ar/run/yggdrasil.sock" |}
           start).
  vm_compute. reflexivity.
Defined.

(** Endpoints as they are typed: an address without a scheme is rejected
    by [url.Parse] and ends in the dereference of a nil URL; a host name
    with a port is read as a scheme. *)
Example connect_without_scheme :
  (connect (rt := example_runtime) (net := example_network)
     "127.0.0.1:9001" start).1
  = Panicked nil_dereference
  /\ (connect (rt := example_runtime) (net := example_network)
        "localhost:9001" start).1
     = Panicked (ErrorValue "protocol not supported")
  /\ (connect (rt := example_runtime) (net := example_network)
        "unix:x" start).1
     = Panicked
         (ErrorValue "runtime error: slice bounds out of range [7:6]")
  /\ (connect (rt := example_runtime) (net := example_network)
        "tcp://localhost:9001" start).1
     = Done {| write_error := None; incoming := "localhost:9001" |}.
Proof. repeat split; vm_compute; reflexivity. Qed.


Lemma table_shape_witness :
  exists st' w',
    handle_category (rt := example_runtime) false (Record peers_example)
      {| maxWidths := ∅; keyOrder := []; keysOrdered := false |} start
    = (Done st', w')
    /\ exists rows,
         stdout w' = (stdout start ++ header_texts st' ++ concat rows)%list
         /\ length rows = size peers_example
         /\ Forall (fun row => length row = (length (keyOrder st') + 2)%nat
                               /\ last row = Some nl) rows.
Proof.
  eexists _, _.
  match goal with
  | |- ?run = (Done ?st, ?w) /\ _ =>
      assert (Hrun : run = (Done st, w)) by (vm_compute; reflexivity)
  end.
  split; [exact Hrun|].
  exact (table_shape (rt := example_runtime) false peers_example _ _ _ _
           example_runtime_visits_every_entry Hrun).
Defined.

Lemma handleVariousInfo_needs_records_witness :
  exists records : admin_info,
    Record peers_example = Record records
    /\ forall slk slv,
         records !! slk = Some slv -> exists fields, slv = Record fields.
Proof.
  assert (Hrun : exists w',
            handleVariousInfo (rt := example_runtime)
              {["peers" := Record peers_example]} false start
            = (Done tt, w')).
  { eexists. vm_compute. reflexivity. }
  destruct Hrun as [w' Hrun].
  apply (handleVariousInfo_needs_records (rt := example_runtime)
           {["peers" := Record peers_example]} false start w'
           example_runtime_visits_every_entry Hrun "peers").
  vm_compute. reflexivity.
Defined.

Lemma byte_count_cell_witness :
  format_cell (rt := example_runtime) "bytes_sent" (Number (3073 # 2)) start
  = (Done (strconv.Itoa (Qfloor (3073 # 2))), start)
  /\ format_cell (rt := example_runtime) "bytes_sent" (Text "many") start
     = (Panicked (TypeAssertionError (dynamic_type (Text "many")) TFloat64),
        start).
Proof.
  destruct (byte_count_cell (rt := example_runtime) "bytes_sent" start
              (or_introl eq_refl)) as [Hnumber Hother].
  split.
  - apply Hnumber; [by vm_compute|by vm_compute].
  - by apply Hother.
Defined.

Lemma connect_panics_witness :
  connect (rt := example_runtime) (net := example_network)
    "127.0.0.1:9001" start
  = (Panicked nil_dereference, start)
  /\ connect (rt := example_runtime) (net := example_network) "unix:x" start
     = (Panicked (ErrorValue (slice_bounds_error (Network := example_network)
                                7 (String.length "unix:x"))),
        start).
Proof.
  destruct (connect_panics (rt := example_runtime) (net := example_network)
              "127.0.0.1:9001" start) as [Hnil _].
  destruct (connect_panics (rt := example_runtime) (net := example_network)
              "unix:x" start) as (_ & Hslice & _).
  split.
  - apply Hnil. vm_compute. reflexivity.
  - apply (Hslice {| Scheme := "unix"; Host := EmptyString |}).
    + vm_compute. reflexivity.
    + vm_compute. reflexivity.
    + simpl. lia.
Defined.
